(** * Automation News Digest: the filtering and aggregation core

    A shallow embedding of [automation_news_daily.py]
    (class [RSSAutomationNewsDigest]) and the properties of its relevance
    filter, feed fetcher and digest aggregator.

    Conventions of the embedding:
    - a Python [str] is a [string] over the code points 0..255; [len] is
      [String.length], [+] is [+:+], [in] is [str_in], [.lower()] is
      [lower], and [<] on strings is the code point order [String.leb];
    - a Python [int] is a [Z]; [len(...)] is a [nat] injected with
      [Z.of_nat] where it meets an [int];
    - an attribute that may be missing from a parsed feed entry is an
      [option]; reading a missing attribute raises [AttributeError];
    - effects (the clock, the network, the file system, the console used by
      the save methods) are threaded through a [World] by a state and
      exception monad [M]. *)

From Stdlib Require Import ZArith Lia Bool List Ascii String DecimalString.
From Stdlib Require Import Permutation Sorted.
From stdpp Require Import base list strings gmap.

Import ListNotations.
Local Open Scope Z_scope.
Local Open Scope nat_scope.
Local Open Scope list_scope.
Local Open Scope stdpp_scope.

(** ** Python strings *)

Module Str.

Definition space : ascii := " "%char.

(** [c.lower()] for one code point below 256: the ASCII capitals and the
    Latin-1 capitals U+00C0..U+00DE (the sign U+00D7 apart) move up by 32. *)
Definition lower_char (c : ascii) : ascii :=
  let n := nat_of_ascii c in
  if ((65 <=? n) && (n <=? 90)) || ((192 <=? n) && (n <=? 222) && negb (n =? 215))
  then ascii_of_nat (n + 32)
  else c.

(** [s.lower()] *)
Fixpoint lower (s : string) : string :=
  match s with
  | EmptyString => EmptyString
  | String c s' => String (lower_char c) (lower s')
  end.

(** [hay.startswith(needle)] *)
Fixpoint starts_with (needle hay : string) : bool :=
  match needle, hay with
  | EmptyString, _ => true
  | String _ _, EmptyString => false
  | String a needle', String b hay' => Ascii.eqb a b && starts_with needle' hay'
  end.

(** [needle in hay]: [needle] occurs at some offset of [hay] *)
Fixpoint str_in (needle hay : string) : bool :=
  starts_with needle hay ||
  match hay with
  | EmptyString => false
  | String _ hay' => str_in needle hay'
  end.

(** [s[:n]] for [n >= 0] *)
Fixpoint take (n : nat) (s : string) : string :=
  match n, s with
  | O, _ => EmptyString
  | S _, EmptyString => EmptyString
  | S n', String c s' => String c (take n' s')
  end.

(** [s.split(sep)] for a separator of one character *)
Fixpoint split_char (sep : ascii) (s : string) : list string :=
  match s with
  | EmptyString => [EmptyString]
  | String c s' =>
      if Ascii.eqb c sep then EmptyString :: split_char sep s'
      else match split_char sep s' with
           | t :: ts => String c t :: ts
           | [] => [String c EmptyString]
           end
  end.

(** no character of [s] is a space *)
Fixpoint space_free (s : string) : bool :=
  match s with
  | EmptyString => true
  | String c s' => negb (Ascii.eqb c space) && space_free s'
  end.

End Str.

(** What the specification calls a substring and a space-delimited token. *)
Definition is_substring (needle hay : string) : Prop :=
  exists pre post, hay = pre +:+ needle +:+ post.

Definition is_token (w text : string) : Prop :=
  In w (Str.split_char Str.space text).

(** ** Data model *)

Module FeedSource.
Record t := mk { name : string; url : string }.
End FeedSource.

Module NewsItem.
Record t := mk {
  title : string;
  url : string;
  description : string;
  source : string;
  date : string
}.
End NewsItem.

(** The object state of [RSSAutomationNewsDigest]. *)
Module Digest.
Record t := mk {
  keywords : list string;
  max_results : Z;
  debug_mode : bool;
  rss_feeds : list FeedSource.t;
  news_items : list NewsItem.t
}.

Definition set_news_items (self : t) (items : list NewsItem.t) : t :=
  {| keywords := keywords self;
     max_results := max_results self;
     debug_mode := debug_mode self;
     rss_feeds := rss_feeds self;
     news_items := items |}.
End Digest.

Definition default_keywords : list string :=
  [ "workflow automation"; "process automation"; "digital automation";
    "robotic process automation"; "rpa"; "hyperautomation";
    "no-code automation"; "low-code"; "business process automation";
    "intelligent automation"; "document automation"; "task automation";
    "ai automation"; "digital twins"; "automation tools"; "agentic";
    "ai agent"; "automation platform"; "workflow management";
    "automation"; "automate"; "automated"; "automating";
    "productivity automation"; "office automation"; "email automation";
    "data automation"; "automation software"; "citizen developer" ].

Definition default_rss_feeds : list FeedSource.t :=
  [ FeedSource.mk "TechCrunch" "https://techcrunch.com/feed/";
    FeedSource.mk "TechCrunch Enterprise" "https://techcrunch.com/enterprise/feed/";
    FeedSource.mk "VentureBeat" "https://feeds.feedburner.com/venturebeat/SZYF";
    FeedSource.mk "Wired" "https://www.wired.com/feed/rss";
    FeedSource.mk "MIT Technology Review" "https://www.technologyreview.com/feed/";
    FeedSource.mk "UiPath Blog" "https://www.uipath.com/blog/rss.xml";
    FeedSource.mk "AutomationEdge" "https://automationedge.com/feed";
    FeedSource.mk "Digital Workforce" "https://digitalworkforce.com/rpa-news/feed/";
    FeedSource.mk "Intelligent Automation Network"
      "https://www.intelligentautomation.network/rss/all";
    FeedSource.mk "Process Excellence Network"
      "https://www.processexcellencenetwork.com/rss/all";
    FeedSource.mk "The Enterprisers Project"
      "https://enterprisersproject.com/taxonomy/term/8271/feed";
    FeedSource.mk "SSON Analytics RPA"
      "https://www.sson-analytics.com/taxonomy/term/7066/feed";
    FeedSource.mk "Convedo Digital Transformation" "https://convedo.com/blog/feed/";
    FeedSource.mk "Sisua Digital" "https://sisuadigital.com/feed";
    FeedSource.mk "Roboyo" "https://roboyo.global/insights/feed/" ].

(** [__init__(self, keywords=None, max_results=100, debug_mode=False)]:
    [keywords if keywords else self.default_keywords] takes the defaults for
    [None] and for the empty list alike. *)
Definition __init__ (keywords : option (list string)) (max_results : Z)
    (debug_mode : bool) : Digest.t :=
  {| Digest.keywords :=
       match keywords with
       | Some (k :: ks) => k :: ks
       | Some [] | None => default_keywords
       end;
     Digest.max_results := max_results;
     Digest.debug_mode := debug_mode;
     Digest.rss_feeds := default_rss_feeds;
     Digest.news_items := [] |}.

(** ** The relevance filter *)

Definition english_markers : list string :=
  ["the"; "and"; "is"; "in"; "to"; "of"; "for"; "a"; "with"; "that"].

(** [_is_related_to_automation(self, title, description)]; the debug lines
    it prints are not part of the model. *)
Definition _is_related_to_automation (self : Digest.t)
    (title description : string) : bool :=
  let text_to_check := Str.lower (title +:+ " " +:+ description) in
  let english_word_count :=
    length (List.filter
              (fun word => Str.str_in (" " +:+ word +:+ " ") (" " +:+ text_to_check +:+ " "))
              english_markers) in
  let is_english := 2 <=? english_word_count in
  let is_automation_related :=
    existsb (fun keyword => Str.str_in (Str.lower keyword) text_to_check)
            (Digest.keywords self) in
  is_automation_related && is_english.

(** ** Dates and the clock *)

Module DateTime.
Record t := mk { year : Z; month : Z; day : Z; hour : Z; minute : Z }.
End DateTime.

(** [str(n)] for [n >= 0] *)
Definition str_of_nat (n : nat) : string :=
  DecimalString.NilZero.string_of_uint (Nat.to_uint n).

Fixpoint repeat_char (c : ascii) (n : nat) : string :=
  match n with
  | O => EmptyString
  | S n' => String c (repeat_char c n')
  end.

(** [s.zfill(width)] for a string of digits *)
Definition zfill (width : nat) (s : string) : string :=
  repeat_char "0" (width - String.length s) +:+ s.

(** The decimal digits of [n >= 0] filled with zeros to [width], as
    [%04d] and [%02d] print them. *)
Definition fmt_int (width : nat) (n : Z) : string :=
  zfill width (str_of_nat (Z.to_nat n)).

Definition pad2 (n : Z) : string := fmt_int 2 n.

Definition pad4 (n : Z) : string := fmt_int 4 n.

(** [dt.strftime('%Y-%m-%d')] *)
Definition strftime_ymd (dt : DateTime.t) : string :=
  pad4 (DateTime.year dt) +:+ "-" +:+ pad2 (DateTime.month dt) +:+ "-"
    +:+ pad2 (DateTime.day dt).

(** [dt.strftime('%Y-%m-%d %H:%M')] *)
Definition strftime_ymd_hm (dt : DateTime.t) : string :=
  strftime_ymd dt +:+ " " +:+ pad2 (DateTime.hour dt) +:+ ":"
    +:+ pad2 (DateTime.minute dt).

(** A calendar reading [datetime.now()] returns, with a year of four
    digits: below year 1000 the width of [%Y] depends on the platform. *)
Definition valid_datetime (dt : DateTime.t) : Prop :=
  (1000 <= DateTime.year dt <= 9999 /\ 1 <= DateTime.month dt <= 12 /\
   1 <= DateTime.day dt <= 31 /\ 0 <= DateTime.hour dt <= 23 /\
   0 <= DateTime.minute dt <= 59)%Z.

Definition is_digit (c : ascii) : bool :=
  (48 <=? N_of_ascii c)%N && (N_of_ascii c <=? 57)%N.

Definition two_digits (s : string) : bool :=
  match s with
  | String a (String b EmptyString) => is_digit a && is_digit b
  | _ => false
  end.

Definition four_digits (s : string) : bool :=
  match s with
  | String a (String b s') => is_digit a && is_digit b && two_digits s'
  | _ => false
  end.

(** the shape [YYYY-MM-DD] *)
Definition is_ymd_form (s : string) : bool :=
  match s with
  | String y1 (String y2 (String y3 (String y4 (String h1
      (String m1 (String m2 (String h2 (String d1 (String d2 EmptyString))))))))) =>
      is_digit y1 && is_digit y2 && is_digit y3 && is_digit y4 &&
      Ascii.eqb h1 "-" && is_digit m1 && is_digit m2 &&
      Ascii.eqb h2 "-" && is_digit d1 && is_digit d2
  | _ => false
  end.

(** [time.struct_time], the nine-field tuple of [published_parsed]. *)
Module struct_time.
Record t := mk {
  tm_year : Z; tm_mon : Z; tm_mday : Z; tm_hour : Z; tm_min : Z;
  tm_sec : Z; tm_wday : Z; tm_yday : Z; tm_isdst : Z
}.
End struct_time.

(** ** Parsed feed entries *)

(** A [feedparser] entry. [None] is an attribute the entry does not have
    ([hasattr] is [False]); [published_parsed] may also be present and
    [None]; [content] holds the [value] of each content block. *)
Module Entry.
Record t := mk {
  title : option string;
  link : option string;
  summary : option string;
  description : option string;
  content : option (list string);
  published_parsed : option (option struct_time.t);
  pubDate : option string
}.
End Entry.

(** ** Effects *)

Inductive exn : Type :=
  | AttributeError (attr : string)
  | ValueError (msg : string)
  | OSError (msg : string).

Inductive Result (A : Type) : Type :=
  | Ok (a : A)
  | Raise (e : exn).
Arguments Ok {A} a.
Arguments Raise {A} e.

(** The world outside the object: how many clock reads and network calls
    were made so far, the directories and files on disk, the console. *)
Module World.
Record t := mk {
  ticks : nat;
  dirs : gset string;
  files : gmap string string;
  stdout : list string
}.

Definition tick (w : t) : t :=
  {| ticks := S (ticks w); dirs := dirs w; files := files w; stdout := stdout w |}.
Definition add_dir (d : string) (w : t) : t :=
  {| ticks := ticks w; dirs := {[ d ]} ∪ dirs w; files := files w; stdout := stdout w |}.
Definition put_file (path data : string) (w : t) : t :=
  {| ticks := ticks w; dirs := dirs w; files := <[ path := data ]> (files w);
     stdout := stdout w |}.
Definition put_line (line : string) (w : t) : t :=
  {| ticks := ticks w; dirs := dirs w; files := files w; stdout := stdout w ++ [line] |}.
End World.

Definition M (A : Type) : Type := World.t -> Result A * World.t.

Definition ret {A} (a : A) : M A := fun w => (Ok a, w).

Definition raise {A} (e : exn) : M A := fun w => (Raise e, w).

Definition bind {A B} (c : M A) (k : A -> M B) : M B :=
  fun w => match c w with
           | (Ok a, w') => k a w'
           | (Raise e, w') => (Raise e, w')
           end.

(** [try: body / except Exception as e: handler(e)] *)
Definition try_except {A} (body : M A) (handler : exn -> M A) : M A :=
  fun w => match body w with
           | (Ok a, w') => (Ok a, w')
           | (Raise e, w') => handler e w'
           end.

Notation "x <- c ;; k" := (bind c (fun x => k))
  (at level 100, c at next level, right associativity).
Notation "c ;;; k" := (bind c (fun _ => k))
  (at level 100, right associativity).

(** [entry.attr] on an attribute that may be missing *)
Definition getattr {A} (attr : string) (field : option A) : M A :=
  match field with
  | Some v => ret v
  | None => raise (AttributeError attr)
  end.

Definition print (line : string) : M unit :=
  fun w => (Ok tt, World.put_line line w).

(** [os.makedirs(path, exist_ok=True)] *)
Definition makedirs (path : string) : M unit :=
  fun w => (Ok tt, World.add_dir path w).

(** [open(path, 'w').write(data)] *)
Definition write_file (path data : string) : M unit :=
  fun w => (Ok tt, World.put_file path data w).

(** ** Sorting and slicing *)

(** [l[:k]] for a Python [int] [k]: a negative [k] counts from the end. *)
Definition slice_to {A} (l : list A) (k : Z) : list A :=
  if (0 <=? k)%Z then firstn (Z.to_nat k) l
  else firstn (Z.to_nat (Z.of_nat (length l) + k)) l.

(** [list.sort(key=lambda x: x['date'], reverse=True)]. The sort of Python
    is stable, also with [reverse=True], and a stable sort has one result;
    the model computes it by insertion from the right. *)
Fixpoint insert_by_date (x : NewsItem.t) (l : list NewsItem.t) : list NewsItem.t :=
  match l with
  | [] => [x]
  | y :: l' =>
      if String.ltb (NewsItem.date x) (NewsItem.date y)
      then y :: insert_by_date x l'
      else x :: y :: l'
  end.

Definition sort_by_date_desc (l : list NewsItem.t) : list NewsItem.t :=
  fold_right insert_by_date [] l.

(** [a.date >= b.date] in the order of Python strings *)
Definition date_ge (a b : NewsItem.t) : Prop :=
  String.leb (NewsItem.date b) (NewsItem.date a) = true.

Definition has_date (d : string) (x : NewsItem.t) : bool :=
  String.eqb (NewsItem.date x) d.

(** ** The HTML templates of [generate_html]

    The text of the f-strings, with [dq] for the double quote. *)

Definition dq : string := String (ascii_of_nat 34) EmptyString.

Definition html_header (generated_on : string) : string :=
  "
        <div style=" +:+ dq +:+ "font-family: Arial, sans-serif; max-width: 800px; margin: 0 auto; padding: 20px;" +:+ dq +:+ ">
            <h1 style=" +:+ dq +:+ "color: #333;" +:+ dq +:+ ">Automation News Digest</h1>
            <p>Generated on "
    +:+ generated_on
    +:+ "</p>
        ".

Definition html_source_open (source : string) : string :=
  "
            <div style=" +:+ dq +:+ "margin-bottom: 30px;" +:+ dq +:+ ">
                <h2 style=" +:+ dq +:+ "color: #0066cc; margin-top: 30px; border-bottom: 1px solid #ddd; padding-bottom: 10px;" +:+ dq +:+ ">"
    +:+ source
    +:+ "</h2>
                <ul style=" +:+ dq +:+ "list-style-type: none; padding: 0;" +:+ dq +:+ ">
            ".

Definition html_item (item : NewsItem.t) : string :=
  "
                <li style=" +:+ dq +:+ "margin-bottom: 15px;" +:+ dq +:+ ">
                    <a href=" +:+ dq
    +:+ NewsItem.url item
    +:+ dq +:+ " target=" +:+ dq +:+ "_blank" +:+ dq +:+ " style=" +:+ dq +:+ "color: #0066cc; text-decoration: none; font-weight: bold;" +:+ dq +:+ ">"
    +:+ NewsItem.title item
    +:+ "</a>
                    <div style=" +:+ dq +:+ "color: #333; margin: 5px 0;" +:+ dq +:+ ">"
    +:+ NewsItem.description item
    +:+ "</div>
                    <div style=" +:+ dq +:+ "color: #666; font-size: 0.8em;" +:+ dq +:+ ">"
    +:+ NewsItem.date item
    +:+ "</div>
                </li>
                ".

Definition html_source_close : string :=
  "
                </ul>
            </div>
            ".

Definition html_footer : string :=
  "
        </div>
        ".


(** ** Tag stripping and truncation *)

Definition newline : ascii := ascii_of_nat 10.

(** Offset of the first [>] of [s], when no newline comes before it: where
    the lazy [.*?>] ends, [.] matching every character but the newline. *)
Fixpoint find_close (s : string) : option nat :=
  match s with
  | EmptyString => None
  | String c s' =>
      if Ascii.eqb c ">" then Some 0
      else if Ascii.eqb c newline then None
      else option_map S (find_close s')
  end.

(** [re.sub(r'<.*?>', '', s)], scanning from the left; [skip] counts the
    characters of the current match still to drop. *)
Fixpoint strip_tags_from (skip : nat) (s : string) : string :=
  match s with
  | EmptyString => EmptyString
  | String c s' =>
      match skip with
      | S k => strip_tags_from k s'
      | O =>
          if Ascii.eqb c "<" then
            match find_close s' with
            | Some k => strip_tags_from (S k) s'
            | None => String c (strip_tags_from 0 s')
            end
          else String c (strip_tags_from 0 s')
      end
  end.

Definition strip_tags (s : string) : string := strip_tags_from 0 s.

(** [clean[:200] + '...' if len(clean) > 200 else clean] *)
Definition truncate_description (clean_description : string) : string :=
  if 200 <? String.length clean_description
  then Str.take 200 clean_description +:+ "..."
  else clean_description.

(** truth value of a Python [str] *)
Definition truthy (s : string) : bool := negb (String.eqb s EmptyString).

(** ** The feed fetcher and the aggregator *)

(** The counters [fetch_news] keeps and prints in its summary, next to the
    object it updates and the list it returns. *)
Module Report.
Record t := mk {
  self : Digest.t;
  returned : list NewsItem.t;
  total_feeds : nat;
  total_entries_checked : nat;
  successful_feeds : nat;
  failed_feeds : nat
}.
End Report.

(** The local variables of the loop of [fetch_news]. *)
Module Loop.
Record t := mk {
  news_items : list NewsItem.t;
  total_entries_checked : nat;
  successful_feeds : nat;
  failed_feeds : nat
}.
End Loop.

(** The libraries and the outside world the script talks to. *)
Module Env.
Record t := mk {
  (** [datetime.now()] at the given tick of the world *)
  datetime_now : nat -> DateTime.t;
  (** [feedparser.parse(url).entries] at the given tick: the entries, or
      the error of the retrieval *)
  feedparser_parse : nat -> string -> Result (list Entry.t);
  (** [time.strftime('%Y-%m-%d', t)] *)
  time_strftime_ymd : struct_time.t -> Result string;
  (** [pd.to_datetime(s).strftime('%Y-%m-%d')] *)
  pd_to_datetime_ymd : string -> Result string;
  (** [os.path.join(folder, filename)] *)
  os_path_join : string -> string -> string;
  (** [pd.DataFrame(items).to_csv(index=False)], the text written *)
  to_csv : list NewsItem.t -> string
}.
End Env.

Section Program.

Variable env : Env.t.

Definition now : M DateTime.t :=
  fun w => (Ok (Env.datetime_now env (World.ticks w)), World.tick w).

Definition parse (url : string) : M (list Entry.t) :=
  fun w => (Env.feedparser_parse env (World.ticks w) url, World.tick w).

(** the description: [summary], else [description], else the first
    content block, else the empty string *)
Definition entry_description (entry : Entry.t) : string :=
  match Entry.summary entry with
  | Some summary => summary
  | None =>
      match Entry.description entry with
      | Some description => description
      | None =>
          match Entry.content entry with
          | Some (block :: _) => block
          | Some [] | None => EmptyString
          end
      end
  end.

(** the link, or the empty string for an entry without one *)
Definition entry_url (entry : Entry.t) : string :=
  match Entry.link entry with
  | Some link => link
  | None => EmptyString
  end.

(** the publication date, [today] being the default read from the clock *)
Definition entry_pub_date (today : string) (entry : Entry.t) : string :=
  match Entry.published_parsed entry with
  | Some (Some published_parsed) =>
      match Env.time_strftime_ymd env published_parsed with
      | Ok pub_date => pub_date
      | Raise _ => today
      end
  | Some None | None =>
      match Entry.pubDate entry with
      | Some pubDate =>
          match Env.pd_to_datetime_ymd env pubDate with
          | Ok pub_date => pub_date
          | Raise _ => today
          end
      | None => today
      end
  end.

(** the item [fetch_feed] appends for an accepted entry *)
Definition make_item (feed : FeedSource.t) (title url description pub_date : string)
    : NewsItem.t :=
  let clean_description := strip_tags description in
  let truncated_description := truncate_description clean_description in
  {| NewsItem.title := title;
     NewsItem.url := url;
     NewsItem.description := truncated_description;
     NewsItem.source := FeedSource.name feed;
     NewsItem.date := pub_date |}.

(** one turn of [for entry in parsed_feed.entries] *)
Definition process_entry (self : Digest.t) (feed : FeedSource.t) (entry : Entry.t)
    (feed_items : list NewsItem.t) : M (list NewsItem.t) :=
  title <- getattr "title" (Entry.title entry) ;;
  let url := entry_url entry in
  let description := entry_description entry in
  today <- now ;;
  let pub_date := entry_pub_date (strftime_ymd today) entry in
  if truthy title && truthy url && _is_related_to_automation self title description
  then ret (feed_items ++ [make_item feed title url description pub_date])
  else ret feed_items.

Fixpoint process_entries (self : Digest.t) (feed : FeedSource.t)
    (entries : list Entry.t) (feed_items : list NewsItem.t) : M (list NewsItem.t) :=
  match entries with
  | [] => ret feed_items
  | entry :: rest =>
      feed_items' <- process_entry self feed entry feed_items ;;
      process_entries self feed rest feed_items'
  end.

(** [fetch_feed(self, feed)]: the relevant items and the number of entries
    checked; an error is raised again for [fetch_news] to catch. *)
Definition fetch_feed (self : Digest.t) (feed : FeedSource.t)
    : M (list NewsItem.t * nat) :=
  try_except
    (entries <- parse (FeedSource.url feed) ;;
     let entries_count := length entries in
     feed_items <- process_entries self feed entries [] ;;
     ret (feed_items, entries_count))
    (fun e => raise e).

(** one turn of [for feed_index, feed in enumerate(self.rss_feeds)]; the
    pause between two feeds is not part of the model *)
Definition process_feed (self : Digest.t) (feed : FeedSource.t) (st : Loop.t)
    : M Loop.t :=
  try_except
    (r <- fetch_feed self feed ;;
     let '(feed_items, entries_count) := r in
     let total := Loop.total_entries_checked st + entries_count in
     match feed_items with
     | _ :: _ =>
         ret {| Loop.news_items := Loop.news_items st ++ feed_items;
                Loop.total_entries_checked := total;
                Loop.successful_feeds := Loop.successful_feeds st + 1;
                Loop.failed_feeds := Loop.failed_feeds st |}
     | [] =>
         ret {| Loop.news_items := Loop.news_items st;
                Loop.total_entries_checked := total;
                Loop.successful_feeds := Loop.successful_feeds st + 1;
                Loop.failed_feeds := Loop.failed_feeds st |}
     end)
    (fun _ =>
       ret {| Loop.news_items := Loop.news_items st;
              Loop.total_entries_checked := Loop.total_entries_checked st;
              Loop.successful_feeds := Loop.successful_feeds st;
              Loop.failed_feeds := Loop.failed_feeds st + 1 |}).

Fixpoint process_feeds (self : Digest.t) (feeds : list FeedSource.t) (st : Loop.t)
    : M Loop.t :=
  match feeds with
  | [] => ret st
  | feed :: rest =>
      st' <- process_feed self feed st ;;
      process_feeds self rest st'
  end.

(** [self.news_items[:self.max_results]] when there are more items *)
Definition limit_results (max_results : Z) (items : list NewsItem.t)
    : list NewsItem.t :=
  if (Z.of_nat (length items) >? max_results)%Z
  then slice_to items max_results
  else items.

(** [fetch_news(self)]; the progress lines it prints are not part of the
    model, the counters of its summary are in the report. *)
Definition fetch_news (self : Digest.t) : M Report.t :=
  let total_feeds := length (Digest.rss_feeds self) in
  st <- process_feeds self (Digest.rss_feeds self)
          {| Loop.news_items := Digest.news_items self;
             Loop.total_entries_checked := 0;
             Loop.successful_feeds := 0;
             Loop.failed_feeds := 0 |} ;;
  let news_items := sort_by_date_desc (Loop.news_items st) in
  let news_items := limit_results (Digest.max_results self) news_items in
  ret {| Report.self := Digest.set_news_items self news_items;
         Report.returned := news_items;
         Report.total_feeds := total_feeds;
         Report.total_entries_checked := Loop.total_entries_checked st;
         Report.successful_feeds := Loop.successful_feeds st;
         Report.failed_feeds := Loop.failed_feeds st |}.

(** ** Rendering and saving *)

Definition folder_path : string := "automation_news_folder".

(** [sources[source].append(item)], a new source going last *)
Fixpoint group_add (item : NewsItem.t) (sources : list (string * list NewsItem.t))
    : list (string * list NewsItem.t) :=
  match sources with
  | [] => [(NewsItem.source item, [item])]
  | (source, items) :: rest =>
      if String.eqb source (NewsItem.source item)
      then (source, items ++ [item]) :: rest
      else (source, items) :: group_add item rest
  end.

(** [generate_html(self)] *)
Definition generate_html (self : Digest.t) : M string :=
  match Digest.news_items self with
  | [] => ret "<p>No news items found.</p>"
  | _ :: _ =>
      let sources :=
        fold_left (fun sources item => group_add item sources)
                  (Digest.news_items self) [] in
      today <- now ;;
      let html_content := html_header (strftime_ymd_hm today) in
      let html_content :=
        fold_left
          (fun html_content '(source, items) =>
             let html_content := html_content +:+ html_source_open source in
             let html_content :=
               fold_left (fun html_content item => html_content +:+ html_item item)
                         items html_content in
             html_content +:+ html_source_close)
          sources html_content in
      ret (html_content +:+ html_footer)
  end.

(** the file name: the one given, or one built from the current date *)
Definition dated_filename (filename : option string) (extension : string) : M string :=
  match filename with
  | Some filename => ret filename
  | None =>
      today <- now ;;
      ret ("automation_news_" +:+ strftime_ymd today +:+ extension)
  end.

(** [save_to_csv(self, filename=None)] *)
Definition save_to_csv (self : Digest.t) (filename : option string) : M unit :=
  match Digest.news_items self with
  | [] => print "No news items to save."
  | _ :: _ =>
      makedirs folder_path ;;;
      filename <- dated_filename filename ".csv" ;;
      let full_path := Env.os_path_join env folder_path filename in
      write_file full_path (Env.to_csv env (Digest.news_items self)) ;;;
      print ("Saved " +:+ str_of_nat (length (Digest.news_items self))
               +:+ " news items to " +:+ full_path)
  end.

(** [save_to_html(self, filename=None)] *)
Definition save_to_html (self : Digest.t) (filename : option string) : M unit :=
  match Digest.news_items self with
  | [] => print "No news items to save."
  | _ :: _ =>
      makedirs folder_path ;;;
      filename <- dated_filename filename ".html" ;;
      let full_path := Env.os_path_join env folder_path filename in
      html_content <- generate_html self ;;
      write_file full_path html_content ;;;
      print ("Saved HTML digest to " +:+ full_path)
  end.

End Program.

(** The items [fetch_feed] makes, in the order of the feed, of entries that
    all have a title, the clock being read at tick [t] for the first. *)
Fixpoint items_of_entries (env : Env.t) (self : Digest.t) (feed : FeedSource.t)
    (t : nat) (entries : list Entry.t) : list NewsItem.t :=
  match entries with
  | [] => []
  | entry :: rest =>
      match Entry.title entry with
      | Some title =>
          if truthy title && truthy (entry_url entry) &&
             _is_related_to_automation self title (entry_description entry)
          then [make_item feed title (entry_url entry) (entry_description entry)
                  (entry_pub_date env (strftime_ymd (Env.datetime_now env t)) entry)]
          else []
      | None => []
      end ++ items_of_entries env self feed (S t) rest
  end.

(** [n] is the item [fetch_feed] makes of [entry]: the entry has a title,
    title and link are not empty, the relevance filter accepts the title
    with the description as the feed gave it, and [n] carries the title,
    the link, the stripped and truncated description, the name of the feed
    and a publication date whose default was read from the clock. *)
Definition built_from (env : Env.t) (self : Digest.t) (feed : FeedSource.t)
    (entry : Entry.t) (n : NewsItem.t) : Prop :=
  exists title t,
    Entry.title entry = Some title /\
    truthy title = true /\ truthy (entry_url entry) = true /\
    _is_related_to_automation self title (entry_description entry) = true /\
    n = make_item feed title (entry_url entry) (entry_description entry)
          (entry_pub_date env (strftime_ymd (Env.datetime_now env t)) entry).

(** [n] was fetched from one of the sources of [self]. *)
Definition fetched_from (env : Env.t) (self : Digest.t) (n : NewsItem.t) : Prop :=
  exists feed t entries entry,
    In feed (Digest.rss_feeds self) /\
    Env.feedparser_parse env t (FeedSource.url feed) = Ok entries /\
    In entry entries /\
    built_from env self feed entry n.

(** What holds of an item of the digest: title and link are not empty, and
    the relevance filter accepts its title together with the description,
    not yet stripped, of the entry it was built from. *)
Definition kept_item (env : Env.t) (self : Digest.t) (n : NewsItem.t) : Prop :=
  NewsItem.title n <> EmptyString /\ NewsItem.url n <> EmptyString /\
  exists feed t entries entry,
    In feed (Digest.rss_feeds self) /\
    Env.feedparser_parse env t (FeedSource.url feed) = Ok entries /\
    In entry entries /\
    built_from env self feed entry n /\
    _is_related_to_automation self (NewsItem.title n) (entry_description entry) = true.

(** The structured timestamp of an entry is absent or fails to format. *)
Definition timestamp_unusable (env : Env.t) (entry : Entry.t) : Prop :=
  match Entry.published_parsed entry with
  | Some (Some published_parsed) =>
      exists e, Env.time_strftime_ymd env published_parsed = Raise e
  | Some None | None => True
  end.

(** The publication date string of an entry is absent or fails to parse. *)
Definition pubdate_unusable (env : Env.t) (entry : Entry.t) : Prop :=
  match Entry.pubDate entry with
  | Some pubDate => exists e, Env.pd_to_datetime_ymd env pubDate = Raise e
  | None => True
  end.

(** The items of the feeds that answered, one feed after the other in the
    order of the list: what the loop of [fetch_news] adds to the stored
    collection. *)
Fixpoint gather (env : Env.t) (self : Digest.t) (feeds : list FeedSource.t)
    (w : World.t) : list NewsItem.t * World.t :=
  match feeds with
  | [] => ([], w)
  | feed :: rest =>
      match fetch_feed env self feed w with
      | (Ok (feed_items, _), w1) =>
          let '(more, w2) := gather env self rest w1 in (feed_items ++ more, w2)
      | (Raise _, w1) => gather env self rest w1
      end
  end.

(** ** A small world to run the program in *)

Module Sample.

Definition entry (title link summary : option string)
    (published_parsed : option (option struct_time.t)) (pubDate : option string)
    : Entry.t :=
  {| Entry.title := title; Entry.link := link; Entry.summary := summary;
     Entry.description := None; Entry.content := None;
     Entry.published_parsed := published_parsed; Entry.pubDate := pubDate |}.

Definition tm (year mon mday : Z) : struct_time.t :=
  struct_time.mk year mon mday 0 0 0 0 0 0.

Definition office : Entry.t :=
  entry (Some "The automation of the office is here")
        (Some "https://one.example/office")
        (Some "<p>Teams <b>automate</b> the dull work.</p>")
        (Some (Some (tm 2025 3 7))) None.

Definition sports : Entry.t :=
  entry (Some "Sports roundup of the week") (Some "https://one.example/sports")
        None (Some (Some (tm 2025 3 8))) None.

Definition cloud : Entry.t :=
  entry (Some "A guide to workflow automation in the cloud")
        (Some "https://one.example/cloud") None None (Some "next Tuesday").

Definition future : Entry.t :=
  entry (Some "Automation and the future of work") (Some "https://three.example/future")
        (Some "How to automate a process") None (Some "2025-03-08").

(** an entry whose summary, once stripped, has 230 characters *)
Definition long : Entry.t :=
  entry (Some "The state of process automation in a year of change")
        (Some "https://one.example/long")
        (Some ("<p>0123456789012345678901234567890123456789012345678</p>"
                 +:+ "<i>0123456789012345678901234567890123456789012345678901</i>"
                 +:+ "01234567890123456789012345678901234567890123456789012345678901234"
                 +:+ "0123456789012345678901234567890123456789012345678901234567890123"))
        None None.

(** an entry that has neither a title nor a link *)
Definition bare : Entry.t := entry None None (Some "the text of an entry") None None.

Definition one : FeedSource.t := FeedSource.mk "One" "https://one.example/feed".
Definition two : FeedSource.t := FeedSource.mk "Two" "https://two.example/feed".
Definition three : FeedSource.t := FeedSource.mk "Three" "https://three.example/feed".
Definition holed : FeedSource.t := FeedSource.mk "Holed" "https://holed.example/feed".

Definition env : Env.t :=
  {| Env.datetime_now := fun _ => DateTime.mk 2025 3 9 7 5;
     Env.feedparser_parse := fun _ url =>
       if String.eqb url (FeedSource.url one) then Ok [office; sports; cloud]
       else if String.eqb url (FeedSource.url two) then Raise (OSError "connection refused")
       else if String.eqb url (FeedSource.url three) then Ok [future]
       else if String.eqb url (FeedSource.url holed) then Ok [bare; office]
       else Ok [];
     Env.time_strftime_ymd := fun t =>
       if ((1 <=? struct_time.tm_mon t) && (struct_time.tm_mon t <=? 12))%Z
       then Ok (pad4 (struct_time.tm_year t) +:+ "-" +:+ pad2 (struct_time.tm_mon t)
                  +:+ "-" +:+ pad2 (struct_time.tm_mday t))
       else Raise (ValueError "month out of range");
     Env.pd_to_datetime_ymd := fun s =>
       if is_ymd_form s then Ok s else Raise (ValueError "unknown date format");
     Env.os_path_join := fun folder filename => folder +:+ "/" +:+ filename;
     Env.to_csv := fun items =>
       fold_left (fun text item => text +:+ NewsItem.title item +:+ ","
                    +:+ NewsItem.url item +:+ String newline EmptyString)
                 items ("title,url" +:+ String newline EmptyString) |}.

Definition world : World.t :=
  {| World.ticks := 0; World.dirs := ∅; World.files := ∅; World.stdout := [] |}.

(** an object with three sources, the second of which fails *)
Definition digest (max_results : Z) : Digest.t :=
  {| Digest.keywords := default_keywords;
     Digest.max_results := max_results;
     Digest.debug_mode := false;
     Digest.rss_feeds := [one; two; three];
     Digest.news_items := [] |}.

(** an object whose one source has an entry without a title *)
Definition holed_digest : Digest.t :=
  {| Digest.keywords := default_keywords;
     Digest.max_results := 100;
     Digest.debug_mode := false;
     Digest.rss_feeds := [holed];
     Digest.news_items := [] |}.

Definition item (title date : string) : NewsItem.t :=
  {| NewsItem.title := title; NewsItem.url := "https://old.example/" +:+ title;
     NewsItem.description := EmptyString; NewsItem.source := "Old";
     NewsItem.date := date |}.

End Sample.

(** ** The further filter *)

(** whether an item mentions one of the keywords, whatever the case, in its
    title or in its stored description *)
Definition mentions (keywords : list string) (item : NewsItem.t) : bool :=
  let text_to_check :=
    Str.lower (NewsItem.title item +:+ " " +:+ NewsItem.description item) in
  existsb (fun keyword => Str.str_in (Str.lower keyword) text_to_check) keywords.

(** [filter_news(self, additional_keywords=None)]: [not additional_keywords]
    holds of [None] and of the empty list. *)
Definition filter_news (self : Digest.t) (additional_keywords : option (list string))
    : list NewsItem.t :=
  match additional_keywords with
  | None | Some [] => Digest.news_items self
  | Some (keyword :: keywords) =>
      let filtered_items :=
        List.filter (mentions (keyword :: keywords)) (Digest.news_items self) in
      slice_to filtered_items (Digest.max_results self)
  end.

(** the object with other keywords *)
Definition with_keywords (self : Digest.t) (keywords : list string) : Digest.t :=
  {| Digest.keywords := keywords;
     Digest.max_results := Digest.max_results self;
     Digest.debug_mode := Digest.debug_mode self;
     Digest.rss_feeds := Digest.rss_feeds self;
     Digest.news_items := Digest.news_items self |}.

(** no [<] of [s] has a [>] after it on its line: [s] has nothing the
    pattern [<.*?>] matches *)
Fixpoint tag_free (s : string) : bool :=
  match s with
  | EmptyString => true
  | String c s' =>
      (if Ascii.eqb c "<" then
         match find_close s' with Some _ => false | None => true end
       else true) && tag_free s'
  end.

(** whether the character [c] occurs in [s] *)
Fixpoint has_char (c : ascii) (s : string) : bool :=
  match s with
  | EmptyString => false
  | String a s' => Ascii.eqb a c || has_char c s'
  end.

(** ** Groups of items and their rendering *)

Definition has_source (source : string) (item : NewsItem.t) : bool :=
  String.eqb (NewsItem.source item) source.

(** the dictionary [sources] that [generate_html] builds, a source and its
    items for each key, in the order in which the keys were added *)
Definition group_by_source (items : list NewsItem.t) : list (string * list NewsItem.t) :=
  fold_left (fun sources item => group_add item sources) items [].

(** [sources.get(source)] *)
Fixpoint lookup_source (source : string) (sources : list (string * list NewsItem.t))
    : option (list NewsItem.t) :=
  match sources with
  | [] => None
  | (s, items) :: rest =>
      if String.eqb s source then Some items else lookup_source source rest
  end.

(** [''.join(parts)] *)
Definition concat_str (parts : list string) : string :=
  fold_right String.append EmptyString parts.

(** what [generate_html] adds for one source: the heading, the items, the
    closing lines *)
Definition html_of_source (group : string * list NewsItem.t) : string :=
  html_source_open (fst group) +:+ concat_str (map html_item (snd group))
    +:+ html_source_close.

(** ** The script around the class

    The functions below the class talk to the file system, to the console,
    to an HTTP service and to a mail server, and they pass any exception
    on: an exception of this layer is a class name with a message. The
    lines these functions print are not part of the model. *)

Inductive pyexn : Type := PyExn (class_name msg : string).

Definition of_exn (e : exn) : pyexn :=
  match e with
  | AttributeError attr => PyExn "AttributeError" attr
  | ValueError msg => PyExn "ValueError" msg
  | OSError msg => PyExn "OSError" msg
  end.

Inductive Outcome (A : Type) : Type :=
  | Done (a : A)
  | Failed (e : pyexn).
Arguments Done {A} a.
Arguments Failed {A} e.

Definition Run (A : Type) : Type := World.t -> Outcome A * World.t.

Definition done {A} (a : A) : Run A := fun w => (Done a, w).

Definition fail {A} (e : pyexn) : Run A := fun w => (Failed e, w).

Definition and_then {A B} (c : Run A) (k : A -> Run B) : Run B :=
  fun w => match c w with
           | (Done a, w') => k a w'
           | (Failed e, w') => (Failed e, w')
           end.

(** [try: body / except Exception as e: handler(e)] *)
Definition attempt {A} (body : Run A) (handler : pyexn -> Run A) : Run A :=
  fun w => match body w with
           | (Done a, w') => (Done a, w')
           | (Failed e, w') => handler e w'
           end.

(** a computation of the class, run in this layer *)
Definition lift {A} (c : M A) : Run A :=
  fun w => match c w with
           | (Ok a, w') => (Done a, w')
           | (Raise e, w') => (Failed (of_exn e), w')
           end.

(** a value that was computed, or the exception that was raised instead *)
Definition of_outcome {A} (o : Outcome A) : Run A := fun w => (o, w).

Notation "x <~ c ;; k" := (and_then c (fun x => k))
  (at level 100, c at next level, right associativity).

(** *** JSON values, which are also the Python values of this layer *)

Module Json.
#[local] Unset Elimination Schemes.
Inductive t : Type :=
  | Null
  | Bool (b : bool)
  | Num (n : Z)
  | Str (s : string)
  | Arr (items : list t)
  | Obj (fields : list (string * t)).
#[local] Set Elimination Schemes.

(** the truth value of the Python value: [None], [False], [0], the empty
    string, the empty list and the empty dictionary are false *)
Definition truthy (v : t) : bool :=
  match v with
  | Null => false
  | Bool b => b
  | Num n => negb (n =? 0)%Z
  | Str s => negb (String.eqb s EmptyString)
  | Arr items => match items with [] => false | _ :: _ => true end
  | Obj fields => match fields with [] => false | _ :: _ => true end
  end.

(** [d.get(key)] on the items of a dictionary *)
Fixpoint lookup (key : string) (fields : list (string * t)) : option t :=
  match fields with
  | [] => None
  | (k, v) :: rest => if String.eqb k key then Some v else lookup key rest
  end.

(** [d[key] = v]: the value of a key that is there is replaced in place, a
    new key goes last *)
Fixpoint set (key : string) (v : t) (fields : list (string * t)) : list (string * t) :=
  match fields with
  | [] => [(key, v)]
  | (k, old) :: rest =>
      if String.eqb k key then (k, v) :: rest else (k, old) :: set key v rest
  end.

(** [v[key]] for a string [key] *)
Definition getitem (v : t) (key : string) : Outcome t :=
  match v with
  | Obj fields =>
      match lookup key fields with
      | Some found => Done found
      | None => Failed (PyExn "KeyError" key)
      end
  | Arr _ => Failed (PyExn "TypeError" "list indices must be integers or slices, not str")
  | Str _ => Failed (PyExn "TypeError" "string indices must be integers, not 'str'")
  | Null | Bool _ | Num _ => Failed (PyExn "TypeError" "object is not subscriptable")
  end.

(** [v[0]] *)
Definition first (v : t) : Outcome t :=
  match v with
  | Arr (item :: _) => Done item
  | Arr [] => Failed (PyExn "IndexError" "list index out of range")
  | Str (String c _) => Done (Str (String c EmptyString))
  | Str EmptyString => Failed (PyExn "IndexError" "string index out of range")
  | Obj _ => Failed (PyExn "KeyError" "0")
  | Null | Bool _ | Num _ => Failed (PyExn "TypeError" "object is not subscriptable")
  end.
End Json.

(** *** Messages of the services *)

Module Request.
Record t := mk {
  url : string;
  headers : list (string * string);
  json : Json.t
}.
End Request.

Module Response.
Record t := mk {
  status_code : Z;
  text : string;
  (** [response.json()]: the value parsed from the body, or the error of
      the parser *)
  json : Outcome Json.t
}.
End Response.

(** The mail: a multipart message with its headers and one HTML part. *)
Module Message.
Record t := mk {
  Subject : string;
  From : Json.t;
  To : Json.t;
  html : string
}.
End Message.

(** The services and libraries of this layer; the effects are called with
    the number of ticks of the world. *)
Module Services.
Record t := mk {
  (** [requests.post(url, headers=headers, json=data)] *)
  requests_post : nat -> Request.t -> Outcome Response.t;
  (** [json.loads(text)] *)
  json_loads : string -> Outcome Json.t;
  (** [json.dumps(value)] *)
  json_dumps : Json.t -> string;
  (** [input(prompt)] *)
  input : nat -> string -> Outcome string;
  (** [getpass(prompt)] *)
  getpass : nat -> string -> Outcome string;
  (** [smtplib.SMTP(host, port)] *)
  smtp_connect : nat -> Json.t -> Json.t -> Outcome unit;
  (** [server.starttls()] *)
  smtp_starttls : nat -> Outcome unit;
  (** [server.login(user, password)] *)
  smtp_login : nat -> Json.t -> Json.t -> Outcome unit;
  (** [server.send_message(msg)] *)
  smtp_send_message : nat -> Message.t -> Outcome unit;
  (** [server.quit()] *)
  smtp_quit : nat -> Outcome unit;
  (** [dt.strftime('%A, %B %d, %Y')], in the names of the locale *)
  strftime_long : DateTime.t -> string;
  (** the two characters of the script above the code points of the model:
      the robot face of the mail and the bullet of the summaries *)
  robot_face : string;
  bullet : string
}.
End Services.

(** *** Strings of this layer *)

(** the white space [s.strip()] removes, among the code points of the
    model *)
Definition is_space (c : ascii) : bool :=
  let n := nat_of_ascii c in
  ((9 <=? n) && (n <=? 13)) || ((28 <=? n) && (n <=? 32)) || (n =? 133) || (n =? 160).

(** [s.lstrip()] *)
Fixpoint lstrip (s : string) : string :=
  match s with
  | EmptyString => EmptyString
  | String c s' => if is_space c then lstrip s' else s
  end.

(** [s.rstrip()] *)
Fixpoint rstrip (s : string) : string :=
  match s with
  | EmptyString => EmptyString
  | String c s' =>
      match rstrip s' with
      | EmptyString => if is_space c then EmptyString else String c EmptyString
      | rest => String c rest
      end
  end.

(** [s.strip()] *)
Definition strip (s : string) : string := rstrip (lstrip s).

(** [s[n:]] *)
Fixpoint drop (n : nat) (s : string) : string :=
  match n, s with
  | O, _ => s
  | S _, EmptyString => EmptyString
  | S n', String _ s' => drop n' s'
  end.

(** [s.replace(old, new)] for an [old] that is not empty, the occurrences
    taken from the left; [skip] counts the characters of the occurrence
    being replaced that are still to pass *)
Fixpoint replace_from (skip : nat) (old new s : string) : string :=
  match s with
  | EmptyString => EmptyString
  | String c s' =>
      match skip with
      | S k => replace_from k old new s'
      | O =>
          if Str.starts_with old s
          then new +:+ replace_from (String.length old - 1) old new s'
          else String c (replace_from 0 old new s')
      end
  end.

(** [s.replace(old, new)]; an empty [old] stands before every character
    and at the end *)
Definition replace (old new s : string) : string :=
  match old with
  | EmptyString =>
      new +:+ concat_str (map (fun c => String c new) (list_ascii_of_string s))
  | String _ _ => replace_from 0 old new s
  end.

(** [s.split(sep, 1)[-1]] for a [sep] that is not empty: what follows the
    first occurrence of [sep], or [s] when there is none *)
Fixpoint after_first_opt (sep s : string) : option string :=
  if Str.starts_with sep s then Some (drop (String.length sep) s)
  else match s with
       | EmptyString => None
       | String _ s' => after_first_opt sep s'
       end.

Definition after_first (sep s : string) : string :=
  match after_first_opt sep s with
  | Some rest => rest
  | None => s
  end.

(** Offset of the first occurrence of [stop] in [s], when no newline comes
    before it: where the lazy [.*?] followed by [stop] ends. *)
Fixpoint find_lazy (stop s : string) : option nat :=
  if Str.starts_with stop s then Some 0
  else match s with
       | EmptyString => None
       | String c s' =>
           if Ascii.eqb c newline then None else option_map S (find_lazy stop s')
       end.

(** [re.sub(start + '.*?' + stop, '', s)] for two literal texts, [start]
    not empty *)
Fixpoint remove_spans_from (skip : nat) (start stop s : string) : string :=
  match s with
  | EmptyString => EmptyString
  | String c s' =>
      match skip with
      | S k => remove_spans_from k start stop s'
      | O =>
          if Str.starts_with start s then
            match find_lazy stop (drop (String.length start) s) with
            | Some k =>
                remove_spans_from (String.length start + k + String.length stop - 1)
                  start stop s'
            | None => String c (remove_spans_from 0 start stop s')
            end
          else String c (remove_spans_from 0 start stop s')
      end
  end.

(** [re.sub(r'<p>Generated on .*?</p>', '', s)] *)
Definition remove_generated_on (s : string) : string :=
  remove_spans_from 0 "<p>Generated on " "</p>" s.

(** ** The texts of the functions around the class *)

(** the HTML file [get_claude_summary] reads, for the date of the day *)
Definition summary_html_file (today_date : string) : string :=
  "C:\Users\Masu_Dev\Documents\automation_library\Project_001_Customized_News_Digest\automation_news_folder\automation_news_"
    +:+ today_date
    +:+ ".html".

(** the prompt sent with the HTML of the digest *)
Definition summary_prompt (html_content : string) : string :=
  "
    Here is an HTML file containing today's automation news digest.
    Please provide a concise, straightforward summary of the key trends 
    and important developments in automation technology from this digest.
    Focus on the most significant news items, avoiding unnecessary words or fluff.
    Limit your response to 3-5 key points that someone interested in automation technology should know.
    Return in bullet list format and avoid naming the article.
    
    HTML Content:
    "
    +:+ html_content
    +:+ "
    ".

(** The start of the body of the mail, up to the summary; [robot_face] is
    the one character of this text above the code points of the model. *)
Definition mail_head (robot_face today_date : string) : string :=
  "
    <!DOCTYPE html>
    <html>
    <head>
        <style>
            body { font-family: Arial, sans-serif; max-width: 800px; margin: 0 auto; }
            .summary { 
                background-color: #f5f5f5; 
                padding: 15px; 
                border-radius: 8px;
                margin-bottom: 20px;
            }
            .digest { margin-top: 30px; }
        </style>
    </head>
    <body>
        <h1>Daily Automation News Digest</h1>
        <h2>"
    +:+ today_date
    +:+ "</h2>
        
        <div class=" +:+ dq +:+ "summary" +:+ dq +:+ ">
            <h3>" +:+ robot_face +:+ " Today's AI Summary</h3>
    ".

Definition mail_no_summary : string := "<p>AI summary not available for today.</p>".

Definition mail_middle : string :=
  "
        </div>
        
        <div class=" +:+ dq +:+ "digest" +:+ dq +:+ ">
            <h3>Today's Automation News</h3>
    ".

Definition mail_tail : string :=
  "
        </div>
    </body>
    </html>
    ".

(** the heading of the digest, after which the mail takes the digest up *)
Definition digest_heading : string :=
  "<h1 style=" +:+ dq +:+ "color: #333;" +:+ dq +:+ ">Automation News Digest</h1>".

(** *** The functions *)

Section Script.

Variable env : Env.t.
Variable svc : Services.t.

(** A path is the name of one file: the model has no working directory,
    and two names are two files. *)

(** [os.path.exists(path)]: a file or a directory of that name *)
Definition path_exists (path : string) : Run bool :=
  fun w => (Done (bool_decide (is_Some (World.files w !! path)) ||
                  bool_decide (path ∈ World.dirs w)), w).

(** [open(path, 'r').read()] *)
Definition read_text (path : string) : Run string :=
  fun w => match World.files w !! path with
           | Some text => (Done text, w)
           | None =>
               if bool_decide (path ∈ World.dirs w)
               then (Failed (PyExn "IsADirectoryError" path), w)
               else (Failed (PyExn "FileNotFoundError" path), w)
           end.

(** [open(path, 'w').write(value)]: the file is opened, and so emptied,
    before the value is looked at; only a string can be written *)
Definition write_value (path : string) (value : Json.t) : Run unit :=
  match value with
  | Json.Str text => lift (write_file path text)
  | _ =>
      _ <~ lift (write_file path EmptyString) ;;
      fail (PyExn "TypeError" "write() argument must be str")
  end.

Definition post (request : Request.t) : Run Response.t :=
  fun w => (Services.requests_post svc (World.ticks w) request, World.tick w).

Definition ask (prompt : string) : Run string :=
  fun w => (Services.input svc (World.ticks w) prompt, World.tick w).

Definition ask_hidden (prompt : string) : Run string :=
  fun w => (Services.getpass svc (World.ticks w) prompt, World.tick w).

Definition smtp_connect (host port : Json.t) : Run unit :=
  fun w => (Services.smtp_connect svc (World.ticks w) host port, World.tick w).

Definition smtp_starttls : Run unit :=
  fun w => (Services.smtp_starttls svc (World.ticks w), World.tick w).

Definition smtp_login (user password : Json.t) : Run unit :=
  fun w => (Services.smtp_login svc (World.ticks w) user password, World.tick w).

Definition smtp_send_message (msg : Message.t) : Run unit :=
  fun w => (Services.smtp_send_message svc (World.ticks w) msg, World.tick w).

Definition smtp_quit : Run unit :=
  fun w => (Services.smtp_quit svc (World.ticks w), World.tick w).

(** the request of [get_claude_summary]: the url, the headers with the
    key, the data with the prompt *)
Definition summary_request (api_key html_content : string) : Request.t :=
  let prompt := summary_prompt html_content in
  let headers :=
    [("x-api-key", api_key); ("anthropic-version", "2023-06-01");
     ("content-type", "application/json")] in
  let data :=
    Json.Obj
      [("model", Json.Str "claude-3-haiku-20240307");
       ("max_tokens", Json.Num 500);
       ("messages",
        Json.Arr [Json.Obj [("role", Json.Str "user"); ("content", Json.Str prompt)]])] in
  {| Request.url := "https://api.anthropic.com/v1/messages";
     Request.headers := headers;
     Request.json := data |}.

(** [get_claude_summary()]: the summary, or [None] *)
Definition get_claude_summary : Run Json.t :=
  key_exists <~ path_exists "user_api_key.txt" ;;
  if negb key_exists then done Json.Null else
  key_text <~ read_text "user_api_key.txt" ;;
  let api_key := strip key_text in
  today <~ lift (now env) ;;
  let today_date := strftime_ymd today in
  let html_file := summary_html_file today_date in
  html_exists <~ path_exists html_file ;;
  if negb html_exists then done Json.Null else
  html_content <~ read_text html_file ;;
  attempt
    (response <~ post (summary_request api_key html_content) ;;
     if (Response.status_code response =? 200)%Z then
       result <~ of_outcome (Response.json response) ;;
       content <~ of_outcome (Json.getitem result "content") ;;
       block <~ of_outcome (Json.first content) ;;
       summary <~ of_outcome (Json.getitem block "text") ;;
       current <~ lift (now env) ;;
       done summary
     else done Json.Null)
    (fun _ => done Json.Null).

(** the dictionary [setup_email_config] starts from *)
Definition default_email_config : list (string * Json.t) :=
  [("smtp_server", Json.Str "smtp.gmail.com");
   ("smtp_port", Json.Num 587);
   ("username", Json.Str "your.email@gmail.com");
   ("password", Json.Str EmptyString);
   ("recipient", Json.Str "your.email@gmail.com")].

(** [setup_email_config()] *)
Definition setup_email_config : Run Json.t :=
  let email_config := default_email_config in
  config_exists <~ path_exists "email_config.json" ;;
  if config_exists then
    text <~ read_text "email_config.json" ;;
    of_outcome (Services.json_loads svc text)
  else
    username <~ ask "Enter your Gmail address: " ;;
    let email_config := Json.set "username" (Json.Str username) email_config in
    password <~ ask_hidden "Enter your email password or app password: " ;;
    let email_config := Json.set "password" (Json.Str password) email_config in
    recipient <~ ask "Enter recipient email address (can be the same): " ;;
    let email_config := Json.set "recipient" (Json.Str recipient) email_config in
    _ <~ lift (write_file "email_config.json"
                 (Services.json_dumps svc (Json.Obj email_config))) ;;
    done (Json.Obj email_config).

(** [claude_summary.replace(bullet, '<br>' + bullet).replace('*', '<br>*')];
    a value that is not a string has no [replace] *)
Definition summary_html (claude_summary : Json.t) : Outcome string :=
  match claude_summary with
  | Json.Str text =>
      Done (replace "*" "<br>*"
              (replace (Services.bullet svc) ("<br>" +:+ Services.bullet svc) text))
  | _ => Failed (PyExn "AttributeError" "replace")
  end.

(** the text put where the summary goes: the summary when the value given
    is true, a line saying there is none otherwise *)
Definition summary_part (claude_summary : Json.t) : Outcome string :=
  if Json.truthy claude_summary then summary_html claude_summary
  else Done mail_no_summary.

(** the mail, with the digest taken up after its heading and without its
    line of generation *)
Definition mail_message (today_date : string) (sender recipient : Json.t)
    (part digest_html : string) : Message.t :=
  let html_content := mail_head (Services.robot_face svc) today_date in
  let html_content := html_content +:+ part in
  let html_content := html_content +:+ mail_middle in
  let digest_html := after_first digest_heading digest_html in
  let digest_html := remove_generated_on digest_html in
  let html_content := html_content +:+ digest_html in
  let html_content := html_content +:+ mail_tail in
  {| Message.Subject := "Daily Automation News Digest - " +:+ today_date;
     Message.From := sender;
     Message.To := recipient;
     Message.html := html_content |}.

(** the [try] block of [send_news_digest_email]: the session with the mail
    server, [True] at its end and [False] for any exception *)
Definition mail_session (email_config : Json.t) (msg : Message.t) : Run bool :=
  attempt
    (host <~ of_outcome (Json.getitem email_config "smtp_server") ;;
     port <~ of_outcome (Json.getitem email_config "smtp_port") ;;
     _ <~ smtp_connect host port ;;
     _ <~ smtp_starttls ;;
     user <~ of_outcome (Json.getitem email_config "username") ;;
     password <~ of_outcome (Json.getitem email_config "password") ;;
     _ <~ smtp_login user password ;;
     _ <~ smtp_send_message msg ;;
     _ <~ smtp_quit ;;
     _ <~ of_outcome (Json.getitem email_config "recipient") ;;
     done true)
    (fun _ => done false).

(** [send_news_digest_email(digest_obj, claude_summary=None)] *)
Definition send_news_digest_email (digest_obj : Digest.t) (claude_summary : Json.t)
    : Run bool :=
  email_config <~ setup_email_config ;;
  today <~ lift (now env) ;;
  let today_date := Services.strftime_long svc today in
  sender <~ of_outcome (Json.getitem email_config "username") ;;
  recipient <~ of_outcome (Json.getitem email_config "recipient") ;;
  part <~ of_outcome (summary_part claude_summary) ;;
  digest_html <~ lift (generate_html env digest_obj) ;;
  let msg := mail_message today_date sender recipient part digest_html in
  mail_session email_config msg.

(** the steps of [send_daily_digest] after the news were fetched *)
Definition digest_steps (digest : Digest.t) : Run bool :=
  today <~ lift (now env) ;;
  let today_date := strftime_ymd today in
  let html_file := "automation_news_" +:+ today_date +:+ ".html" in
  let csv_file := "automation_news_" +:+ today_date +:+ ".csv" in
  _ <~ lift (save_to_html env digest (Some html_file)) ;;
  _ <~ lift (save_to_csv env digest (Some csv_file)) ;;
  claude_summary <~ get_claude_summary ;;
  _ <~ (if Json.truthy claude_summary
        then write_value "ai_summary.txt" claude_summary
        else done tt) ;;
  _ <~ send_news_digest_email digest claude_summary ;;
  done true.

(** the handler of [send_daily_digest]: one more mail when there are
    items, whatever happens to it, and [False] *)
Definition digest_fallback (digest : Digest.t) : Run bool :=
  _ <~ attempt
         (match Digest.news_items digest with
          | _ :: _ =>
              _ <~ send_news_digest_email digest
                     (Json.Str "Error generating AI summary.") ;;
              done tt
          | [] => done tt
          end)
         (fun _ => done tt) ;;
  done false.

(** [send_daily_digest()]. The object is the one [fetch_news] has updated
    when a later step raises. *)
Definition send_daily_digest : Run bool :=
  started <~ lift (now env) ;;
  let digest := __init__ None 10 false in
  fun w =>
    match fetch_news env digest w with
    | (Ok report, w1) =>
        let digest := Report.self report in
        attempt (digest_steps digest) (fun _ => digest_fallback digest) w1
    | (Raise _, w1) => digest_fallback digest w1
    end.

End Script.

(** *** Services to run the script with *)

Module Desk.

Definition answer : Response.t :=
  {| Response.status_code := 200;
     Response.text := "{...}";
     Response.json :=
       Done (Json.Obj
               [("id", Json.Str "msg_1");
                ("content",
                 Json.Arr [Json.Obj [("type", Json.Str "text");
                                     ("text", Json.Str "* More teams automate.")]])]) |}.

Definition config : Json.t :=
  Json.Obj
    [("smtp_server", Json.Str "smtp.gmail.com");
     ("smtp_port", Json.Num 587);
     ("username", Json.Str "me@example.org");
     ("password", Json.Str "secret");
     ("recipient", Json.Str "you@example.org")].

(** services that all answer; [mail_up] tells whether the mail server can
    be reached *)
Definition svc (mail_up : bool) : Services.t :=
  {| Services.requests_post := fun _ _ => Done answer;
     Services.json_loads := fun text =>
       if String.eqb text "saved" then Done config
       else Failed (PyExn "JSONDecodeError" "Expecting value");
     Services.json_dumps := fun _ => "saved";
     Services.input := fun _ prompt =>
       if Str.starts_with "Enter recipient" prompt then Done "you@example.org"
       else Done "me@example.org";
     Services.getpass := fun _ _ => Done "secret";
     Services.smtp_connect := fun _ _ _ =>
       if mail_up then Done tt else Failed (PyExn "ConnectionRefusedError" "refused");
     Services.smtp_starttls := fun _ => Done tt;
     Services.smtp_login := fun _ _ _ => Done tt;
     Services.smtp_send_message := fun _ _ => Done tt;
     Services.smtp_quit := fun _ => Done tt;
     Services.strftime_long := fun _ => "Sunday, March 09, 2025";
     Services.robot_face := "[robot]";
     Services.bullet := "[bullet]" |}.

(** a world with a key file and the digest of the day where
    [get_claude_summary] looks for it *)
Definition world : World.t :=
  {| World.ticks := 0;
     World.dirs := ∅;
     World.files :=
       {[ "user_api_key.txt" := " sk-key
";
          summary_html_file "2025-03-09" := "<p>digest</p>" ]};
     World.stdout := [] |}.

(** a world in which the mail is configured *)
Definition configured : World.t :=
  {| World.ticks := 0;
     World.dirs := ∅;
     World.files := {[ "email_config.json" := "saved" ]};
     World.stdout := [] |}.

End Desk.

(** * Properties *)

(** ** Strings *)

Lemma str_app_cons c s t : String c s +:+ t = String c (s +:+ t).
Proof. reflexivity. Qed.

Lemma str_app_nil_l s : EmptyString +:+ s = s.
Proof. reflexivity. Qed.

Lemma str_length_app s t : String.length (s +:+ t) = String.length s + String.length t.
Proof.
  induction s as [|c s IH]; [reflexivity|].
  rewrite str_app_cons. simpl. rewrite IH. reflexivity.
Qed.

Lemma str_length_take n s : n <= String.length s -> String.length (Str.take n s) = n.
Proof.
  revert s. induction n as [|n IH]; intros [|c s] H; simpl in *; try lia.
  rewrite IH; lia.
Qed.

Lemma starts_with_spec needle hay :
  Str.starts_with needle hay = true <-> exists post, hay = needle +:+ post.
Proof.
  revert hay. induction needle as [|a needle IH]; intros hay.
  - split; [intros _; exists hay; reflexivity | reflexivity].
  - destruct hay as [|b hay]; simpl.
    + split; [discriminate | intros [post H]; discriminate].
    + rewrite andb_true_iff, Ascii.eqb_eq, IH. split.
      * intros [-> [post ->]]. exists post. reflexivity.
      * intros [post H]. rewrite str_app_cons in H. injection H as -> ->. eauto.
Qed.

Lemma str_in_unfold needle hay :
  Str.str_in needle hay =
  Str.starts_with needle hay ||
  match hay with EmptyString => false | String _ hay' => Str.str_in needle hay' end.
Proof. destruct hay; reflexivity. Qed.

(** The substring test of the code is the substring relation of the
    specification. *)
Lemma str_in_spec needle hay :
  Str.str_in needle hay = true <-> is_substring needle hay.
Proof.
  unfold is_substring. split.
  - induction hay as [|c hay IH]; rewrite str_in_unfold, orb_true_iff.
    + intros [H|H]; [|discriminate].
      apply starts_with_spec in H as [post ->]. exists EmptyString, post. reflexivity.
    + intros [H|H].
      * apply starts_with_spec in H as [post ->]. exists EmptyString, post. reflexivity.
      * destruct (IH H) as (pre & post & ->). exists (String c pre), post. reflexivity.
  - intros (pre & post & ->). induction pre as [|c pre IH].
    + rewrite str_app_nil_l, str_in_unfold, orb_true_iff. left.
      apply starts_with_spec. eauto.
    + rewrite str_app_cons, str_in_unfold, IH. apply orb_true_r.
Qed.

(** ** Tokens *)

Lemma split_char_nonempty sep s : exists t ts, Str.split_char sep s = t :: ts.
Proof.
  destruct s as [|c s]; simpl; [eauto|].
  destruct (Ascii.eqb c sep); [eauto|].
  destruct (Str.split_char sep s); eauto.
Qed.

Lemma split_char_sep sep s :
  Str.split_char sep (String sep s) = EmptyString :: Str.split_char sep s.
Proof. simpl. rewrite Ascii.eqb_refl. reflexivity. Qed.

Lemma split_char_other sep c s t ts :
  c <> sep -> Str.split_char sep s = t :: ts ->
  Str.split_char sep (String c s) = String c t :: ts.
Proof.
  intros Hc Hs. simpl. apply Ascii.eqb_neq in Hc. rewrite Hc, Hs. reflexivity.
Qed.

Lemma split_char_snoc sep s :
  Str.split_char sep (s +:+ String sep EmptyString) =
  Str.split_char sep s ++ [EmptyString].
Proof.
  induction s as [|c s IH].
  - rewrite str_app_nil_l, split_char_sep. reflexivity.
  - rewrite str_app_cons. simpl. destruct (Ascii.eqb c sep).
    + rewrite IH. reflexivity.
    + rewrite IH. destruct (split_char_nonempty sep s) as (t & ts & ->). reflexivity.
Qed.

Lemma starts_with_cons a needle b hay :
  Str.starts_with (String a needle) (String b hay) =
  Ascii.eqb a b && Str.starts_with needle hay.
Proof. reflexivity. Qed.

Lemma starts_with_empty a needle :
  Str.starts_with (String a needle) EmptyString = false.
Proof. reflexivity. Qed.

Lemma space_free_cons a w :
  Str.space_free (String a w) = true <-> a <> Str.space /\ Str.space_free w = true.
Proof.
  simpl. rewrite andb_true_iff, negb_true_iff, Ascii.eqb_neq. reflexivity.
Qed.

(** [w] followed by a space starts [s] followed by a space exactly when [w]
    is the first token of [s]. *)
Lemma first_token s : forall w t ts,
  Str.space_free w = true ->
  Str.split_char Str.space s = t :: ts ->
  (Str.starts_with (w +:+ String Str.space EmptyString)
                   (s +:+ String Str.space EmptyString) = true <-> w = t).
Proof.
  induction s as [|c s IH]; intros w t ts Hw Hs.
  - simpl in Hs. injection Hs as <- <-.
    destruct w as [|a w]; [split; reflexivity|].
    apply space_free_cons in Hw as [Ha _].
    rewrite str_app_cons, str_app_nil_l, starts_with_cons.
    split; [|discriminate]. intros H. apply andb_true_iff in H as [H _].
    apply Ascii.eqb_eq in H. contradiction.
  - rewrite str_app_cons. destruct (Ascii.eqb_spec c Str.space) as [->|Hc].
    + rewrite split_char_sep in Hs. injection Hs as <- <-.
      destruct w as [|a w]; [split; reflexivity|].
      apply space_free_cons in Hw as [Ha _].
      rewrite str_app_cons, starts_with_cons. split; [|discriminate].
      intros H. apply andb_true_iff in H as [H _].
      apply Ascii.eqb_eq in H. contradiction.
    + destruct (split_char_nonempty Str.space s) as (t' & ts' & Hs').
      rewrite (split_char_other _ _ _ _ _ Hc Hs') in Hs. injection Hs as <- <-.
      destruct w as [|a w].
      * rewrite str_app_nil_l, starts_with_cons. split; [|discriminate].
        intros H. apply andb_true_iff in H as [H _].
        apply Ascii.eqb_eq in H. exfalso. apply Hc. symmetry. exact H.
      * apply space_free_cons in Hw as [_ Hw].
        rewrite str_app_cons, starts_with_cons, andb_true_iff, Ascii.eqb_eq.
        rewrite (IH w t' ts' Hw Hs'). split.
        -- intros [-> ->]. reflexivity.
        -- intros H. injection H as -> ->. split; reflexivity.
Qed.

(** [w] between two spaces occurs in [s] followed by a space exactly when
    [w] is a token of [s] other than the first. *)
Lemma later_token s : forall w t ts,
  Str.space_free w = true ->
  Str.split_char Str.space s = t :: ts ->
  (Str.str_in (String Str.space (w +:+ String Str.space EmptyString))
              (s +:+ String Str.space EmptyString) = true <-> In w ts).
Proof.
  induction s as [|c s IH]; intros w t ts Hw Hs.
  - simpl in Hs. injection Hs as <- <-. rewrite str_app_nil_l.
    split; [|intros []]. rewrite str_in_unfold, orb_true_iff.
    intros [H|H].
    + rewrite starts_with_cons in H. apply andb_true_iff in H as [_ H].
      destruct w; [rewrite str_app_nil_l in H|rewrite str_app_cons in H];
        rewrite starts_with_empty in H; discriminate.
    + rewrite str_in_unfold, starts_with_empty in H. discriminate.
  - destruct (split_char_nonempty Str.space s) as (t' & ts' & Hs').
    rewrite str_app_cons, str_in_unfold, orb_true_iff, (IH w t' ts' Hw Hs').
    rewrite starts_with_cons.
    destruct (Ascii.eqb_spec c Str.space) as [->|Hc].
    + rewrite split_char_sep, Hs' in Hs. injection Hs as <- <-.
      rewrite Ascii.eqb_refl, andb_true_l.
      rewrite (first_token s w t' ts' Hw Hs'). simpl. intuition.
    + rewrite (split_char_other _ _ _ _ _ Hc Hs') in Hs. injection Hs as <- <-.
      apply Ascii.eqb_neq in Hc.
      rewrite Ascii.eqb_sym, Hc, andb_false_l. intuition discriminate.
Qed.

(** A marker is a token of the padded text exactly when the test of the
    code finds it between two spaces. *)
Lemma token_iff_padded w text :
  Str.space_free w = true -> w <> EmptyString ->
  (is_token w (" " +:+ text +:+ " ") <->
   Str.str_in (" " +:+ w +:+ " ") (" " +:+ text +:+ " ") = true).
Proof.
  intros Hw Hne. unfold is_token.
  change (" " +:+ text +:+ " ")
    with (String Str.space (text +:+ String Str.space EmptyString)).
  change (" " +:+ w +:+ " ")
    with (String Str.space (w +:+ String Str.space EmptyString)).
  rewrite split_char_sep, split_char_snoc.
  assert (Hs2 : Str.split_char Str.space (String Str.space text) =
                EmptyString :: Str.split_char Str.space text) by apply split_char_sep.
  pose proof (later_token (String Str.space text) w _ _ Hw Hs2) as H.
  rewrite str_app_cons in H. rewrite H. clear H.
  simpl. rewrite in_app_iff. simpl. split.
  - intros [H|[H|[H|[]]]]; congruence.
  - auto.
Qed.

(** ** C1: the relevance filter *)

Lemma two_in_filter {A} (f : A -> bool) (l : list A) :
  List.NoDup l ->
  (2 <= length (List.filter f l) <->
   exists x y, x <> y /\ In x l /\ In y l /\ f x = true /\ f y = true).
Proof.
  intros Hnd. split.
  - intros Hlen.
    assert (Hnd' : List.NoDup (List.filter f l)) by (apply List.NoDup_filter, Hnd).
    destruct (List.filter f l) as [|x [|y r]] eqn:E; simpl in Hlen; try lia.
    assert (Hx : In x (List.filter f l)) by (rewrite E; simpl; auto).
    assert (Hy : In y (List.filter f l)) by (rewrite E; simpl; auto).
    apply filter_In in Hx as [Hx Hfx]. apply filter_In in Hy as [Hy Hfy].
    exists x, y. repeat split; auto.
    intros ->. inversion Hnd' as [|? ? Hnin _]. apply Hnin. simpl. auto.
  - intros (x & y & Hxy & Hx & Hy & Hfx & Hfy).
    assert (Hx' : In x (List.filter f l)) by (apply filter_In; auto).
    assert (Hy' : In y (List.filter f l)) by (apply filter_In; auto).
    destruct (List.filter f l) as [|a [|b r]]; simpl in *; try lia.
    destruct Hx' as [Hx'|[]], Hy' as [Hy'|[]]. congruence.
Qed.

Lemma english_markers_NoDup : List.NoDup english_markers.
Proof.
  unfold english_markers.
  repeat (constructor; [simpl; intros H; repeat (destruct H as [H|H]; [discriminate|]); exact H|]).
  constructor.
Qed.

Lemma english_markers_words w :
  In w english_markers -> Str.space_free w = true /\ w <> EmptyString.
Proof.
  unfold english_markers. simpl.
  intros H. repeat (destruct H as [<-|H]; [split; [reflexivity|discriminate]|]).
  destruct H.
Qed.

(** C1. The relevance filter accepts a title and a description exactly
    when, on the lowercased text [title + " " + description], at least two
    of the ten marker words are space-delimited tokens of the space-padded
    text (two different markers, so each counts once) and some configured
    keyword, lowercased, is a substring of the text. *)
Theorem relevance_filter_accepts_iff (self : Digest.t) (title description : string) :
  _is_related_to_automation self title description = true <->
  let text := Str.lower (title +:+ " " +:+ description) in
  (exists m1 m2, m1 <> m2 /\ In m1 english_markers /\ In m2 english_markers /\
                 is_token m1 (" " +:+ text +:+ " ") /\
                 is_token m2 (" " +:+ text +:+ " ")) /\
  (exists keyword, In keyword (Digest.keywords self) /\
                   is_substring (Str.lower keyword) text).
Proof.
  unfold _is_related_to_automation. cbv zeta.
  set (text := Str.lower (title +:+ " " +:+ description)).
  rewrite andb_true_iff, existsb_exists, Nat.leb_le.
  rewrite (two_in_filter _ _ english_markers_NoDup).
  split.
  - intros [(keyword & Hk & Hin) (m1 & m2 & Hne & H1 & H2 & Hf1 & Hf2)]. split.
    + exists m1, m2. repeat split; auto.
      * destruct (english_markers_words m1 H1). apply token_iff_padded; auto.
      * destruct (english_markers_words m2 H2). apply token_iff_padded; auto.
    + exists keyword. split; [exact Hk|]. apply str_in_spec. exact Hin.
  - intros [(m1 & m2 & Hne & H1 & H2 & Ht1 & Ht2) (keyword & Hk & Hsub)]. split.
    + exists keyword. split; [exact Hk|]. apply str_in_spec. exact Hsub.
    + exists m1, m2. repeat split; auto.
      * destruct (english_markers_words m1 H1). apply token_iff_padded; auto.
      * destruct (english_markers_words m2 H2). apply token_iff_padded; auto.
Qed.

(** ** Running the monad *)

Lemma bind_run {A B} (c : M A) (k : A -> M B) w :
  bind c k w =
  match c w with
  | (Ok a, w') => k a w'
  | (Raise e, w') => (Raise e, w')
  end.
Proof. reflexivity. Qed.

Lemma try_except_reraise {A} (body : M A) w :
  try_except body (fun e => raise e) w = body w.
Proof.
  unfold try_except, raise. destruct (body w) as [[a|e] w']; reflexivity.
Qed.

(** ** One entry *)

(** What one turn of the loop over the entries does: an entry without a
    title raises; any other entry reads the clock once and is appended when
    it passes the inclusion check. *)
Lemma process_entry_run env self feed entry feed_items w :
  process_entry env self feed entry feed_items w =
  match Entry.title entry with
  | None => (Raise (AttributeError "title"), w)
  | Some title =>
      (Ok (if truthy title && truthy (entry_url entry) &&
              _is_related_to_automation self title (entry_description entry)
           then feed_items ++
                [make_item feed title (entry_url entry) (entry_description entry)
                   (entry_pub_date env
                      (strftime_ymd (Env.datetime_now env (World.ticks w))) entry)]
           else feed_items),
       World.tick w)
  end.
Proof.
  unfold process_entry, getattr. destruct (Entry.title entry) as [title|].
  - unfold bind, ret, now.
    destruct (truthy title && truthy (entry_url entry) &&
              _is_related_to_automation self title (entry_description entry));
      reflexivity.
  - reflexivity.
Qed.

Lemma process_entries_cons env self feed entry rest feed_items w :
  process_entries env self feed (entry :: rest) feed_items w =
  match process_entry env self feed entry feed_items w with
  | (Ok feed_items', w') => process_entries env self feed rest feed_items' w'
  | (Raise e, w') => (Raise e, w')
  end.
Proof. reflexivity. Qed.

(** The items a feed returns extend the list so far by items built from its
    entries. *)
Lemma process_entries_built env self feed entries : forall feed_items w items w',
  process_entries env self feed entries feed_items w = (Ok items, w') ->
  exists new, items = feed_items ++ new /\
    Forall (fun n => exists entry, In entry entries /\ built_from env self feed entry n) new.
Proof.
  induction entries as [|entry rest IH]; intros feed_items w items w' H.
  - injection H as <- <-. exists []. rewrite List.app_nil_r. split; [reflexivity|constructor].
  - rewrite process_entries_cons, process_entry_run in H.
    destruct (Entry.title entry) as [title|] eqn:Ht; [|discriminate].
    destruct (truthy title && truthy (entry_url entry) &&
              _is_related_to_automation self title (entry_description entry)) eqn:Hc.
    + apply IH in H as (new & -> & Hnew).
      exists (make_item feed title (entry_url entry) (entry_description entry)
                (entry_pub_date env
                   (strftime_ymd (Env.datetime_now env (World.ticks w))) entry) :: new).
      split; [rewrite <- List.app_assoc; reflexivity|].
      constructor.
      * exists entry. split; [left; reflexivity|].
        apply andb_true_iff in Hc as [Hc Hrel]. apply andb_true_iff in Hc as [Htt Htu].
        exists title, (World.ticks w). auto.
      * eapply List.Forall_impl; [|exact Hnew].
        intros n (e & He & Hb). exists e. split; [right; exact He|exact Hb].
    + apply IH in H as (new & -> & Hnew). exists new. split; [reflexivity|].
      eapply List.Forall_impl; [|exact Hnew].
      intros n (e & He & Hb). exists e. split; [right; exact He|exact Hb].
Qed.

(** When every entry has a title, the loop over the entries returns, and
    the items it adds stand in the order of the entries. *)
Lemma process_entries_in_order env self feed entries : forall feed_items w,
  Forall (fun entry => Entry.title entry <> None) entries ->
  exists w',
    process_entries env self feed entries feed_items w =
    (Ok (feed_items ++ items_of_entries env self feed (World.ticks w) entries), w').
Proof.
  induction entries as [|entry rest IH]; intros feed_items w Hall.
  - exists w. simpl. rewrite List.app_nil_r. reflexivity.
  - inversion Hall as [|? ? Htitle Hrest]; subst.
    rewrite process_entries_cons, process_entry_run. simpl.
    destruct (Entry.title entry) as [title|]; [|congruence].
    destruct (IH (if truthy title && truthy (entry_url entry) &&
                     _is_related_to_automation self title (entry_description entry)
                  then feed_items ++
                       [make_item feed title (entry_url entry) (entry_description entry)
                          (entry_pub_date env
                             (strftime_ymd (Env.datetime_now env (World.ticks w))) entry)]
                  else feed_items) (World.tick w) Hrest) as [w' ->].
    exists w'. simpl.
    destruct (truthy title && truthy (entry_url entry) &&
              _is_related_to_automation self title (entry_description entry)).
    + rewrite <- List.app_assoc. reflexivity.
    + reflexivity.
Qed.

(** An entry without a title stops the loop over the entries with an
    [AttributeError], whatever comes before or after it. *)
Lemma process_entries_missing_title env self feed entries : forall feed_items w entry,
  In entry entries -> Entry.title entry = None ->
  exists w', process_entries env self feed entries feed_items w =
             (Raise (AttributeError "title"), w').
Proof.
  induction entries as [|first rest IH]; intros feed_items w entry Hin Hnone.
  - destruct Hin.
  - rewrite process_entries_cons, process_entry_run.
    destruct (Entry.title first) as [title|] eqn:Ht.
    + destruct Hin as [->|Hin]; [congruence|]. eapply IH; eauto.
    + eauto.
Qed.

Lemma fetch_feed_run env self feed w :
  fetch_feed env self feed w =
  match Env.feedparser_parse env (World.ticks w) (FeedSource.url feed) with
  | Ok entries =>
      match process_entries env self feed entries [] (World.tick w) with
      | (Ok feed_items, w') => (Ok (feed_items, length entries), w')
      | (Raise e, w') => (Raise e, w')
      end
  | Raise e => (Raise e, World.tick w)
  end.
Proof.
  unfold fetch_feed. rewrite try_except_reraise. unfold bind, parse, ret.
  destruct (Env.feedparser_parse env (World.ticks w) (FeedSource.url feed)); reflexivity.
Qed.

Lemma fetch_feed_built env self feed w feed_items entries_count w' :
  fetch_feed env self feed w = (Ok (feed_items, entries_count), w') ->
  exists entries,
    Env.feedparser_parse env (World.ticks w) (FeedSource.url feed) = Ok entries /\
    entries_count = length entries /\
    Forall (fun n => exists entry, In entry entries /\ built_from env self feed entry n)
           feed_items.
Proof.
  rewrite fetch_feed_run.
  destruct (Env.feedparser_parse env (World.ticks w) (FeedSource.url feed))
    as [entries|e]; [|discriminate].
  destruct (process_entries env self feed entries [] (World.tick w))
    as [[items|e] w1] eqn:Hp; [|discriminate].
  intros H. injection H as <- <- <-.
  apply process_entries_built in Hp as (new & -> & Hnew).
  exists entries. auto.
Qed.

(** A feed with an entry that has no title fails as a whole. *)
Lemma fetch_feed_missing_title env self feed w entries entry :
  Env.feedparser_parse env (World.ticks w) (FeedSource.url feed) = Ok entries ->
  In entry entries -> Entry.title entry = None ->
  exists w', fetch_feed env self feed w = (Raise (AttributeError "title"), w').
Proof.
  intros Hp Hin Hnone. rewrite fetch_feed_run, Hp.
  destruct (process_entries_missing_title env self feed entries [] (World.tick w)
              entry Hin Hnone) as [w' ->].
  eauto.
Qed.

(** ** The order of date strings and the sort *)

Lemma ltb_false_leb a b : String.ltb a b = false -> String.leb b a = true.
Proof.
  unfold String.ltb, String.leb. rewrite (String.compare_antisym b a).
  destruct (String.compare a b); simpl; congruence.
Qed.

Lemma ltb_true_leb a b : String.ltb a b = true -> String.leb a b = true.
Proof.
  unfold String.ltb, String.leb. destruct (String.compare a b); congruence.
Qed.

Lemma compare_refl a : String.compare a a = Eq.
Proof.
  induction a as [|c a IH]; simpl; [reflexivity|].
  unfold Ascii.compare. rewrite N.compare_refl. exact IH.
Qed.

Lemma ltb_irrefl a : String.ltb a a = false.
Proof. unfold String.ltb. rewrite compare_refl. reflexivity. Qed.

Lemma leb_refl a : String.leb a a = true.
Proof. unfold String.leb. rewrite compare_refl. reflexivity. Qed.

Lemma leb_trans a b c :
  String.leb a b = true -> String.leb b c = true -> String.leb a c = true.
Proof.
  intros Hab Hbc. apply Is_true_true.
  apply Is_true_true in Hab, Hbc.
  exact (transitivity (R := String.le) Hab Hbc).
Qed.

Lemma date_ge_trans a b c : date_ge a b -> date_ge b c -> date_ge a c.
Proof. unfold date_ge. intros Hab Hbc. eapply leb_trans; eauto. Qed.

Lemma insert_by_date_perm x l : Permutation (insert_by_date x l) (x :: l).
Proof.
  induction l as [|y l IH]; simpl; [reflexivity|].
  destruct (String.ltb (NewsItem.date x) (NewsItem.date y)); [|reflexivity].
  rewrite IH. apply perm_swap.
Qed.

Lemma sort_by_date_desc_perm l : Permutation (sort_by_date_desc l) l.
Proof.
  induction l as [|x l IH]; simpl; [reflexivity|].
  rewrite insert_by_date_perm, IH. reflexivity.
Qed.

Lemma insert_by_date_sorted x l :
  StronglySorted date_ge l -> StronglySorted date_ge (insert_by_date x l).
Proof.
  induction 1 as [|y l Hs IH Hy]; simpl.
  - repeat constructor.
  - destruct (String.ltb (NewsItem.date x) (NewsItem.date y)) eqn:E.
    + constructor; [exact IH|].
      eapply Permutation_Forall; [symmetry; apply insert_by_date_perm|].
      constructor; [|exact Hy]. apply ltb_true_leb. exact E.
    + assert (Hxy : date_ge x y) by (apply ltb_false_leb; exact E).
      constructor; [constructor; assumption|].
      constructor; [exact Hxy|].
      eapply List.Forall_impl; [|exact Hy].
      intros z Hz. eapply date_ge_trans; eauto.
Qed.

Lemma sort_by_date_desc_sorted l : StronglySorted date_ge (sort_by_date_desc l).
Proof.
  induction l as [|x l IH]; simpl; [constructor|].
  apply insert_by_date_sorted, IH.
Qed.

(** The insertion leaves the items of each date in their order. *)
Lemma insert_by_date_stable d x l :
  List.filter (has_date d) (insert_by_date x l) = List.filter (has_date d) (x :: l).
Proof.
  induction l as [|y l IH]; [reflexivity|].
  simpl insert_by_date.
  destruct (String.ltb (NewsItem.date x) (NewsItem.date y)) eqn:E; [|reflexivity].
  cbn [List.filter]. rewrite IH. cbn [List.filter]. unfold has_date.
  destruct (String.eqb_spec (NewsItem.date y) d) as [Hy|Hy];
    destruct (String.eqb_spec (NewsItem.date x) d) as [Hx|Hx]; try reflexivity.
  rewrite Hx, Hy, ltb_irrefl in E. discriminate.
Qed.

Lemma sort_by_date_desc_stable d l :
  List.filter (has_date d) (sort_by_date_desc l) = List.filter (has_date d) l.
Proof.
  induction l as [|x l IH]; [reflexivity|].
  simpl sort_by_date_desc. rewrite insert_by_date_stable. simpl. rewrite IH. reflexivity.
Qed.

(** A list sorted by date, newest first, is determined by the items it has
    of each date and their order: the result of a stable sort does not
    depend on how the sort proceeds, so that the insertion above returns
    what the sort of Python returns. *)
Lemma stable_sort_unique s1 : forall s2,
  StronglySorted date_ge s1 -> StronglySorted date_ge s2 ->
  (forall d, List.filter (has_date d) s1 = List.filter (has_date d) s2) ->
  s1 = s2.
Proof.
  assert (Hself : forall x, has_date (NewsItem.date x) x = true)
    by (intros x; apply String.eqb_refl).
  assert (Hhead : forall x l y l',
            StronglySorted date_ge (y :: l') ->
            List.filter (has_date (NewsItem.date x)) (x :: l) =
            List.filter (has_date (NewsItem.date x)) (y :: l') ->
            date_ge y x).
  { intros x l y l' Hs Hf.
    assert (Hin : In x (y :: l')).
    { eapply proj1. apply (filter_In (has_date (NewsItem.date x))).
      rewrite <- Hf. cbn [List.filter]. rewrite Hself. left. reflexivity. }
    destruct Hin as [->|Hin]; [apply leb_refl|].
    inversion Hs as [|? ? _ Hall]; subst.
    rewrite List.Forall_forall in Hall. apply Hall, Hin. }
  induction s1 as [|x s1 IH]; intros [|y s2] H1 H2 Hf.
  - reflexivity.
  - specialize (Hf (NewsItem.date y)). cbn [List.filter] in Hf.
    rewrite Hself in Hf. discriminate.
  - specialize (Hf (NewsItem.date x)). cbn [List.filter] in Hf.
    rewrite Hself in Hf. discriminate.
  - assert (Hyx : date_ge y x) by (eapply Hhead; [exact H2|apply Hf]).
    assert (Hxy : date_ge x y) by (eapply Hhead; [exact H1|symmetry; apply Hf]).
    assert (Hdate : NewsItem.date x = NewsItem.date y)
      by (apply String.leb_antisym; assumption).
    assert (Hx : x = y).
    { specialize (Hf (NewsItem.date x)). cbn [List.filter] in Hf.
      rewrite Hself in Hf. rewrite Hdate, Hself in Hf. congruence. }
    subst y. f_equal. apply IH.
    + inversion H1; assumption.
    + inversion H2; assumption.
    + intros d. specialize (Hf d). cbn [List.filter] in Hf.
      destruct (has_date d x); congruence.
Qed.

Lemma sort_by_date_desc_unique l s :
  StronglySorted date_ge s ->
  (forall d, List.filter (has_date d) s = List.filter (has_date d) l) ->
  s = sort_by_date_desc l.
Proof.
  intros Hs Hf. apply stable_sort_unique; [exact Hs|apply sort_by_date_desc_sorted|].
  intros d. rewrite sort_by_date_desc_stable. apply Hf.
Qed.

(** ** Slices *)

Lemma slice_to_prefix {A} (l : list A) (k : Z) : exists rest, l = slice_to l k ++ rest.
Proof.
  unfold slice_to. destruct (0 <=? k)%Z.
  - exists (skipn (Z.to_nat k) l). symmetry. apply firstn_skipn.
  - exists (skipn (Z.to_nat (Z.of_nat (length l) + k)) l). symmetry. apply firstn_skipn.
Qed.

Lemma limit_results_prefix max_results items :
  exists rest, items = limit_results max_results items ++ rest.
Proof.
  unfold limit_results. destruct (Z.of_nat (length items) >? max_results)%Z.
  - apply slice_to_prefix.
  - exists []. rewrite List.app_nil_r. reflexivity.
Qed.

Lemma limit_results_fits max_results items :
  (Z.of_nat (length items) <= max_results)%Z -> limit_results max_results items = items.
Proof.
  intros H. unfold limit_results.
  destruct (Z.gtb_spec (Z.of_nat (length items)) max_results); [lia|reflexivity].
Qed.

Lemma limit_results_cut max_results items :
  (0 <= max_results < Z.of_nat (length items))%Z ->
  limit_results max_results items = firstn (Z.to_nat max_results) items.
Proof.
  intros H. unfold limit_results, slice_to.
  destruct (Z.gtb_spec (Z.of_nat (length items)) max_results); [|lia].
  destruct (Z.leb_spec 0 max_results); [reflexivity|lia].
Qed.

Lemma limit_results_length max_results items :
  (0 <= max_results)%Z ->
  (Z.of_nat (length (limit_results max_results items)) <= max_results)%Z.
Proof.
  intros H.
  destruct (Z.le_gt_cases (Z.of_nat (length items)) max_results) as [Hle|Hgt].
  - rewrite limit_results_fits; assumption.
  - rewrite limit_results_cut by lia. rewrite List.length_firstn. lia.
Qed.

Lemma StronglySorted_prefix {A} (R : A -> A -> Prop) (l1 l2 : list A) :
  StronglySorted R (l1 ++ l2) -> StronglySorted R l1.
Proof.
  induction l1 as [|x l1 IH]; simpl; intros H; [constructor|].
  inversion H as [|? ? Hs Hx]; subst. constructor; [apply IH, Hs|].
  apply List.Forall_app in Hx as [Hx _]. exact Hx.
Qed.

(** ** The loop over the feeds *)

(** One turn of the loop: a feed that answers adds its items and counts as
    successful, a feed that raises counts as failed; the turn itself never
    raises. *)
Lemma process_feed_run env self feed st w :
  process_feed env self feed st w =
  match fetch_feed env self feed w with
  | (Ok (feed_items, entries_count), w1) =>
      (Ok {| Loop.news_items := Loop.news_items st ++ feed_items;
             Loop.total_entries_checked := Loop.total_entries_checked st + entries_count;
             Loop.successful_feeds := Loop.successful_feeds st + 1;
             Loop.failed_feeds := Loop.failed_feeds st |}, w1)
  | (Raise _, w1) =>
      (Ok {| Loop.news_items := Loop.news_items st;
             Loop.total_entries_checked := Loop.total_entries_checked st;
             Loop.successful_feeds := Loop.successful_feeds st;
             Loop.failed_feeds := Loop.failed_feeds st + 1 |}, w1)
  end.
Proof.
  unfold process_feed, try_except, bind, ret.
  destruct (fetch_feed env self feed w) as [[[feed_items entries_count]|e] w1];
    [|reflexivity].
  destruct feed_items; [rewrite List.app_nil_r|]; reflexivity.
Qed.

Lemma process_feeds_cons env self feed rest st w :
  process_feeds env self (feed :: rest) st w =
  match process_feed env self feed st w with
  | (Ok st', w') => process_feeds env self rest st' w'
  | (Raise e, w') => (Raise e, w')
  end.
Proof. reflexivity. Qed.

Lemma gather_cons env self feed rest w :
  gather env self (feed :: rest) w =
  match fetch_feed env self feed w with
  | (Ok (feed_items, _), w1) =>
      (feed_items ++ fst (gather env self rest w1), snd (gather env self rest w1))
  | (Raise _, w1) => gather env self rest w1
  end.
Proof.
  simpl. destruct (fetch_feed env self feed w) as [[[feed_items n]|e] w1]; [|reflexivity].
  destruct (gather env self rest w1); reflexivity.
Qed.

(** The loop never raises; it appends to the stored collection what the
    feeds gave, in the order of the feeds, and counts every feed once. *)
Lemma process_feeds_gather env self feeds : forall st w,
  exists st',
    process_feeds env self feeds st w = (Ok st', snd (gather env self feeds w)) /\
    Loop.news_items st' = Loop.news_items st ++ fst (gather env self feeds w) /\
    Loop.successful_feeds st' + Loop.failed_feeds st' =
      Loop.successful_feeds st + Loop.failed_feeds st + length feeds.
Proof.
  induction feeds as [|feed rest IH]; intros st w.
  - exists st. simpl. rewrite List.app_nil_r. repeat split; lia.
  - rewrite process_feeds_cons, process_feed_run, gather_cons.
    destruct (fetch_feed env self feed w) as [[[feed_items n]|e] w1].
    + edestruct IH as (st' & -> & Hitems & Hcount). exists st'.
      rewrite Hitems, Hcount. simpl. rewrite <- List.app_assoc.
      repeat split; lia.
    + edestruct IH as (st' & -> & Hitems & Hcount). exists st'.
      rewrite Hitems, Hcount. simpl. repeat split; lia.
Qed.

(** Every item gathered was built from an entry of one of the feeds. *)
Lemma gather_fetched env self feeds : forall w,
  (forall feed, In feed feeds -> In feed (Digest.rss_feeds self)) ->
  Forall (fetched_from env self) (fst (gather env self feeds w)).
Proof.
  induction feeds as [|feed rest IH]; intros w Hsub; [constructor|].
  rewrite gather_cons.
  destruct (fetch_feed env self feed w) as [[[feed_items n]|e] w1] eqn:Hf.
  - simpl. apply List.Forall_app. split.
    + apply fetch_feed_built in Hf as (entries & Hp & _ & Hb).
      eapply List.Forall_impl; [|exact Hb].
      intros x (entry & Hin & Hbuilt).
      exists feed, (World.ticks w), entries, entry.
      repeat split; auto. apply Hsub. left. reflexivity.
    + apply IH. intros f Hin. apply Hsub. right. exact Hin.
  - apply IH. intros f Hin. apply Hsub. right. exact Hin.
Qed.

(** ** The aggregator as a whole *)

(** [fetch_news] always returns: the stored collection extended by what the
    feeds gave, sorted by date and cut to [max_results], which is both
    stored in the object and returned. *)
Lemma fetch_news_run env self w :
  exists r,
    fetch_news env self w = (Ok r, snd (gather env self (Digest.rss_feeds self) w)) /\
    Report.returned r =
      limit_results (Digest.max_results self)
        (sort_by_date_desc
           (Digest.news_items self ++ fst (gather env self (Digest.rss_feeds self) w))) /\
    Report.self r = Digest.set_news_items self (Report.returned r) /\
    Report.successful_feeds r + Report.failed_feeds r = length (Digest.rss_feeds self).
Proof.
  unfold fetch_news. rewrite bind_run.
  edestruct (process_feeds_gather env self (Digest.rss_feeds self)) as (st & -> & Hitems & Hcount).
  eexists. split; [reflexivity|]. simpl in *. rewrite Hitems.
  repeat split. lia.
Qed.

(** ** C2: every item of the digest passed the inclusion check *)

Lemma truthy_nonempty s : truthy s = true -> s <> EmptyString.
Proof.
  unfold truthy. rewrite negb_true_iff. apply String.eqb_neq.
Qed.

Lemma fetched_kept env self n : fetched_from env self n -> kept_item env self n.
Proof.
  intros (feed & t & entries & entry & Hfeed & Hparse & Hin & Hbuilt).
  pose proof Hbuilt as (title & t' & Htitle & Htt & Htu & Hrel & ->).
  unfold kept_item. simpl.
  split; [apply truthy_nonempty, Htt|].
  split; [apply truthy_nonempty, Htu|].
  exists feed, t, entries, entry. repeat split; auto.
Qed.

(** Sorting and cutting keep what holds of every accumulated item. *)
Lemma accumulated_kept env self w :
  Forall (kept_item env self) (Digest.news_items self) ->
  Forall (kept_item env self)
    (limit_results (Digest.max_results self)
       (sort_by_date_desc
          (Digest.news_items self ++ fst (gather env self (Digest.rss_feeds self) w)))).
Proof.
  intros Hold.
  set (acc := Digest.news_items self ++ fst (gather env self (Digest.rss_feeds self) w)).
  assert (Hacc : Forall (kept_item env self) acc).
  { apply List.Forall_app. split; [exact Hold|].
    eapply List.Forall_impl; [apply fetched_kept|].
    apply gather_fetched. auto. }
  assert (Hsorted : Forall (kept_item env self) (sort_by_date_desc acc)).
  { eapply Permutation_Forall; [symmetry; apply sort_by_date_desc_perm|exact Hacc]. }
  destruct (limit_results_prefix (Digest.max_results self) (sort_by_date_desc acc))
    as [rest Hrest].
  rewrite Hrest in Hsorted. apply List.Forall_app in Hsorted as [H _]. exact H.
Qed.

(** C2. Every item [fetch_news] returns has a non-empty title and a
    non-empty url, and the relevance filter accepts its title with the
    description, before stripping, of the entry it was built from. The
    stored items are part of the returned collection, so this is stated
    as holding of all returned items when it holds of the stored ones, as
    it does for the empty collection of a new object. *)
Theorem fetch_news_items_kept (env : Env.t) (self : Digest.t) (w : World.t) :
  Forall (kept_item env self) (Digest.news_items self) ->
  exists r w',
    fetch_news env self w = (Ok r, w') /\
    Forall (kept_item env self) (Report.returned r).
Proof.
  intros Hold.
  destruct (fetch_news_run env self w) as (r & Hrun & Hret & _).
  exists r, (snd (gather env self (Digest.rss_feeds self) w)).
  split; [exact Hrun|]. rewrite Hret. apply accumulated_kept, Hold.
Qed.

Lemma fetch_news_items_kept_witness :
  exists r w',
    fetch_news Sample.env (Sample.digest 100) Sample.world = (Ok r, w') /\
    Forall (kept_item Sample.env (Sample.digest 100)) (Report.returned r).
Proof.
  apply (fetch_news_items_kept Sample.env (Sample.digest 100) Sample.world).
  simpl. constructor.
Defined.

(** The first run of a new object, whatever its keywords and maximum. *)
Corollary new_object_items_kept env keywords max_results debug_mode w :
  let self := __init__ keywords max_results debug_mode in
  exists r w',
    fetch_news env self w = (Ok r, w') /\
    Forall (kept_item env self) (Report.returned r).
Proof.
  intros self.
  destruct (fetch_news_run env self w) as (r & Hrun & Hret & _).
  exists r, (snd (gather env self (Digest.rss_feeds self) w)).
  split; [exact Hrun|]. rewrite Hret. apply accumulated_kept. constructor.
Qed.

(** ** C3: the digest is sorted by date, newest first, and stably *)

Lemma filter_prefix {A} (f : A -> bool) (l1 l2 : list A) :
  List.filter f (l1 ++ l2) = List.filter f l1 ++ List.filter f l2.
Proof. apply List.filter_app. Qed.

(** C3. The collection [fetch_news] returns is sorted by date string, not
    increasing from one item to the next, and the items of any one date
    stand in the order in which they were accumulated: the stored items
    first, then the items of each feed in the order of the feeds, each feed
    in its own order. *)
Theorem fetch_news_sorted_stable (env : Env.t) (self : Digest.t) (w : World.t) :
  exists r w',
    fetch_news env self w = (Ok r, w') /\
    Sorted date_ge (Report.returned r) /\
    StronglySorted date_ge (Report.returned r) /\
    forall d, exists later,
      List.filter (has_date d)
        (Digest.news_items self ++ fst (gather env self (Digest.rss_feeds self) w)) =
      List.filter (has_date d) (Report.returned r) ++ later.
Proof.
  destruct (fetch_news_run env self w) as (r & Hrun & Hret & _).
  exists r, (snd (gather env self (Digest.rss_feeds self) w)).
  split; [exact Hrun|]. rewrite Hret.
  set (acc := Digest.news_items self ++ fst (gather env self (Digest.rss_feeds self) w)).
  destruct (limit_results_prefix (Digest.max_results self) (sort_by_date_desc acc))
    as [rest Hrest].
  assert (Hs : StronglySorted date_ge
                 (limit_results (Digest.max_results self) (sort_by_date_desc acc))).
  { apply (StronglySorted_prefix _ _ rest). rewrite <- Hrest.
    apply sort_by_date_desc_sorted. }
  split; [apply StronglySorted_Sorted, Hs|]. split; [exact Hs|].
  intros d. exists (List.filter (has_date d) rest).
  rewrite <- filter_prefix, <- Hrest. symmetry. apply sort_by_date_desc_stable.
Qed.

(** ** C4: the digest has at most [max_results] items *)

(** C4. For a maximum that is a count, the collection [fetch_news] returns
    has at most [max_results] items; when more were accumulated, it is the
    first [max_results] items of the sorted collection, and the whole
    sorted collection otherwise. *)
Theorem fetch_news_limited (env : Env.t) (self : Digest.t) (w : World.t) :
  (0 <= Digest.max_results self)%Z ->
  exists r w',
    fetch_news env self w = (Ok r, w') /\
    (Z.of_nat (length (Report.returned r)) <= Digest.max_results self)%Z /\
    let accumulated :=
      Digest.news_items self ++ fst (gather env self (Digest.rss_feeds self) w) in
    ((Digest.max_results self < Z.of_nat (length accumulated))%Z ->
     Report.returned r =
       firstn (Z.to_nat (Digest.max_results self)) (sort_by_date_desc accumulated)) /\
    ((Z.of_nat (length accumulated) <= Digest.max_results self)%Z ->
     Report.returned r = sort_by_date_desc accumulated).
Proof.
  intros Hmax.
  destruct (fetch_news_run env self w) as (r & Hrun & Hret & _).
  exists r, (snd (gather env self (Digest.rss_feeds self) w)).
  split; [exact Hrun|]. rewrite Hret. cbv zeta.
  set (acc := Digest.news_items self ++ fst (gather env self (Digest.rss_feeds self) w)).
  assert (Hlen : length (sort_by_date_desc acc) = length acc)
    by apply Permutation_length, sort_by_date_desc_perm.
  split; [apply limit_results_length, Hmax|]. split.
  - intros H. apply limit_results_cut. lia.
  - intros H. apply limit_results_fits. lia.
Qed.

Lemma fetch_news_limited_witness :
  exists r w',
    fetch_news Sample.env (Sample.digest 2) Sample.world = (Ok r, w') /\
    (Z.of_nat (length (Report.returned r)) <= 2)%Z.
Proof.
  destruct (fetch_news_limited Sample.env (Sample.digest 2) Sample.world)
    as (r & w' & Hrun & Hlen & _).
  - simpl. lia.
  - exists r, w'. split; [exact Hrun|exact Hlen].
Defined.

(** A maximum below zero is not a count: the slice then drops items from
    the end, and what is left is longer than the maximum. *)
Example negative_max_results :
  length (limit_results (-1)
            [Sample.item "a" "2025-01-03"; Sample.item "b" "2025-01-02";
             Sample.item "c" "2025-01-01"]) = 2.
Proof. reflexivity. Qed.

(** ** C5: a source that fails is counted and skipped *)

(** C5. When the fetch of a source raises, the loop counts the source as
    failed, keeps what it had and goes on with the sources that remain. For
    three sources of which the second fails, on an object that stored
    nothing before, one source is counted as failed and two as successful,
    and the collection returned is made of the items of the first and the
    third source: their concatenation sorted by date and cut to
    [max_results], hence every one of them when they fit. *)
Theorem fetch_news_partial_failure (env : Env.t) (self : Digest.t)
    (f1 f2 f3 : FeedSource.t) (w w1 w2 w3 : World.t)
    (items1 items3 : list NewsItem.t) (n1 n3 : nat) (e : exn) :
  Digest.rss_feeds self = [f1; f2; f3] ->
  Digest.news_items self = [] ->
  fetch_feed env self f1 w = (Ok (items1, n1), w1) ->
  fetch_feed env self f2 w1 = (Raise e, w2) ->
  fetch_feed env self f3 w2 = (Ok (items3, n3), w3) ->
  (forall rest st,
     process_feeds env self (f2 :: rest) st w1 =
     process_feeds env self rest
       {| Loop.news_items := Loop.news_items st;
          Loop.total_entries_checked := Loop.total_entries_checked st;
          Loop.successful_feeds := Loop.successful_feeds st;
          Loop.failed_feeds := Loop.failed_feeds st + 1 |} w2) /\
  exists r,
    fetch_news env self w = (Ok r, w3) /\
    Report.failed_feeds r = 1 /\
    Report.successful_feeds r = 2 /\
    Report.total_entries_checked r = n1 + n3 /\
    Report.returned r =
      limit_results (Digest.max_results self) (sort_by_date_desc (items1 ++ items3)) /\
    (forall n, In n (Report.returned r) -> In n items1 \/ In n items3) /\
    ((Z.of_nat (length (items1 ++ items3)) <= Digest.max_results self)%Z ->
     Permutation (Report.returned r) (items1 ++ items3)).
Proof.
  intros Hfeeds Hnone H1 H2 H3. split.
  - intros rest st. rewrite process_feeds_cons, process_feed_run, H2. reflexivity.
  - unfold fetch_news. rewrite bind_run, Hfeeds, Hnone.
    rewrite process_feeds_cons, process_feed_run, H1.
    rewrite process_feeds_cons, process_feed_run, H2.
    rewrite process_feeds_cons, process_feed_run, H3.
    simpl. eexists. split; [reflexivity|]. simpl.
    repeat split.
    + intros n Hn. apply in_app_or.
      destruct (limit_results_prefix (Digest.max_results self)
                  (sort_by_date_desc (items1 ++ items3))) as [rest Hrest].
      eapply Permutation_in; [apply sort_by_date_desc_perm|].
      rewrite Hrest. apply in_or_app. left. exact Hn.
    + intros Hfit. rewrite limit_results_fits.
      * apply sort_by_date_desc_perm.
      * rewrite (Permutation_length (sort_by_date_desc_perm _)). exact Hfit.
Qed.

Lemma fetch_news_partial_failure_witness :
  exists r w',
    fetch_news Sample.env (Sample.digest 100) Sample.world = (Ok r, w') /\
    Report.failed_feeds r = 1 /\ Report.successful_feeds r = 2.
Proof.
  edestruct (fetch_news_partial_failure Sample.env (Sample.digest 100)
               Sample.one Sample.two Sample.three Sample.world)
    as (_ & r & Hrun & Hfailed & Hok & _);
    [reflexivity | reflexivity | vm_compute; reflexivity | vm_compute; reflexivity
    | vm_compute; reflexivity |].
  exists r. eexists. split; [exact Hrun|]. split; [exact Hfailed|exact Hok].
Defined.

(** ** C9: [fetch_news] adds to what the object stored *)

(** C9. [fetch_news] starts from the stored collection: what it returns,
    and stores, is the stored collection extended by the items fetched,
    sorted by date and cut to [max_results]; when all fit, every stored
    item is still there. A second call on the object starts from the
    result of the first. *)
Theorem fetch_news_accumulates (env : Env.t) (self : Digest.t) (w : World.t) :
  exists r w',
    fetch_news env self w = (Ok r, w') /\
    let fetched := fst (gather env self (Digest.rss_feeds self) w) in
    Report.returned r =
      limit_results (Digest.max_results self)
        (sort_by_date_desc (Digest.news_items self ++ fetched)) /\
    Digest.news_items (Report.self r) = Report.returned r /\
    ((Z.of_nat (length (Digest.news_items self ++ fetched)) <= Digest.max_results self)%Z ->
     Permutation (Report.returned r) (Digest.news_items self ++ fetched) /\
     forall n, In n (Digest.news_items self) -> In n (Report.returned r)) /\
    exists r2 w2,
      fetch_news env (Report.self r) w' = (Ok r2, w2) /\
      Report.returned r2 =
        limit_results (Digest.max_results self)
          (sort_by_date_desc
             (Report.returned r ++
              fst (gather env (Report.self r) (Digest.rss_feeds self) w'))).
Proof.
  destruct (fetch_news_run env self w) as (r & Hrun & Hret & Hself & _).
  exists r, (snd (gather env self (Digest.rss_feeds self) w)).
  split; [exact Hrun|]. cbv zeta. split; [exact Hret|].
  split; [rewrite Hself; reflexivity|]. split.
  - intros Hfit.
    assert (Hperm : Permutation (Report.returned r)
              (Digest.news_items self ++ fst (gather env self (Digest.rss_feeds self) w))).
    { rewrite Hret, limit_results_fits; [apply sort_by_date_desc_perm|].
      rewrite (Permutation_length (sort_by_date_desc_perm _)). exact Hfit. }
    split; [exact Hperm|]. intros n Hn.
    eapply Permutation_in; [symmetry; exact Hperm|]. apply in_or_app. left. exact Hn.
  - destruct (fetch_news_run env (Report.self r)
                (snd (gather env self (Digest.rss_feeds self) w)))
      as (r2 & Hrun2 & Hret2 & _).
    rewrite Hself in Hrun2, Hret2. simpl in Hrun2, Hret2.
    exists r2. eexists. rewrite Hself. split; [exact Hrun2|exact Hret2].
Qed.

(** A run on an object that holds an item of an earlier day: the item is
    still there after the run, behind the three items fetched. *)
Example fetch_news_keeps_prior_item :
  let self := Digest.set_news_items (Sample.digest 100) [Sample.item "old" "2025-02-01"] in
  match fst (fetch_news Sample.env self Sample.world) with
  | Ok r => map NewsItem.title (Report.returned r)
  | Raise _ => []
  end =
  ["A guide to workflow automation in the cloud";
   "Automation and the future of work";
   "The automation of the office is here"; "old"].
Proof. vm_compute. reflexivity. Qed.

(** ** C6: the stored description *)

Lemma truncate_description_long clean :
  200 < String.length clean ->
  truncate_description clean = Str.take 200 clean +:+ "..." /\
  String.length (truncate_description clean) = 203.
Proof.
  intros H. unfold truncate_description.
  destruct (Nat.ltb_spec 200 (String.length clean)); [|lia].
  split; [reflexivity|].
  rewrite str_length_app, str_length_take by lia. reflexivity.
Qed.

Lemma truncate_description_short clean :
  String.length clean <= 200 -> truncate_description clean = clean.
Proof.
  intros H. unfold truncate_description.
  destruct (Nat.ltb_spec 200 (String.length clean)); [lia|reflexivity].
Qed.

(** C6. An entry that passes the inclusion check adds one item; with
    [clean] the description after tag stripping, the description stored is
    the first 200 characters of [clean] followed by [...], 203 characters
    in all, when [clean] has more than 200 characters, and [clean] itself
    otherwise. *)
Theorem accepted_entry_description (env : Env.t) (self : Digest.t)
    (feed : FeedSource.t) (entry : Entry.t) (title : string)
    (feed_items : list NewsItem.t) (w : World.t) :
  Entry.title entry = Some title ->
  truthy title && truthy (entry_url entry) &&
    _is_related_to_automation self title (entry_description entry) = true ->
  exists n,
    process_entry env self feed entry feed_items w = (Ok (feed_items ++ [n]), World.tick w) /\
    let clean := strip_tags (entry_description entry) in
    (200 < String.length clean ->
     NewsItem.description n = Str.take 200 clean +:+ "..." /\
     String.length (NewsItem.description n) = 203) /\
    (String.length clean <= 200 -> NewsItem.description n = clean).
Proof.
  intros Htitle Hacc. rewrite process_entry_run, Htitle, Hacc.
  eexists. split; [reflexivity|]. simpl. split.
  - apply truncate_description_long.
  - apply truncate_description_short.
Qed.

Lemma accepted_entry_description_witness :
  exists n,
    process_entry Sample.env (Sample.digest 100) Sample.one Sample.long [] Sample.world =
      (Ok ([] ++ [n]), World.tick Sample.world) /\
    String.length (NewsItem.description n) = 203.
Proof.
  destruct (accepted_entry_description Sample.env (Sample.digest 100) Sample.one
              Sample.long "The state of process automation in a year of change"
              [] Sample.world)
    as (n & Hrun & Hlong & _); [reflexivity | vm_compute; reflexivity |].
  exists n. split; [exact Hrun|]. apply Hlong. vm_compute. lia.
Defined.

(** ** C7: an entry without a title *)

(** C7. A feed whose first entry has neither a title nor a link and whose
    second entry is one the filter accepts: reading the title of the first
    entry raises [AttributeError], [fetch_feed] raises it again and returns
    no item, and [fetch_news] counts the source as failed and has an empty
    digest, where the same second entry alone gives one item. *)
Theorem fetch_feed_entry_without_title :
  Entry.title Sample.bare = None /\ Entry.link Sample.bare = None /\
  fetch_feed Sample.env Sample.holed_digest Sample.holed Sample.world =
    (Raise (AttributeError "title"), World.tick Sample.world) /\
  (exists r w',
     fetch_news Sample.env Sample.holed_digest Sample.world = (Ok r, w') /\
     Report.returned r = [] /\ Report.failed_feeds r = 1 /\
     Report.successful_feeds r = 0) /\
  exists n w',
    process_entries Sample.env Sample.holed_digest Sample.holed [Sample.office] []
      Sample.world = (Ok [n], w') /\
    NewsItem.title n = "The automation of the office is here".
Proof.
  split; [reflexivity|]. split; [reflexivity|]. split; [vm_compute; reflexivity|].
  split.
  - eexists. eexists. split; [vm_compute; reflexivity|]. repeat split.
  - eexists. eexists. split; [vm_compute; reflexivity|]. reflexivity.
Qed.

(** ** C8: the date of an entry without a usable date *)

(** The widths of the fields, checked on every value of the range. *)
Lemma pad4_year y : (1000 <= y <= 9999)%Z -> four_digits (pad4 y) = true.
Proof.
  intros Hy.
  assert (Hall : forallb (fun n => four_digits (pad4 (Z.of_nat n)))
                         (seq (Z.to_nat 1000) (Z.to_nat 9000)) = true)
    by (vm_compute; reflexivity).
  rewrite forallb_forall in Hall.
  rewrite <- (Z2Nat.id y) by lia. apply Hall. apply in_seq. lia.
Qed.

Lemma pad2_field n : (0 <= n <= 99)%Z -> two_digits (pad2 n) = true.
Proof.
  intros Hn.
  assert (Hall : forallb (fun n => two_digits (pad2 (Z.of_nat n))) (seq 0 100) = true)
    by (vm_compute; reflexivity).
  rewrite forallb_forall in Hall.
  rewrite <- (Z2Nat.id n) by lia. apply Hall. apply in_seq. lia.
Qed.

Lemma two_digits_inv s :
  two_digits s = true ->
  exists a b, s = String a (String b EmptyString) /\
              is_digit a = true /\ is_digit b = true.
Proof.
  destruct s as [|a [|b [|c s]]]; simpl; try discriminate.
  intros H. apply andb_true_iff in H. exists a, b. split; [reflexivity|exact H].
Qed.

Lemma four_digits_inv s :
  four_digits s = true ->
  exists a b s', s = String a (String b s') /\
                 is_digit a = true /\ is_digit b = true /\ two_digits s' = true.
Proof.
  destruct s as [|a [|b s']]; simpl; try discriminate.
  intros H. apply andb_true_iff in H as [H H']. apply andb_true_iff in H as [Ha Hb].
  exists a, b, s'. auto.
Qed.

Lemma strftime_ymd_form dt : valid_datetime dt -> is_ymd_form (strftime_ymd dt) = true.
Proof.
  intros (Hy & Hm & Hd & _). unfold strftime_ymd.
  destruct (four_digits_inv _ (pad4_year (DateTime.year dt) Hy))
    as (y1 & y2 & y34 & -> & Hy1 & Hy2 & Hy34).
  destruct (two_digits_inv _ Hy34) as (y3 & y4 & -> & Hy3 & Hy4).
  destruct (two_digits_inv (pad2 (DateTime.month dt))) as (m1 & m2 & -> & Hm1 & Hm2);
    [apply pad2_field; lia|].
  destruct (two_digits_inv (pad2 (DateTime.day dt))) as (d1 & d2 & -> & Hd1 & Hd2);
    [apply pad2_field; lia|].
  rewrite !str_app_cons, !str_app_nil_l. cbn [is_ymd_form].
  rewrite Hy1, Hy2, Hy3, Hy4, Hm1, Hm2, Hd1, Hd2. reflexivity.
Qed.

Lemma entry_pub_date_default env today entry :
  timestamp_unusable env entry -> pubdate_unusable env entry ->
  entry_pub_date env today entry = today.
Proof.
  unfold timestamp_unusable, pubdate_unusable, entry_pub_date.
  intros Hts Hpd.
  destruct (Entry.published_parsed entry) as [[published_parsed|]|].
  - destruct Hts as [e ->]. reflexivity.
  - destruct (Entry.pubDate entry) as [pubDate|]; [|reflexivity].
    destruct Hpd as [e ->]. reflexivity.
  - destruct (Entry.pubDate entry) as [pubDate|]; [|reflexivity].
    destruct Hpd as [e ->]. reflexivity.
Qed.

(** C8. For an entry whose structured timestamp is absent or fails to
    format and whose date string is absent or fails to parse, the
    publication date is the date read from the clock, in the form
    YYYY-MM-DD; the turn of the loop for the entry returns without raising,
    and the item it adds, if any, carries that date. *)
Theorem unusable_date_defaults_to_today (env : Env.t) (self : Digest.t)
    (feed : FeedSource.t) (entry : Entry.t) (title : string)
    (feed_items : list NewsItem.t) (w : World.t) :
  Entry.title entry = Some title ->
  timestamp_unusable env entry ->
  pubdate_unusable env entry ->
  valid_datetime (Env.datetime_now env (World.ticks w)) ->
  let today := strftime_ymd (Env.datetime_now env (World.ticks w)) in
  entry_pub_date env today entry = today /\
  is_ymd_form today = true /\
  exists items,
    process_entry env self feed entry feed_items w = (Ok items, World.tick w) /\
    (items = feed_items \/
     exists n, items = feed_items ++ [n] /\ NewsItem.date n = today).
Proof.
  intros Htitle Hts Hpd Hnow. cbv zeta.
  split; [apply entry_pub_date_default; assumption|].
  split; [apply strftime_ymd_form, Hnow|].
  rewrite process_entry_run, Htitle.
  eexists. split; [reflexivity|].
  destruct (truthy title && truthy (entry_url entry) &&
            _is_related_to_automation self title (entry_description entry)).
  - right. eexists. split; [reflexivity|]. simpl.
    apply entry_pub_date_default; assumption.
  - left. reflexivity.
Qed.

Lemma unusable_date_defaults_to_today_witness :
  entry_pub_date Sample.env "2025-03-09" Sample.cloud = "2025-03-09" /\
  exists n,
    process_entry Sample.env (Sample.digest 100) Sample.one Sample.cloud [] Sample.world =
      (Ok [n], World.tick Sample.world) /\
    NewsItem.date n = "2025-03-09".
Proof.
  destruct (unusable_date_defaults_to_today Sample.env (Sample.digest 100) Sample.one
              Sample.cloud "A guide to workflow automation in the cloud" []
              Sample.world)
    as (Hdate & _ & items & Hrun & Hitems).
  - reflexivity.
  - exact I.
  - exists (ValueError "unknown date format"). reflexivity.
  - unfold valid_datetime. simpl. lia.
  - split; [exact Hdate|].
    eexists. split; [vm_compute; reflexivity|]. reflexivity.
Defined.

(** ** C10: saving an empty digest *)

(** C10. With an empty stored collection, [save_to_csv] and [save_to_html]
    print their notice and return: the directories and the files of the
    world are what they were. *)
Theorem save_empty_digest (env : Env.t) (self : Digest.t)
    (filename : option string) (w : World.t) :
  Digest.news_items self = [] ->
  let w' := World.put_line "No news items to save." w in
  save_to_csv env self filename w = (Ok tt, w') /\
  save_to_html env self filename w = (Ok tt, w') /\
  World.dirs w' = World.dirs w /\ World.files w' = World.files w /\
  World.ticks w' = World.ticks w.
Proof.
  intros Hnone. unfold save_to_csv, save_to_html. rewrite Hnone.
  repeat split.
Qed.

Lemma save_empty_digest_witness :
  save_to_csv Sample.env (Sample.digest 100) None Sample.world =
    (Ok tt, World.put_line "No news items to save." Sample.world) /\
  save_to_html Sample.env (Sample.digest 100) None Sample.world =
    (Ok tt, World.put_line "No news items to save." Sample.world).
Proof.
  destruct (save_empty_digest Sample.env (Sample.digest 100) None Sample.world)
    as (Hcsv & Hhtml & _); [reflexivity|].
  split; [exact Hcsv|exact Hhtml].
Defined.

(** With items to save, both methods create the folder and write one file
    into it. *)
Lemma save_to_csv_writes env self filename w item items :
  Digest.news_items self = item :: items ->
  exists path w',
    save_to_csv env self filename w = (Ok tt, w') /\
    folder_path ∈ World.dirs w' /\
    World.files w' !! path = Some (Env.to_csv env (item :: items)).
Proof.
  intros Hitems. unfold save_to_csv. rewrite Hitems.
  unfold bind, makedirs, dated_filename, write_file, print, now, ret.
  destruct filename as [filename|]; simpl.
  - eexists. eexists. split; [reflexivity|]. simpl.
    split; [set_solver|apply lookup_insert_eq].
  - eexists. eexists. split; [reflexivity|]. simpl.
    split; [set_solver|apply lookup_insert_eq].
Qed.

Lemma save_to_html_writes env self filename w item items :
  Digest.news_items self = item :: items ->
  exists path html w',
    save_to_html env self filename w = (Ok tt, w') /\
    folder_path ∈ World.dirs w' /\
    World.files w' !! path = Some html.
Proof.
  intros Hitems. unfold save_to_html, generate_html. rewrite Hitems.
  unfold bind, makedirs, dated_filename, write_file, print, now, ret.
  destruct filename as [filename|]; simpl.
  - eexists. eexists. eexists. split; [reflexivity|]. simpl.
    split; [set_solver|apply lookup_insert_eq].
  - eexists. eexists. eexists. split; [reflexivity|]. simpl.
    split; [set_solver|apply lookup_insert_eq].
Qed.

(** * Further properties of the code *)

Lemma str_app_nil_r s : s +:+ EmptyString = s.
Proof.
  induction s as [|c s IH]; [reflexivity|]. rewrite str_app_cons, IH. reflexivity.
Qed.

Lemma str_app_assoc s t u : (s +:+ t) +:+ u = s +:+ (t +:+ u).
Proof.
  induction s as [|c s IH]; [reflexivity|]. rewrite !str_app_cons, IH. reflexivity.
Qed.

(** ** The relevance filter and the case of letters *)

Lemma lower_app s t : Str.lower (s +:+ t) = Str.lower s +:+ Str.lower t.
Proof.
  induction s as [|c s IH]; [reflexivity|].
  rewrite str_app_cons. simpl. rewrite IH, str_app_cons. reflexivity.
Qed.

Lemma lower_char_idempotent c : Str.lower_char (Str.lower_char c) = Str.lower_char c.
Proof. destruct c as [[] [] [] [] [] [] [] []]; reflexivity. Qed.

Lemma lower_idempotent s : Str.lower (Str.lower s) = Str.lower s.
Proof.
  induction s as [|c s IH]; [reflexivity|].
  simpl. rewrite lower_char_idempotent, IH. reflexivity.
Qed.

Lemma existsb_map_lower (text : string) (keywords keywords' : list string) :
  map Str.lower keywords = map Str.lower keywords' ->
  existsb (fun keyword => Str.str_in (Str.lower keyword) text) keywords =
  existsb (fun keyword => Str.str_in (Str.lower keyword) text) keywords'.
Proof.
  revert keywords'. induction keywords as [|k ks IH]; intros [|k' ks'] H;
    try discriminate; [reflexivity|].
  simpl in *. injection H as Hk Hks. rewrite Hk, (IH ks' Hks). reflexivity.
Qed.

(** X1. The verdict of the relevance filter does not depend on the case of
    the letters: titles, descriptions and keyword lists that are equal after
    lowercasing get the same verdict. *)
Theorem relevance_filter_ignores_case (self : Digest.t) (keywords' : list string)
    (title title' description description' : string) :
  Str.lower title = Str.lower title' ->
  Str.lower description = Str.lower description' ->
  map Str.lower (Digest.keywords self) = map Str.lower keywords' ->
  _is_related_to_automation self title description =
  _is_related_to_automation (with_keywords self keywords') title' description'.
Proof.
  intros Ht Hd Hk. unfold _is_related_to_automation. cbv zeta.
  rewrite !lower_app, Ht, Hd. simpl Digest.keywords.
  rewrite (existsb_map_lower _ _ _ Hk). reflexivity.
Qed.

Lemma relevance_filter_ignores_case_witness :
  _is_related_to_automation (with_keywords (Sample.digest 100) ["automation"; "rpa"])
    "The automation of the office is here" "with a robot" =
  _is_related_to_automation (with_keywords (Sample.digest 100) ["AUTOMATION"; "Rpa"])
    "THE Automation OF the Office IS here" "With A Robot".
Proof.
  apply (relevance_filter_ignores_case
           (with_keywords (Sample.digest 100) ["automation"; "rpa"]) ["AUTOMATION"; "Rpa"]);
    reflexivity.
Defined.

(** ** Keywords *)

Lemma str_in_empty hay : Str.str_in EmptyString hay = true.
Proof. destruct hay; reflexivity. Qed.

(** the markers that stand between two spaces of the padded text *)
Lemma english_count_tokens text :
  2 <= length (List.filter
                 (fun word => Str.str_in (" " +:+ word +:+ " ") (" " +:+ text +:+ " "))
                 english_markers) <->
  exists m1 m2, m1 <> m2 /\ In m1 english_markers /\ In m2 english_markers /\
                is_token m1 (" " +:+ text +:+ " ") /\
                is_token m2 (" " +:+ text +:+ " ").
Proof.
  rewrite (two_in_filter _ _ english_markers_NoDup). split.
  - intros (m1 & m2 & Hne & H1 & H2 & Hf1 & Hf2). exists m1, m2.
    destruct (english_markers_words m1 H1), (english_markers_words m2 H2).
    repeat split; auto; apply token_iff_padded; auto.
  - intros (m1 & m2 & Hne & H1 & H2 & Ht1 & Ht2). exists m1, m2.
    destruct (english_markers_words m1 H1), (english_markers_words m2 H2).
    repeat split; auto; apply token_iff_padded; auto.
Qed.

(** X2. An empty string among the keywords is a substring of every text:
    the keyword test then always passes, and the verdict is that of the
    English heuristic alone, two different markers standing as tokens in the
    padded text. *)
Theorem empty_keyword_matches_everything (self : Digest.t) (title description : string) :
  In EmptyString (Digest.keywords self) ->
  (_is_related_to_automation self title description = true <->
   let text := Str.lower (title +:+ " " +:+ description) in
   exists m1 m2, m1 <> m2 /\ In m1 english_markers /\ In m2 english_markers /\
                 is_token m1 (" " +:+ text +:+ " ") /\
                 is_token m2 (" " +:+ text +:+ " ")).
Proof.
  intros Hin. unfold _is_related_to_automation. cbv zeta.
  rewrite andb_true_iff, Nat.leb_le, english_count_tokens.
  split; [intros [_ H]; exact H|]. intros H. split; [|exact H].
  apply existsb_exists. exists EmptyString. split; [exact Hin|]. apply str_in_empty.
Qed.

Lemma empty_keyword_matches_everything_witness :
  _is_related_to_automation (with_keywords (Sample.digest 100) ["rpa"; EmptyString])
    "Sports roundup of the week" EmptyString = true.
Proof.
  apply (empty_keyword_matches_everything
           (with_keywords (Sample.digest 100) ["rpa"; EmptyString])).
  - simpl. auto.
  - exists "the", "of". repeat split; try discriminate; unfold english_markers, is_token;
      vm_compute; tauto.
Defined.

(** X3. Adding keywords never turns an accepted text into a rejected one:
    a text accepted under a keyword list is accepted under every list that
    contains it. *)
Theorem more_keywords_accept_more (self : Digest.t) (keywords' : list string)
    (title description : string) :
  (forall keyword, In keyword (Digest.keywords self) -> In keyword keywords') ->
  _is_related_to_automation self title description = true ->
  _is_related_to_automation (with_keywords self keywords') title description = true.
Proof.
  intros Hsub. unfold _is_related_to_automation. cbv zeta.
  rewrite !andb_true_iff, !existsb_exists. simpl Digest.keywords.
  intros [(keyword & Hin & Hmatch) Henglish]. split; [|exact Henglish].
  exists keyword. split; [apply Hsub, Hin|exact Hmatch].
Qed.

Lemma more_keywords_accept_more_witness :
  _is_related_to_automation (with_keywords (Sample.digest 100) ["robot"; "office"])
    "The automation of the office is here" EmptyString = true.
Proof.
  apply (more_keywords_accept_more (with_keywords (Sample.digest 100) ["office"])
           ["robot"; "office"]).
  - simpl. intros keyword [<-|[]]. auto.
  - vm_compute. reflexivity.
Defined.

(** ** Tag stripping *)

Lemma find_close_strip s :
  find_close s = None -> find_close (strip_tags_from 0 s) = None.
Proof.
  induction s as [|c s IH]; [reflexivity|].
  cbn [find_close strip_tags_from].
  destruct (Ascii.eqb c ">") eqn:Egt; [discriminate|].
  destruct (Ascii.eqb c newline) eqn:Enl.
  - intros _. destruct (Ascii.eqb c "<") eqn:Elt.
    + destruct (find_close s); cbn [find_close]; rewrite ?Egt, ?Enl.
      * apply Ascii.eqb_eq in Elt, Enl. subst c. discriminate.
      * reflexivity.
    + cbn [find_close]. rewrite Egt, Enl. reflexivity.
  - intros H. destruct (find_close s) as [k|] eqn:Es; [discriminate|].
    destruct (Ascii.eqb c "<"); cbn [find_close]; rewrite Egt, Enl, (IH eq_refl);
      reflexivity.
Qed.

Lemma strip_tags_from_tag_free s : forall skip,
  tag_free (strip_tags_from skip s) = true.
Proof.
  induction s as [|c s IH]; intros skip; [destruct skip; reflexivity|].
  cbn [strip_tags_from]. destruct skip as [|k]; [|apply IH].
  destruct (Ascii.eqb c "<") eqn:Elt.
  - destruct (find_close s) as [k|] eqn:Es; [apply IH|].
    cbn [tag_free]. rewrite Elt, (find_close_strip s Es), IH. reflexivity.
  - cbn [tag_free]. rewrite Elt, IH. reflexivity.
Qed.

Lemma strip_tag_free s : tag_free s = true -> strip_tags_from 0 s = s.
Proof.
  induction s as [|c s IH]; [reflexivity|].
  cbn [tag_free strip_tags_from]. intros H. apply andb_true_iff in H as [Hc Hs].
  destruct (Ascii.eqb c "<").
  - destruct (find_close s); [discriminate|]. rewrite (IH Hs). reflexivity.
  - rewrite (IH Hs). reflexivity.
Qed.

(** X4. Stripping the tags twice is stripping them once: what
    [re.sub(r'<.*?>', '', s)] returns has nothing left that the pattern
    matches. *)
Theorem strip_tags_idempotent (s : string) :
  strip_tags (strip_tags s) = strip_tags s /\ tag_free (strip_tags s) = true.
Proof.
  unfold strip_tags. split.
  - apply strip_tag_free, strip_tags_from_tag_free.
  - apply strip_tags_from_tag_free.
Qed.

Lemma strip_tags_from_length s : forall skip,
  String.length (strip_tags_from skip s) <= String.length s.
Proof.
  induction s as [|c s IH]; intros skip; [destruct skip; simpl; lia|].
  cbn [strip_tags_from]. destruct skip as [|k].
  - destruct (Ascii.eqb c "<").
    + destruct (find_close s) as [k|].
      * specialize (IH (S k)). simpl. lia.
      * specialize (IH 0). simpl. lia.
    + specialize (IH 0). simpl. lia.
  - specialize (IH k). simpl. lia.
Qed.

Lemma strip_without_open pre rest :
  has_char "<" pre = false ->
  strip_tags_from 0 (pre +:+ rest) = pre +:+ strip_tags_from 0 rest.
Proof.
  induction pre as [|c pre IH]; [reflexivity|].
  cbn [has_char]. intros H. apply orb_false_iff in H as [Hc Hpre].
  rewrite !str_app_cons. cbn [strip_tags_from]. rewrite Hc, (IH Hpre). reflexivity.
Qed.

Lemma find_close_at mid post :
  has_char ">" mid = false -> has_char newline mid = false ->
  find_close (mid +:+ String ">" post) = Some (String.length mid).
Proof.
  induction mid as [|c mid IH]; [reflexivity|].
  cbn [has_char]. intros Hgt Hnl.
  apply orb_false_iff in Hgt as [Hc1 Hgt]. apply orb_false_iff in Hnl as [Hc2 Hnl].
  rewrite str_app_cons. cbn [find_close]. rewrite Hc1, Hc2, (IH Hgt Hnl). reflexivity.
Qed.

Lemma strip_skip a b :
  strip_tags_from (String.length a) (a +:+ b) = strip_tags_from 0 b.
Proof.
  induction a as [|c a IH]; [reflexivity|].
  rewrite str_app_cons. cbn [String.length strip_tags_from]. exact IH.
Qed.

(** X5. Stripping never makes a text longer, and a text without [<] comes
    back as it is. *)
Theorem strip_tags_keeps_plain_text (s : string) :
  String.length (strip_tags s) <= String.length s /\
  (has_char "<" s = false -> strip_tags s = s).
Proof.
  unfold strip_tags. split; [apply strip_tags_from_length|].
  intros H. rewrite <- (str_app_nil_r s) at 1.
  rewrite (strip_without_open s EmptyString H). apply str_app_nil_r.
Qed.

Lemma strip_tags_keeps_plain_text_witness :
  String.length (strip_tags "a <b>bold</b> word") <= 18 /\
  strip_tags "no tag, 2 > 1" = "no tag, 2 > 1".
Proof.
  destruct (strip_tags_keeps_plain_text "a <b>bold</b> word") as [Hlen _].
  destruct (strip_tags_keeps_plain_text "no tag, 2 > 1") as [_ Hsame].
  split; [exact Hlen|apply Hsame; reflexivity].
Defined.

(** X6. What stands between a [<] and the first [>] after it on the same
    line is removed with them, a tag or not: after a text without [<], a
    [<], a stretch without [>] and without newline, and a [>], the
    stripping goes on with what follows. *)
Theorem strip_tags_removes_to_next_close (pre mid post : string) :
  has_char "<" pre = false ->
  has_char ">" mid = false ->
  has_char newline mid = false ->
  strip_tags (pre +:+ String "<" (mid +:+ String ">" post)) = pre +:+ strip_tags post.
Proof.
  intros Hpre Hgt Hnl. unfold strip_tags.
  rewrite (strip_without_open pre _ Hpre). f_equal.
  cbn [strip_tags_from]. rewrite Ascii.eqb_refl, (find_close_at mid post Hgt Hnl).
  change (strip_tags_from (S (String.length mid)) (mid +:+ String ">" post))
    with (strip_tags_from (S (String.length mid)) (mid +:+ (String ">" EmptyString +:+ post))).
  rewrite <- str_app_assoc.
  replace (S (String.length mid)) with (String.length (mid +:+ String ">" EmptyString))
    by (rewrite str_length_app; simpl; lia).
  apply strip_skip.
Qed.

Lemma strip_tags_removes_to_next_close_witness :
  strip_tags ("a " +:+ String "<" (" b and c " +:+ String ">" " d")) = "a " +:+ strip_tags " d".
Proof.
  apply (strip_tags_removes_to_next_close "a " " b and c " " d"); reflexivity.
Defined.

(** ** What [fetch_feed] returns *)

Lemma find_close_take s : forall n,
  find_close s = None -> find_close (Str.take n s) = None.
Proof.
  induction s as [|c s IH]; intros [|n]; try reflexivity.
  cbn [find_close Str.take].
  destruct (Ascii.eqb c ">"); [discriminate|].
  destruct (Ascii.eqb c newline); [reflexivity|].
  destruct (find_close s) eqn:Es; [discriminate|].
  intros _. rewrite (IH n eq_refl). reflexivity.
Qed.

Lemma tag_free_take s : forall n, tag_free s = true -> tag_free (Str.take n s) = true.
Proof.
  induction s as [|c s IH]; intros [|n]; try reflexivity.
  cbn [tag_free Str.take]. intros H. apply andb_true_iff in H as [Hc Hs].
  rewrite (IH n Hs), andb_true_r.
  destruct (Ascii.eqb c "<"); [|reflexivity].
  destruct (find_close s) eqn:Es; [discriminate|].
  rewrite (find_close_take s n Es). reflexivity.
Qed.

Lemma find_close_dots s :
  find_close s = None -> find_close (s +:+ "...") = None.
Proof.
  induction s as [|c s IH]; [reflexivity|].
  rewrite str_app_cons. cbn [find_close].
  destruct (Ascii.eqb c ">"); [discriminate|].
  destruct (Ascii.eqb c newline); [reflexivity|].
  destruct (find_close s) eqn:Es; [discriminate|].
  intros _. rewrite (IH eq_refl). reflexivity.
Qed.

Lemma tag_free_dots s : tag_free s = true -> tag_free (s +:+ "...") = true.
Proof.
  induction s as [|c s IH]; [reflexivity|].
  rewrite str_app_cons. cbn [tag_free]. intros H. apply andb_true_iff in H as [Hc Hs].
  rewrite (IH Hs), andb_true_r.
  destruct (Ascii.eqb c "<"); [|reflexivity].
  destruct (find_close s) eqn:Es; [discriminate|].
  rewrite (find_close_dots s Es). reflexivity.
Qed.

Lemma str_length_take_le n s : String.length (Str.take n s) <= n.
Proof.
  revert s. induction n as [|n IH]; intros [|c s]; simpl; try lia.
  specialize (IH s). lia.
Qed.

Lemma truncate_description_bound clean :
  String.length (truncate_description clean) <= 203.
Proof.
  unfold truncate_description.
  destruct (Nat.ltb_spec 200 (String.length clean)).
  - rewrite str_length_app. pose proof (str_length_take_le 200 clean) as Hle.
    change (String.length "...") with 3. lia.
  - lia.
Qed.

Lemma truncate_description_tag_free clean :
  tag_free clean = true -> tag_free (truncate_description clean) = true.
Proof.
  intros H. unfold truncate_description.
  destruct (200 <? String.length clean); [|exact H].
  apply tag_free_dots, tag_free_take, H.
Qed.

(** X7. Every item [fetch_feed] returns carries the name of the feed as its
    source, and a description of at most 203 characters in which nothing is
    left that the tag pattern matches. *)
Theorem fetch_feed_item_fields (env : Env.t) (self : Digest.t) (feed : FeedSource.t)
    (w w' : World.t) (feed_items : list NewsItem.t) (entries_count : nat) :
  fetch_feed env self feed w = (Ok (feed_items, entries_count), w') ->
  Forall (fun n =>
            NewsItem.source n = FeedSource.name feed /\
            String.length (NewsItem.description n) <= 203 /\
            tag_free (NewsItem.description n) = true)
         feed_items.
Proof.
  intros H. apply fetch_feed_built in H as (entries & _ & _ & Hbuilt).
  eapply List.Forall_impl; [|exact Hbuilt].
  intros n (entry & _ & title & t & _ & _ & _ & _ & ->). simpl.
  split; [reflexivity|]. split; [apply truncate_description_bound|].
  apply truncate_description_tag_free. apply strip_tags_from_tag_free.
Qed.

Lemma fetch_feed_item_fields_witness :
  exists items n w',
    fetch_feed Sample.env (Sample.digest 100) Sample.one Sample.world = (Ok (items, n), w') /\
    Forall (fun n => NewsItem.source n = "One" /\
                     String.length (NewsItem.description n) <= 203 /\
                     tag_free (NewsItem.description n) = true) items.
Proof.
  eexists. eexists. eexists. split; [vm_compute; reflexivity|].
  eapply (fetch_feed_item_fields Sample.env (Sample.digest 100) Sample.one Sample.world).
  vm_compute. reflexivity.
Defined.

(** ** When [fetch_feed] fails *)

Lemma process_entries_titled env self feed entries : forall feed_items w items w',
  process_entries env self feed entries feed_items w = (Ok items, w') ->
  Forall (fun entry => Entry.title entry <> None) entries.
Proof.
  induction entries as [|entry rest IH]; intros feed_items w items w' H; [constructor|].
  rewrite process_entries_cons, process_entry_run in H.
  destruct (Entry.title entry) as [title|] eqn:Ht; [|discriminate].
  constructor; [congruence|]. eapply IH, H.
Qed.

Lemma process_entries_raises env self feed entries : forall feed_items w e w',
  process_entries env self feed entries feed_items w = (Raise e, w') ->
  e = AttributeError "title" /\ exists entry, In entry entries /\ Entry.title entry = None.
Proof.
  induction entries as [|entry rest IH]; intros feed_items w e w' H; [discriminate|].
  rewrite process_entries_cons, process_entry_run in H.
  destruct (Entry.title entry) as [title|] eqn:Ht.
  - apply IH in H as (-> & entry' & Hin & Hnone).
    split; [reflexivity|]. exists entry'. split; [right; exact Hin|exact Hnone].
  - injection H as <- <-. split; [reflexivity|]. exists entry. split; [left; reflexivity|exact Ht].
Qed.

(** X8. [fetch_feed] raises in two cases and no other: the retrieval of the
    feed raised, and the error is that of the retrieval, or an entry of the
    feed has no title, and the error is the [AttributeError] of reading it.
    In both cases no item is returned. *)
Theorem fetch_feed_raises_iff (env : Env.t) (self : Digest.t) (feed : FeedSource.t)
    (w : World.t) (e : exn) :
  (exists w', fetch_feed env self feed w = (Raise e, w')) <->
  Env.feedparser_parse env (World.ticks w) (FeedSource.url feed) = Raise e \/
  (e = AttributeError "title" /\
   exists entries entry,
     Env.feedparser_parse env (World.ticks w) (FeedSource.url feed) = Ok entries /\
     In entry entries /\ Entry.title entry = None).
Proof.
  rewrite fetch_feed_run. split.
  - intros [w' H].
    destruct (Env.feedparser_parse env (World.ticks w) (FeedSource.url feed))
      as [entries|e'] eqn:Hp.
    + right.
      destruct (process_entries env self feed entries [] (World.tick w))
        as [[items|e'] w1] eqn:Hrun; [discriminate|].
      injection H as <- <-.
      apply process_entries_raises in Hrun as (-> & entry & Hin & Hnone).
      split; [reflexivity|]. exists entries, entry. auto.
    + left. congruence.
  - intros [Hp|(-> & entries & entry & Hp & Hin & Hnone)]; rewrite Hp.
    + eauto.
    + destruct (process_entries_missing_title env self feed entries [] (World.tick w)
                  entry Hin Hnone) as [w' ->].
      eauto.
Qed.

(** ** Order, count and clock of [fetch_feed] *)





(** ** The counters of [fetch_news] *)



Lemma fetch_news_loop env self w :
  fetch_news env self w =
  match process_feeds env self (Digest.rss_feeds self)
          {| Loop.news_items := Digest.news_items self;
             Loop.total_entries_checked := 0;
             Loop.successful_feeds := 0;
             Loop.failed_feeds := 0 |} w with
  | (Ok st, w') =>
      let news_items :=
        limit_results (Digest.max_results self) (sort_by_date_desc (Loop.news_items st)) in
      (Ok {| Report.self := Digest.set_news_items self news_items;
             Report.returned := news_items;
             Report.total_feeds := length (Digest.rss_feeds self);
             Report.total_entries_checked := Loop.total_entries_checked st;
             Report.successful_feeds := Loop.successful_feeds st;
             Report.failed_feeds := Loop.failed_feeds st |}, w')
  | (Raise e, w') => (Raise e, w')
  end.
Proof. reflexivity. Qed.



(** ** A run in which no source answers *)

Lemma process_feeds_all_fail env self feeds : forall st w,
  (forall feed t, In feed feeds -> World.ticks w <= t ->
                  exists e, Env.feedparser_parse env t (FeedSource.url feed) = Raise e) ->
  exists w',
    process_feeds env self feeds st w =
      (Ok {| Loop.news_items := Loop.news_items st;
             Loop.total_entries_checked := Loop.total_entries_checked st;
             Loop.successful_feeds := Loop.successful_feeds st;
             Loop.failed_feeds := Loop.failed_feeds st + length feeds |}, w') /\
    World.ticks w' = World.ticks w + length feeds.
Proof.
  induction feeds as [|feed rest IH]; intros st w Hfail.
  - exists w. simpl. rewrite !Nat.add_0_r. destruct st. split; reflexivity.
  - rewrite process_feeds_cons, process_feed_run, fetch_feed_run.
    destruct (Hfail feed (World.ticks w)) as [e ->]; [left; reflexivity|lia|].
    edestruct IH as (w' & -> & Hticks).
    { intros f t Hin Ht. apply Hfail; [right; exact Hin|simpl in Ht; lia]. }
    exists w'. simpl in *. split; [|lia].
    do 2 f_equal. f_equal. lia.
Qed.

Lemma limit_results_nil max_results : limit_results max_results [] = [].
Proof.
  unfold limit_results, slice_to.
  destruct (_ >? _)%Z; [|reflexivity].
  destruct (_ <=? _)%Z; apply firstn_nil.
Qed.

Lemma fetch_news_no_answer env self w :
  (forall feed t, In feed (Digest.rss_feeds self) -> World.ticks w <= t ->
                  exists e, Env.feedparser_parse env t (FeedSource.url feed) = Raise e) ->
  exists w',
    fetch_news env self w =
    (Ok (let news_items :=
           limit_results (Digest.max_results self)
             (sort_by_date_desc (Digest.news_items self)) in
         {| Report.self := Digest.set_news_items self news_items;
            Report.returned := news_items;
            Report.total_feeds := length (Digest.rss_feeds self);
            Report.total_entries_checked := 0;
            Report.successful_feeds := 0;
            Report.failed_feeds := 0 + length (Digest.rss_feeds self) |}), w').
Proof.
  intros Hfail. rewrite fetch_news_loop.
  edestruct (process_feeds_all_fail env self (Digest.rss_feeds self)) as (w' & -> & _);
    [exact Hfail|].
  exists w'. reflexivity.
Qed.

(** X11. When the retrieval of every source raises, [fetch_news] still
    returns: no source is counted as successful, all as failed, no entry
    was checked, and the collection is the stored one, sorted and cut. On
    an object that stored nothing the digest is empty, [generate_html]
    gives its line for an empty digest and the save methods write no
    file. *)
Theorem fetch_news_all_sources_fail (env : Env.t) (self : Digest.t) (w : World.t) :
  (forall feed t, In feed (Digest.rss_feeds self) -> World.ticks w <= t ->
                  exists e, Env.feedparser_parse env t (FeedSource.url feed) = Raise e) ->
  exists r w',
    fetch_news env self w = (Ok r, w') /\
    Report.successful_feeds r = 0 /\
    Report.failed_feeds r = length (Digest.rss_feeds self) /\
    Report.total_entries_checked r = 0 /\
    Report.returned r =
      limit_results (Digest.max_results self) (sort_by_date_desc (Digest.news_items self)) /\
    (Digest.news_items self = [] ->
     Report.returned r = [] /\
     generate_html env (Report.self r) w' = (Ok "<p>No news items found.</p>", w') /\
     (forall filename,
        World.files (snd (save_to_csv env (Report.self r) filename w')) = World.files w' /\
        World.files (snd (save_to_html env (Report.self r) filename w')) = World.files w')).
Proof.
  intros Hfail. destruct (fetch_news_no_answer env self w Hfail) as [w' ->].
  eexists. eexists. split; [reflexivity|]. simpl.
  split; [reflexivity|]. split; [reflexivity|]. split; [reflexivity|].
  split; [reflexivity|]. intros Hnone. rewrite Hnone. simpl.
  rewrite limit_results_nil. repeat split.
Qed.

Lemma fetch_news_all_sources_fail_witness :
  let self := Digest.mk default_keywords 10 false [Sample.two; Sample.two] [] in
  exists r w',
    fetch_news Sample.env self Sample.world = (Ok r, w') /\
    Report.successful_feeds r = 0 /\ Report.failed_feeds r = 2 /\
    Report.returned r = [].
Proof.
  intros self.
  destruct (fetch_news_all_sources_fail Sample.env self Sample.world)
    as (r & w' & Hrun & Hok & Hfailed & _ & _ & Hempty).
  - intros feed t [<-|[<-|[]]] _; eexists; reflexivity.
  - exists r, w'. split; [exact Hrun|]. split; [exact Hok|]. split; [exact Hfailed|].
    apply Hempty. reflexivity.
Defined.

(** ** Running again *)

Lemma sort_by_date_desc_sorted_id l :
  StronglySorted date_ge l -> sort_by_date_desc l = l.
Proof.
  intros H. symmetry. apply sort_by_date_desc_unique; [exact H|reflexivity].
Qed.

Lemma set_news_items_twice self items items' :
  Digest.set_news_items (Digest.set_news_items self items) items' =
  Digest.set_news_items self items'.
Proof. reflexivity. Qed.

(** X12. A run in which no source answers changes nothing in the digest of
    the run before, for a maximum that is a count: the collection returned
    and stored is the same as after the first run. *)
Theorem fetch_news_again_without_answer (env : Env.t) (self : Digest.t)
    (w w1 : World.t) (r : Report.t) :
  (0 <= Digest.max_results self)%Z ->
  fetch_news env self w = (Ok r, w1) ->
  (forall feed t, In feed (Digest.rss_feeds self) -> World.ticks w1 <= t ->
                  exists e, Env.feedparser_parse env t (FeedSource.url feed) = Raise e) ->
  exists r2 w2,
    fetch_news env (Report.self r) w1 = (Ok r2, w2) /\
    Report.returned r2 = Report.returned r /\
    Report.self r2 = Report.self r.
Proof.
  intros Hmax Hrun Hfail.
  destruct (fetch_news_run env self w) as (r0 & Hrun0 & Hret & Hself & _).
  rewrite Hrun in Hrun0. injection Hrun0 as <- _.
  set (acc := Digest.news_items self ++ fst (gather env self (Digest.rss_feeds self) w)) in *.
  assert (Hsorted : StronglySorted date_ge (Report.returned r)).
  { destruct (limit_results_prefix (Digest.max_results self) (sort_by_date_desc acc))
      as [rest Hrest].
    rewrite Hret. apply (StronglySorted_prefix _ _ rest). rewrite <- Hrest.
    apply sort_by_date_desc_sorted. }
  assert (Hlen : (Z.of_nat (length (Report.returned r)) <= Digest.max_results self)%Z)
    by (rewrite Hret; apply limit_results_length, Hmax).
  destruct (fetch_news_no_answer env (Report.self r) w1) as [w2 Hrun2].
  { rewrite Hself. exact Hfail. }
  eexists. exists w2. split; [exact Hrun2|]. cbv zeta.
  assert (Hsame : limit_results (Digest.max_results (Report.self r))
                    (sort_by_date_desc (Digest.news_items (Report.self r))) =
                  Report.returned r).
  { rewrite Hself. simpl.
    rewrite (sort_by_date_desc_sorted_id _ Hsorted). apply limit_results_fits, Hlen. }
  simpl. rewrite Hsame. split; [reflexivity|].
  rewrite Hself. reflexivity.
Qed.

Lemma fetch_news_again_without_answer_witness :
  let self := Digest.mk default_keywords 10 false [Sample.two]
                [Sample.item "a" "2025-01-01"; Sample.item "b" "2025-01-02"] in
  exists r w1 r2 w2,
    fetch_news Sample.env self Sample.world = (Ok r, w1) /\
    fetch_news Sample.env (Report.self r) w1 = (Ok r2, w2) /\
    Report.returned r2 = Report.returned r.
Proof.
  intros self.
  destruct (fetch_news_run Sample.env self Sample.world) as (r & Hrun & _).
  destruct (fetch_news_again_without_answer Sample.env self Sample.world
              (snd (gather Sample.env self (Digest.rss_feeds self) Sample.world)) r)
    as (r2 & w2 & Hrun2 & Hsame & _).
  - simpl. lia.
  - exact Hrun.
  - intros feed t [<-|[]] _. eexists. reflexivity.
  - exists r. eexists. exists r2, w2. split; [exact Hrun|]. split; [exact Hrun2|exact Hsame].
Defined.

(** ** The further filter: [filter_news] *)

Lemma filter_sublist {A} (f : A -> bool) (l : list A) : sublist (List.filter f l) l.
Proof.
  induction l as [|x l IH]; simpl; [constructor|].
  destruct (f x); [apply sublist_skip|apply sublist_cons]; exact IH.
Qed.

Lemma slice_to_sublist {A} (l : list A) (k : Z) : sublist (slice_to l k) l.
Proof.
  destruct (slice_to_prefix l k) as [rest Hrest]. rewrite Hrest at 2.
  apply sublist_inserts_r. reflexivity.
Qed.

Lemma mentions_spec keywords item :
  mentions keywords item = true <->
  exists keyword,
    In keyword keywords /\
    is_substring (Str.lower keyword)
      (Str.lower (NewsItem.title item +:+ " " +:+ NewsItem.description item)).
Proof.
  unfold mentions. cbv zeta. rewrite existsb_exists. split.
  - intros (keyword & Hin & H). exists keyword. split; [exact Hin|apply str_in_spec, H].
  - intros (keyword & Hin & H). exists keyword. split; [exact Hin|apply str_in_spec, H].
Qed.

(** X13. [filter_news] only selects: what it returns is a subsequence of the
    stored collection, in the same order. Without keywords it returns the
    whole stored collection; with keywords, each item it returns has one of
    them, whatever the case of the letters, as a substring of its title and
    stored description joined by a space. *)
Theorem filter_news_selects (self : Digest.t) (additional_keywords : option (list string)) :
  sublist (filter_news self additional_keywords) (Digest.news_items self) /\
  (additional_keywords = None \/ additional_keywords = Some [] ->
   filter_news self additional_keywords = Digest.news_items self) /\
  (forall keywords, additional_keywords = Some keywords -> keywords <> [] ->
   Forall (fun item =>
             exists keyword,
               In keyword keywords /\
               is_substring (Str.lower keyword)
                 (Str.lower (NewsItem.title item +:+ " " +:+ NewsItem.description item)))
          (filter_news self additional_keywords)).
Proof.
  split; [|split].
  - destruct additional_keywords as [[|k ks]|]; simpl; try reflexivity.
    etransitivity; [apply slice_to_sublist|apply filter_sublist].
  - intros [->| ->]; reflexivity.
  - intros keywords -> Hne. destruct keywords as [|k ks]; [congruence|]. simpl.
    destruct (slice_to_prefix (List.filter (mentions (k :: ks)) (Digest.news_items self))
                (Digest.max_results self)) as [rest Hrest].
    assert (Hall : Forall (fun item => mentions (k :: ks) item = true)
                     (List.filter (mentions (k :: ks)) (Digest.news_items self))).
    { apply List.Forall_forall. intros item Hin. apply filter_In in Hin. apply Hin. }
    rewrite Hrest in Hall. apply List.Forall_app in Hall as [Hall _].
    eapply List.Forall_impl; [|exact Hall].
    intros item H. simpl in H. apply (proj1 (mentions_spec (k :: ks) item) H).
Qed.

Lemma slice_to_fits {A} (l : list A) (k : Z) :
  (Z.of_nat (length l) <= k)%Z -> slice_to l k = l.
Proof.
  intros H. unfold slice_to. destruct (Z.leb_spec 0 k); [|lia].
  apply firstn_all2. lia.
Qed.

Lemma slice_to_length {A} (l : list A) (k : Z) :
  (0 <= k)%Z -> (Z.of_nat (length (slice_to l k)) <= k)%Z.
Proof.
  intros H. unfold slice_to. destruct (Z.leb_spec 0 k); [|lia].
  rewrite List.length_firstn. lia.
Qed.

(** X14. With keywords and a maximum that is a count, [filter_news] returns
    at most [max_results] items: the first [max_results] of the stored
    items that mention a keyword, and all of them when they are no more
    than [max_results]. *)
Theorem filter_news_limited (self : Digest.t) (keyword : string) (keywords : list string) :
  (0 <= Digest.max_results self)%Z ->
  let matching := List.filter (mentions (keyword :: keywords)) (Digest.news_items self) in
  let result := filter_news self (Some (keyword :: keywords)) in
  (Z.of_nat (length result) <= Digest.max_results self)%Z /\
  result = firstn (Z.to_nat (Digest.max_results self)) matching /\
  ((Z.of_nat (length matching) <= Digest.max_results self)%Z -> result = matching).
Proof.
  intros Hmax. cbv zeta. simpl. split; [apply slice_to_length, Hmax|]. split.
  - unfold slice_to. destruct (Z.leb_spec 0 (Digest.max_results self)); [reflexivity|lia].
  - apply slice_to_fits.
Qed.

Lemma filter_news_limited_witness :
  let self := Digest.set_news_items (Sample.digest 1)
                [Sample.item "rpa today" "2025-01-03"; Sample.item "sports" "2025-01-02";
                 Sample.item "RPA tomorrow" "2025-01-01"] in
  (Z.of_nat (length (filter_news self (Some ["rpa"]))) <= 1)%Z.
Proof.
  intros self.
  destruct (filter_news_limited self "rpa" []) as [Hlen _]; [simpl; lia|exact Hlen].
Defined.

Lemma filter_all_true {A} (f : A -> bool) (l : list A) :
  Forall (fun x => f x = true) l -> List.filter f l = l.
Proof.
  induction 1 as [|x l Hx _ IH]; simpl; [reflexivity|]. rewrite Hx, IH. reflexivity.
Qed.

(** X15. Filtering what was filtered, with the same keywords, changes
    nothing, for a maximum that is a count: [filter_news] on an object that
    stores the result of [filter_news] returns that result. *)
Theorem filter_news_idempotent (self : Digest.t) (additional_keywords : option (list string)) :
  (0 <= Digest.max_results self)%Z ->
  filter_news (Digest.set_news_items self (filter_news self additional_keywords))
    additional_keywords =
  filter_news self additional_keywords.
Proof.
  intros Hmax. destruct additional_keywords as [[|k ks]|]; try reflexivity.
  simpl.
  set (matching := List.filter (mentions (k :: ks)) (Digest.news_items self)).
  assert (Hall : Forall (fun item => mentions (k :: ks) item = true)
                   (slice_to matching (Digest.max_results self))).
  { destruct (slice_to_prefix matching (Digest.max_results self)) as [rest Hrest].
    assert (H : Forall (fun item => mentions (k :: ks) item = true) matching).
    { apply List.Forall_forall. intros item Hin. apply filter_In in Hin. apply Hin. }
    rewrite Hrest in H. apply List.Forall_app in H as [H _]. exact H. }
  rewrite (filter_all_true _ _ Hall).
  apply slice_to_fits, slice_to_length, Hmax.
Qed.

Lemma filter_news_idempotent_witness :
  let self := Digest.set_news_items (Sample.digest 1)
                [Sample.item "rpa today" "2025-01-03"; Sample.item "sports" "2025-01-02";
                 Sample.item "RPA tomorrow" "2025-01-01"] in
  filter_news (Digest.set_news_items self (filter_news self (Some ["rpa"]))) (Some ["rpa"]) =
  filter_news self (Some ["rpa"]).
Proof.
  intros self. apply (filter_news_idempotent self (Some ["rpa"])). simpl. lia.
Defined.

(** ** Grouping by source *)

Lemma lookup_group_add item sources s :
  lookup_source s (group_add item sources) =
  if String.eqb (NewsItem.source item) s
  then Some (match lookup_source s sources with
             | Some items => items ++ [item]
             | None => [item]
             end)
  else lookup_source s sources.
Proof.
  induction sources as [|[s0 items0] rest IH]; simpl.
  - rewrite String.eqb_sym. destruct (String.eqb s (NewsItem.source item)); reflexivity.
  - destruct (String.eqb_spec s0 (NewsItem.source item)) as [->|Hne]; simpl.
    + destruct (String.eqb (NewsItem.source item) s); reflexivity.
    + destruct (String.eqb_spec s0 s) as [->|Hs].
      * destruct (String.eqb_spec (NewsItem.source item) s); [congruence|reflexivity].
      * exact IH.
Qed.

Lemma keys_group_add item sources :
  map fst (group_add item sources) =
  match lookup_source (NewsItem.source item) sources with
  | Some _ => map fst sources
  | None => map fst sources ++ [NewsItem.source item]
  end.
Proof.
  induction sources as [|[s0 items0] rest IH]; simpl; [reflexivity|].
  destruct (String.eqb_spec s0 (NewsItem.source item)) as [->|Hne]; simpl.
  - reflexivity.
  - rewrite IH. destruct (lookup_source (NewsItem.source item) rest); reflexivity.
Qed.

Lemma lookup_source_None s sources :
  lookup_source s sources = None <-> ~ In s (map fst sources).
Proof.
  induction sources as [|[s0 items0] rest IH]; simpl; [tauto|].
  destruct (String.eqb_spec s0 s) as [->|Hne].
  - split; [discriminate|]. intros H. exfalso. apply H. left. reflexivity.
  - rewrite IH. tauto.
Qed.

Lemma lookup_source_In s items sources :
  List.NoDup (map fst sources) ->
  (In (s, items) sources <-> lookup_source s sources = Some items).
Proof.
  induction sources as [|[s0 items0] rest IH]; simpl; intros Hnd.
  - split; [intros []|discriminate].
  - inversion Hnd as [|? ? Hnin Hnd']; subst.
    destruct (String.eqb_spec s0 s) as [->|Hne].
    + split.
      * intros [H|H]; [congruence|].
        exfalso. apply Hnin. apply (in_map fst) in H. exact H.
      * intros H. left. congruence.
    + rewrite <- (IH Hnd'). split; [intros [H|H]; [congruence|exact H]|auto].
Qed.

Lemma fold_group_add items : forall sources,
  let result := fold_left (fun sources item => group_add item sources) items sources in
  (List.NoDup (map fst sources) -> List.NoDup (map fst result)) /\
  forall s,
    lookup_source s result =
    match lookup_source s sources, List.filter (has_source s) items with
    | None, [] => None
    | None, found => Some found
    | Some before, found => Some (before ++ found)
    end.
Proof.
  induction items as [|item items IH]; intros sources; cbv zeta.
  - simpl. split; [auto|]. intros s.
    destruct (lookup_source s sources); [rewrite List.app_nil_r|]; reflexivity.
  - cbn [fold_left]. destruct (IH (group_add item sources)) as [Hnd Hlook]. split.
    + intros H. apply Hnd. rewrite keys_group_add.
      destruct (lookup_source (NewsItem.source item) sources) eqn:E; [exact H|].
      apply lookup_source_None in E.
      apply List.NoDup_app; [exact H| |].
      * constructor; [intros []|constructor].
      * intros x Hx [<-|[]]. contradiction.
    + intros s. rewrite Hlook, lookup_group_add. cbn [List.filter].
      change (has_source s item) with (String.eqb (NewsItem.source item) s).
      destruct (String.eqb (NewsItem.source item) s).
      * destruct (lookup_source s sources) as [before|].
        -- rewrite <- List.app_assoc. reflexivity.
        -- reflexivity.
      * reflexivity.
Qed.

Lemma group_by_source_groups items source group :
  In (source, group) (group_by_source items) <->
  group = List.filter (has_source source) items /\ group <> [].
Proof.
  destruct (fold_group_add items []) as [Hnd Hlook]. cbv zeta in *.
  fold (group_by_source items) in *.
  assert (Hkeys : List.NoDup (map fst (group_by_source items)))
    by (apply Hnd; constructor).
  rewrite (lookup_source_In _ _ _ Hkeys), Hlook. simpl.
  destruct (List.filter (has_source source) items) as [|x found].
  - split; [discriminate|]. intros [-> H]. congruence.
  - split; [intros H; injection H as <-; split; [reflexivity|discriminate]|].
    intros [-> _]. reflexivity.
Qed.

(** X16. The groups [generate_html] builds: every source occurs once as a
    key, and a source is a key with a list of items exactly when that list
    is, in their order, the stored items of that source, and is not
    empty. *)
Theorem group_by_source_spec (items : list NewsItem.t) :
  List.NoDup (map fst (group_by_source items)) /\
  forall source group,
    In (source, group) (group_by_source items) <->
    group = List.filter (has_source source) items /\ group <> [].
Proof.
  split; [|intros source group; apply group_by_source_groups].
  destruct (fold_group_add items []) as [Hnd _]. apply Hnd. constructor.
Qed.

(** ** The HTML of the digest *)

Lemma fold_left_append {A} (f : A -> string) (l : list A) : forall init,
  fold_left (fun html x => html +:+ f x) l init = init +:+ concat_str (map f l).
Proof.
  induction l as [|x l IH]; intros init; simpl.
  - symmetry. apply str_app_nil_r.
  - rewrite IH, str_app_assoc. reflexivity.
Qed.

Lemma fold_left_sources sources : forall init,
  fold_left
    (fun html_content '(source, items) =>
       let html_content := html_content +:+ html_source_open source in
       let html_content :=
         fold_left (fun html_content item => html_content +:+ html_item item)
                   items html_content in
       html_content +:+ html_source_close)
    sources init =
  init +:+ concat_str (map html_of_source sources).
Proof.
  induction sources as [|[source items] rest IH]; intros init; simpl.
  - symmetry. apply str_app_nil_r.
  - rewrite IH, fold_left_append. unfold html_of_source. simpl.
    rewrite !str_app_assoc. reflexivity.
Qed.

(** The document [generate_html] returns for a digest that is not empty:
    the header with the time read from the clock, the sources one after the
    other, the footer. *)
Lemma generate_html_run env self w item items :
  Digest.news_items self = item :: items ->
  generate_html env self w =
  (Ok (html_header (strftime_ymd_hm (Env.datetime_now env (World.ticks w)))
         +:+ concat_str (map html_of_source (group_by_source (item :: items)))
         +:+ html_footer),
   World.tick w).
Proof.
  intros Hitems. unfold generate_html. rewrite Hitems.
  unfold bind, now, ret. rewrite fold_left_sources, str_app_assoc. reflexivity.
Qed.

Lemma is_substring_refl s : is_substring s s.
Proof. exists EmptyString, EmptyString. rewrite str_app_nil_r. reflexivity. Qed.

Lemma is_substring_app_l a s t : is_substring a s -> is_substring a (s +:+ t).
Proof.
  intros (pre & post & ->). exists pre, (post +:+ t).
  rewrite !str_app_assoc. reflexivity.
Qed.

Lemma is_substring_app_r a s t : is_substring a t -> is_substring a (s +:+ t).
Proof.
  intros (pre & post & ->). exists (s +:+ pre), post.
  rewrite !str_app_assoc. reflexivity.
Qed.

Lemma is_substring_concat a part parts :
  In part parts -> is_substring a part -> is_substring a (concat_str parts).
Proof.
  induction parts as [|p parts IH]; [intros []|]. intros [<-|Hin] Ha; simpl.
  - apply is_substring_app_l, Ha.
  - apply is_substring_app_r, IH; assumption.
Qed.

(** finds a part among the parts of a chain of appends *)
Ltac find_part :=
  repeat first
    [ apply is_substring_refl
    | apply is_substring_app_l; apply is_substring_refl
    | apply is_substring_app_r ].

Lemma html_item_fields item :
  is_substring (NewsItem.url item) (html_item item) /\
  is_substring (NewsItem.title item) (html_item item) /\
  is_substring (NewsItem.description item) (html_item item) /\
  is_substring (NewsItem.date item) (html_item item).
Proof. unfold html_item. repeat split; find_part. Qed.

Lemma is_substring_trans a b c : is_substring a b -> is_substring b c -> is_substring a c.
Proof.
  intros (p1 & q1 & ->) (p2 & q2 & ->). exists (p2 +:+ p1), (q1 +:+ q2).
  rewrite !str_app_assoc. reflexivity.
Qed.

(** X17. [generate_html] on a digest that is not empty reads the clock once
    and returns a document in which every stored item is rendered: the
    block of the item occurs in it, and so do the heading of its source and
    its url, title, description and date, letter for letter as they are
    stored. On an empty digest it returns its one line without reading the
    clock. *)
Theorem generate_html_renders_every_item (env : Env.t) (self : Digest.t) (w : World.t) :
  (Digest.news_items self = [] ->
   generate_html env self w = (Ok "<p>No news items found.</p>", w)) /\
  (Digest.news_items self <> [] ->
   exists html,
     generate_html env self w = (Ok html, World.tick w) /\
     forall item, In item (Digest.news_items self) ->
       is_substring (html_item item) html /\
       is_substring (html_source_open (NewsItem.source item)) html /\
       is_substring (NewsItem.url item) html /\
       is_substring (NewsItem.title item) html /\
       is_substring (NewsItem.description item) html /\
       is_substring (NewsItem.date item) html).
Proof.
  split.
  - intros Hnone. unfold generate_html. rewrite Hnone. reflexivity.
  - intros Hne. destruct (Digest.news_items self) as [|first others] eqn:Hitems;
      [congruence|].
    eexists. split; [apply (generate_html_run env self w first others Hitems)|].
    intros item Hin.
    set (group := List.filter (has_source (NewsItem.source item)) (first :: others)).
    assert (Hitem : In item group).
    { apply filter_In. split; [exact Hin|apply String.eqb_refl]. }
    assert (Hgroup : In (NewsItem.source item, group) (group_by_source (first :: others))).
    { apply group_by_source_groups. split; [reflexivity|].
      intros E. rewrite E in Hitem. destruct Hitem. }
    assert (Hsection : is_substring (html_of_source (NewsItem.source item, group))
              (html_header (strftime_ymd_hm (Env.datetime_now env (World.ticks w)))
                 +:+ concat_str (map html_of_source (group_by_source (first :: others)))
                 +:+ html_footer)).
    { apply is_substring_app_r, is_substring_app_l.
      eapply is_substring_concat; [apply in_map, Hgroup|apply is_substring_refl]. }
    assert (Hblock : is_substring (html_item item)
                       (html_of_source (NewsItem.source item, group))).
    { unfold html_of_source. simpl. apply is_substring_app_r, is_substring_app_l.
      eapply is_substring_concat; [apply in_map, Hitem|apply is_substring_refl]. }
    assert (Hhead : is_substring (html_source_open (NewsItem.source item))
                      (html_of_source (NewsItem.source item, group))).
    { unfold html_of_source. simpl. apply is_substring_app_l, is_substring_refl. }
    destruct (html_item_fields item) as (Hu & Ht & Hd & Hda).
    repeat split; eauto using is_substring_trans.
Qed.

(** ** Saving a digest that is not empty *)




(** X19. Saving the same digest twice under the same name leaves on disk
    what saving it once leaves: the same folders and the same files. *)
Theorem save_to_csv_twice (env : Env.t) (self : Digest.t) (filename : string)
    (w w1 w2 : World.t) :
  save_to_csv env self (Some filename) w = (Ok tt, w1) ->
  save_to_csv env self (Some filename) w1 = (Ok tt, w2) ->
  World.dirs w2 = World.dirs w1 /\ World.files w2 = World.files w1.
Proof.
  unfold save_to_csv. destruct (Digest.news_items self) as [|item items].
  - unfold print. intros H1 H2. injection H1 as <-. injection H2 as <-. split; reflexivity.
  - unfold bind, makedirs, dated_filename, write_file, print, ret.
    intros H1 H2. injection H1 as <-. injection H2 as <-. simpl. split.
    + apply set_eq. intros dir. rewrite !elem_of_union. tauto.
    + apply insert_insert_eq.
Qed.

Lemma save_to_csv_twice_witness :
  let self := Digest.set_news_items (Sample.digest 100) [Sample.item "a" "2025-01-01"] in
  let w1 := snd (save_to_csv Sample.env self (Some "digest.csv") Sample.world) in
  let w2 := snd (save_to_csv Sample.env self (Some "digest.csv") w1) in
  World.dirs w2 = World.dirs w1 /\ World.files w2 = World.files w1.
Proof.
  intros self w1 w2.
  apply (save_to_csv_twice Sample.env self "digest.csv" Sample.world w1 w2); reflexivity.
Defined.



(** ** The fields of an entry *)

(** X21. The date of the item made of an accepted entry: the structured
    timestamp when it formats, whatever the date string says; the date read
    from the clock when the timestamp is there and fails to format, the
    date string not being tried; the parsed date string when there is no
    timestamp, or a timestamp that is [None]. *)
Theorem accepted_entry_date (env : Env.t) (self : Digest.t) (feed : FeedSource.t)
    (entry : Entry.t) (title : string) (feed_items : list NewsItem.t) (w : World.t) :
  Entry.title entry = Some title ->
  truthy title && truthy (entry_url entry) &&
    _is_related_to_automation self title (entry_description entry) = true ->
  exists n,
    process_entry env self feed entry feed_items w = (Ok (feed_items ++ [n]), World.tick w) /\
    let today := strftime_ymd (Env.datetime_now env (World.ticks w)) in
    (forall t d, Entry.published_parsed entry = Some (Some t) ->
                 Env.time_strftime_ymd env t = Ok d -> NewsItem.date n = d) /\
    (forall t e, Entry.published_parsed entry = Some (Some t) ->
                 Env.time_strftime_ymd env t = Raise e -> NewsItem.date n = today) /\
    (forall p d, Entry.published_parsed entry = None \/
                 Entry.published_parsed entry = Some None ->
                 Entry.pubDate entry = Some p ->
                 Env.pd_to_datetime_ymd env p = Ok d -> NewsItem.date n = d).
Proof.
  intros Htitle Hacc. rewrite process_entry_run, Htitle, Hacc.
  eexists. split; [reflexivity|]. simpl. unfold entry_pub_date. repeat split.
  - intros t d -> ->. reflexivity.
  - intros t e -> ->. reflexivity.
  - intros p d [-> | ->] -> ->; reflexivity.
Qed.

Lemma accepted_entry_date_witness :
  exists n,
    process_entry Sample.env (Sample.digest 100) Sample.one Sample.office [] Sample.world =
      (Ok ([] ++ [n]), World.tick Sample.world) /\
    NewsItem.date n = "2025-03-07".
Proof.
  destruct (accepted_entry_date Sample.env (Sample.digest 100) Sample.one Sample.office
              "The automation of the office is here" [] Sample.world)
    as (n & Hrun & Hts & _); [reflexivity | vm_compute; reflexivity |].
  exists n. split; [exact Hrun|].
  apply (Hts (Sample.tm 2025 3 7)); [reflexivity|vm_compute; reflexivity].
Defined.

(** X22. An entry that has a title is never an error, and it is left out,
    whatever its text, when its title is empty, when it has no link or when
    its link is empty. Its description is the summary when it has one, also
    an empty one, before the description and the content blocks are looked
    at. *)
Theorem entry_left_out (env : Env.t) (self : Digest.t) (feed : FeedSource.t)
    (entry : Entry.t) (title : string) (feed_items : list NewsItem.t) (w : World.t) :
  Entry.title entry = Some title ->
  (exists items, process_entry env self feed entry feed_items w = (Ok items, World.tick w)) /\
  (title = EmptyString \/ Entry.link entry = None \/ Entry.link entry = Some EmptyString ->
   process_entry env self feed entry feed_items w = (Ok feed_items, World.tick w)) /\
  (forall summary, Entry.summary entry = Some summary ->
                   entry_description entry = summary).
Proof.
  intros Htitle. rewrite process_entry_run, Htitle. split; [eauto|]. split.
  - unfold entry_url. intros [-> | [-> | ->]]; simpl; rewrite ?andb_false_r; reflexivity.
  - intros summary Hs. unfold entry_description. rewrite Hs. reflexivity.
Qed.

Lemma entry_left_out_witness :
  process_entry Sample.env (Sample.digest 100) Sample.one
    (Sample.entry (Some "The automation of the office is here") None None None None)
    [] Sample.world = (Ok [], World.tick Sample.world).
Proof.
  apply (entry_left_out Sample.env (Sample.digest 100) Sample.one
           (Sample.entry (Some "The automation of the office is here") None None None None)
           "The automation of the office is here" [] Sample.world);
    [reflexivity|right; left; reflexivity].
Defined.

(** ** A new object *)

(** X23. A new object stores no item and never has an empty keyword list:
    the keywords given are kept as they are when there is at least one, and
    the default keywords stand in for [None] and for the empty list alike,
    so that the keyword test cannot be turned off through the
    constructor. *)
Theorem init_keywords_never_empty (keywords : option (list string)) (max_results : Z)
    (debug_mode : bool) :
  let self := __init__ keywords max_results debug_mode in
  Digest.keywords self <> [] /\
  Digest.news_items self = [] /\
  (forall given, keywords = Some given -> given <> [] -> Digest.keywords self = given) /\
  (keywords = None \/ keywords = Some [] -> Digest.keywords self = default_keywords).
Proof.
  cbv zeta. split; [|split; [reflexivity|split]].
  - destruct keywords as [[|k ks]|]; simpl; discriminate.
  - intros given -> Hne. destruct given; [congruence|reflexivity].
  - intros [-> | ->]; reflexivity.
Qed.

(** * The script around the class *)

(** ** Running this layer *)

Lemma and_then_run {A B} (c : Run A) (k : A -> Run B) w :
  and_then c k w =
  match c w with
  | (Done a, w') => k a w'
  | (Failed e, w') => (Failed e, w')
  end.
Proof. reflexivity. Qed.

Lemma path_exists_file path text w :
  World.files w !! path = Some text -> path_exists path w = (Done true, w).
Proof.
  intros H. unfold path_exists. rewrite H.
  rewrite bool_decide_eq_true_2 by eauto. reflexivity.
Qed.

Lemma path_exists_none path w :
  World.files w !! path = None -> path ∉ World.dirs w ->
  path_exists path w = (Done false, w).
Proof.
  intros Hf Hd. unfold path_exists. rewrite Hf.
  rewrite bool_decide_eq_false_2 by (intros [x Hx]; discriminate).
  rewrite bool_decide_eq_false_2 by exact Hd. reflexivity.
Qed.

Lemma read_text_file path text w :
  World.files w !! path = Some text -> read_text path w = (Done text, w).
Proof. intros H. unfold read_text. rewrite H. reflexivity. Qed.

(** ** The summary *)

(** the request [get_claude_summary] sends for a key file and a digest *)
Lemma get_claude_summary_run env svc w key_text html_content :
  let html_file :=
    summary_html_file (strftime_ymd (Env.datetime_now env (World.ticks w))) in
  World.files w !! "user_api_key.txt" = Some key_text ->
  World.files w !! html_file = Some html_content ->
  get_claude_summary env svc w =
  attempt
    (response <~ post svc (summary_request (strip key_text) html_content) ;;
     if (Response.status_code response =? 200)%Z then
       result <~ of_outcome (Response.json response) ;;
       content <~ of_outcome (Json.getitem result "content") ;;
       block <~ of_outcome (Json.first content) ;;
       summary <~ of_outcome (Json.getitem block "text") ;;
       current <~ lift (now env) ;;
       done summary
     else done Json.Null)
    (fun _ => done Json.Null) (World.tick w).
Proof.
  intros html_file Hkey Hhtml. unfold get_claude_summary.
  rewrite and_then_run, (path_exists_file _ _ _ Hkey). cbn [negb].
  rewrite and_then_run, (read_text_file _ _ _ Hkey).
  rewrite and_then_run. unfold lift at 1, now at 1. cbn iota beta.
  rewrite and_then_run.
  assert (Hhtml' : World.files (World.tick w) !! html_file = Some html_content) by exact Hhtml.
  fold html_file. rewrite (path_exists_file _ _ _ Hhtml'). cbn [negb].
  rewrite and_then_run, (read_text_file _ _ _ Hhtml'). reflexivity.
Qed.

Lemma summary_attempt_done env svc request w :
  exists v w',
    attempt
      (response <~ post svc request ;;
       if (Response.status_code response =? 200)%Z then
         result <~ of_outcome (Response.json response) ;;
         content <~ of_outcome (Json.getitem result "content") ;;
         block <~ of_outcome (Json.first content) ;;
         summary <~ of_outcome (Json.getitem block "text") ;;
         current <~ lift (now env) ;;
         done summary
       else done Json.Null)
      (fun _ => done Json.Null) w = (Done v, w') /\
    World.ticks w < World.ticks w' /\
    World.dirs w' = World.dirs w /\ World.files w' = World.files w /\
    World.stdout w' = World.stdout w /\
    (v <> Json.Null ->
     exists response result content block,
       Services.requests_post svc (World.ticks w) request = Done response /\
       Response.status_code response = 200%Z /\
       Response.json response = Done result /\
       Json.getitem result "content" = Done content /\
       Json.first content = Done block /\
       Json.getitem block "text" = Done v).
Proof.
  unfold attempt, and_then, post, of_outcome, lift, now, done.
  destruct (Services.requests_post svc (World.ticks w) request) as [response|e] eqn:Hpost;
    [destruct (Z.eqb_spec (Response.status_code response) 200) as [Hs|Hs];
     [destruct (Response.json response) as [result|e] eqn:Hj;
      [destruct (Json.getitem result "content") as [content|e] eqn:Hc;
       [destruct (Json.first content) as [block|e] eqn:Hb;
        [destruct (Json.getitem block "text") as [summary|e] eqn:Ht|]|]|]|]|].
  all: eexists; eexists; (split; [reflexivity|]); simpl.
  all: split; [lia|]; split; [reflexivity|]; split; [reflexivity|]; split; [reflexivity|].
  all: try (intros Hv; exfalso; apply Hv; reflexivity).
  intros _. exists response, result, content, block. repeat split; assumption.
Qed.

(** X24. [get_claude_summary] sends no request and returns [None] when the
    key file is missing, and, after one look at the clock, when the HTML
    file of the day is missing. With both files it never raises, whatever
    the service does, and writes nothing; what it returns is not [None]
    only when the request, sent with the stripped key and with the prompt
    around the text of the HTML file, was answered with status 200 and a
    body whose [content[0].text] is the value returned. *)
Theorem get_claude_summary_cases (env : Env.t) (svc : Services.t) (w : World.t) :
  let html_file :=
    summary_html_file (strftime_ymd (Env.datetime_now env (World.ticks w))) in
  (World.files w !! "user_api_key.txt" = None -> "user_api_key.txt" ∉ World.dirs w ->
   get_claude_summary env svc w = (Done Json.Null, w)) /\
  (forall key_text,
     World.files w !! "user_api_key.txt" = Some key_text ->
     World.files w !! html_file = None -> html_file ∉ World.dirs w ->
     get_claude_summary env svc w = (Done Json.Null, World.tick w)) /\
  (forall key_text html_content,
     World.files w !! "user_api_key.txt" = Some key_text ->
     World.files w !! html_file = Some html_content ->
     exists v w',
       get_claude_summary env svc w = (Done v, w') /\
       World.dirs w' = World.dirs w /\ World.files w' = World.files w /\
       (v <> Json.Null ->
        exists response result content block,
          Services.requests_post svc (S (World.ticks w))
            (summary_request (strip key_text) html_content) = Done response /\
          Response.status_code response = 200%Z /\
          Response.json response = Done result /\
          Json.getitem result "content" = Done content /\
          Json.first content = Done block /\
          Json.getitem block "text" = Done v)) /\
  (forall key_text html_content response result content block v,
     World.files w !! "user_api_key.txt" = Some key_text ->
     World.files w !! html_file = Some html_content ->
     Services.requests_post svc (S (World.ticks w))
       (summary_request (strip key_text) html_content) = Done response ->
     Response.status_code response = 200%Z ->
     Response.json response = Done result ->
     Json.getitem result "content" = Done content ->
     Json.first content = Done block ->
     Json.getitem block "text" = Done v ->
     get_claude_summary env svc w = (Done v, World.tick (World.tick (World.tick w)))).
Proof.
  intros html_file. split; [|split; [|split]].
  - intros Hf Hd. unfold get_claude_summary.
    rewrite and_then_run, (path_exists_none _ _ Hf Hd). reflexivity.
  - intros key_text Hkey Hf Hd. unfold get_claude_summary.
    rewrite and_then_run, (path_exists_file _ _ _ Hkey). cbn [negb].
    rewrite and_then_run, (read_text_file _ _ _ Hkey).
    rewrite and_then_run. unfold lift at 1, now at 1. cbn iota beta.
    rewrite and_then_run. fold html_file.
    rewrite (path_exists_none html_file (World.tick w) Hf Hd). reflexivity.
  - intros key_text html_content Hkey Hhtml.
    rewrite (get_claude_summary_run env svc w key_text html_content Hkey Hhtml).
    destruct (summary_attempt_done env svc (summary_request (strip key_text) html_content)
                (World.tick w)) as (v & w' & -> & _ & Hd & Hf & _ & Hv).
    exists v, w'. split; [reflexivity|]. split; [exact Hd|]. split; [exact Hf|exact Hv].
  - intros key_text html_content response result content block v
      Hkey Hhtml Hpost Hs Hj Hc Hb Ht.
    rewrite (get_claude_summary_run env svc w key_text html_content Hkey Hhtml).
    unfold attempt, and_then, post, of_outcome, lift, now, done. simpl.
    rewrite Hpost, Hs, Hj, Hc, Hb, Ht. reflexivity.
Qed.

(** The run of the script on a desk with a key file and a digest: three
    ticks, for the clock, the request and the clock again. *)
Example get_claude_summary_on_desk :
  get_claude_summary Sample.env (Desk.svc true) Desk.world =
  (Done (Json.Str "* More teams automate."),
   World.tick (World.tick (World.tick Desk.world))).
Proof. vm_compute. reflexivity. Qed.

(** ** The configuration of the mail *)

Lemma setup_email_config_stored svc w text :
  World.files w !! "email_config.json" = Some text ->
  setup_email_config svc w = (Services.json_loads svc text, w).
Proof.
  intros H. unfold setup_email_config.
  rewrite and_then_run, (path_exists_file _ _ _ H).
  rewrite and_then_run, (read_text_file _ _ _ H). reflexivity.
Qed.

(** X25. The configuration is asked for once. Without a configuration file,
    [setup_email_config] asks for the address, the password and the
    recipient, in this order, and writes the dictionary with these three
    answers, the password as it was typed, into [email_config.json],
    leaving every other file as it was. A second call, when the parser reads
    back what the printer wrote, returns the same dictionary without asking
    and without changing the world. *)
Theorem setup_email_config_asks_once (svc : Services.t) (w : World.t)
    (username password recipient : string) :
  World.files w !! "email_config.json" = None ->
  "email_config.json" ∉ World.dirs w ->
  Services.input svc (World.ticks w) "Enter your Gmail address: " = Done username ->
  Services.getpass svc (S (World.ticks w))
    "Enter your email password or app password: " = Done password ->
  Services.input svc (S (S (World.ticks w)))
    "Enter recipient email address (can be the same): " = Done recipient ->
  let config :=
    Json.Obj [("smtp_server", Json.Str "smtp.gmail.com");
              ("smtp_port", Json.Num 587);
              ("username", Json.Str username);
              ("password", Json.Str password);
              ("recipient", Json.Str recipient)] in
  Services.json_loads svc (Services.json_dumps svc config) = Done config ->
  exists w1,
    setup_email_config svc w = (Done config, w1) /\
    World.files w1 !! "email_config.json" = Some (Services.json_dumps svc config) /\
    (forall other, other <> "email_config.json" ->
                   World.files w1 !! other = World.files w !! other) /\
    setup_email_config svc w1 = (Done config, w1).
Proof.
  intros Hf Hd Hu Hp Hr config Hround.
  assert (Hfirst : setup_email_config svc w =
            (Done config,
             World.put_file "email_config.json" (Services.json_dumps svc config)
               (World.tick (World.tick (World.tick w))))).
  { unfold setup_email_config.
    rewrite and_then_run, (path_exists_none _ _ Hf Hd).
    unfold and_then, ask, ask_hidden, lift, write_file, done. simpl.
    rewrite Hu, Hp, Hr. reflexivity. }
  eexists. split; [exact Hfirst|]. simpl.
  split; [apply lookup_insert_eq|].
  split; [intros other Hother; apply lookup_insert_ne; congruence|].
  rewrite (setup_email_config_stored svc _ (Services.json_dumps svc config)).
  - rewrite Hround. reflexivity.
  - apply lookup_insert_eq.
Qed.

Lemma setup_email_config_asks_once_witness :
  exists w1,
    setup_email_config (Desk.svc true) Sample.world = (Done Desk.config, w1) /\
    setup_email_config (Desk.svc true) w1 = (Done Desk.config, w1).
Proof.
  destruct (setup_email_config_asks_once (Desk.svc true) Sample.world
              "me@example.org" "secret" "you@example.org")
    as (w1 & Hfirst & _ & _ & Hsecond); try reflexivity.
  - simpl. set_solver.
  - exists w1. split; [exact Hfirst|exact Hsecond].
Defined.


(** ** The mail *)

(** The session with the mail server never raises: it ends with [True]
    when the five calls to the server succeed one after the other, with
    the keys of the configuration they need, and with [False] as soon as
    one thing fails. *)
Lemma mail_session_result svc email_config msg w :
  exists sent w',
    mail_session svc email_config msg w = (Done sent, w') /\
    World.dirs w' = World.dirs w /\ World.files w' = World.files w /\
    World.stdout w' = World.stdout w /\
    (sent = true <->
     exists host port user password recipient,
       Json.getitem email_config "smtp_server" = Done host /\
       Json.getitem email_config "smtp_port" = Done port /\
       Json.getitem email_config "username" = Done user /\
       Json.getitem email_config "password" = Done password /\
       Json.getitem email_config "recipient" = Done recipient /\
       Services.smtp_connect svc (World.ticks w) host port = Done tt /\
       Services.smtp_starttls svc (1 + World.ticks w) = Done tt /\
       Services.smtp_login svc (2 + World.ticks w) user password = Done tt /\
       Services.smtp_send_message svc (3 + World.ticks w) msg = Done tt /\
       Services.smtp_quit svc (4 + World.ticks w) = Done tt).
Proof.
  unfold mail_session, attempt, and_then, of_outcome, smtp_connect, smtp_starttls,
    smtp_login, smtp_send_message, smtp_quit, done.
  destruct (Json.getitem email_config "smtp_server") as [host|e] eqn:Hhost.
  2:{ eexists. eexists. split; [reflexivity|]. repeat split; try discriminate.
      intros (?&?&?&?&?&H&_). discriminate. }
  destruct (Json.getitem email_config "smtp_port") as [port|e] eqn:Hport.
  2:{ eexists. eexists. split; [reflexivity|]. repeat split; try discriminate.
      intros (?&?&?&?&?&_&H&_). discriminate. }
  destruct (Services.smtp_connect svc (World.ticks w) host port) as [[]|e] eqn:Hc.
  2:{ eexists. eexists. split; [reflexivity|]. repeat split; try discriminate.
      intros (?&?&?&?&?&H1&H2&_&_&_&H&_). congruence. }
  simpl.
  destruct (Services.smtp_starttls svc (S (World.ticks w))) as [[]|e] eqn:Hs.
  2:{ eexists. eexists. split; [reflexivity|]. repeat split; try discriminate.
      intros (?&?&?&?&?&_&_&_&_&_&_&H&_). simpl in H. congruence. }
  destruct (Json.getitem email_config "username") as [user|e] eqn:Huser.
  2:{ eexists. eexists. split; [reflexivity|]. repeat split; try discriminate.
      intros (?&?&?&?&?&_&_&H&_). discriminate. }
  destruct (Json.getitem email_config "password") as [password|e] eqn:Hpw.
  2:{ eexists. eexists. split; [reflexivity|]. repeat split; try discriminate.
      intros (?&?&?&?&?&_&_&_&H&_). discriminate. }
  simpl.
  destruct (Services.smtp_login svc (S (S (World.ticks w))) user password)
    as [[]|e] eqn:Hl.
  2:{ eexists. eexists. split; [reflexivity|]. repeat split; try discriminate.
      intros (?&?&?&?&?&_&_&H1&H2&_&_&_&H&_). simpl in H. congruence. }
  simpl.
  destruct (Services.smtp_send_message svc (S (S (S (World.ticks w)))) msg)
    as [[]|e] eqn:Hm.
  2:{ eexists. eexists. split; [reflexivity|]. repeat split; try discriminate.
      intros (?&?&?&?&?&_&_&_&_&_&_&_&_&H&_). simpl in H. congruence. }
  simpl.
  destruct (Services.smtp_quit svc (S (S (S (S (World.ticks w)))))) as [[]|e] eqn:Hq.
  2:{ eexists. eexists. split; [reflexivity|]. repeat split; try discriminate.
      intros (?&?&?&?&?&_&_&_&_&_&_&_&_&_&H). simpl in H. congruence. }
  destruct (Json.getitem email_config "recipient") as [recipient|e] eqn:Hr.
  2:{ eexists. eexists. split; [reflexivity|]. repeat split; try discriminate.
      intros (?&?&?&?&?&_&_&_&_&H&_). discriminate. }
  eexists. eexists. split; [reflexivity|]. simpl. repeat split.
  exists host, port, user, password, recipient. repeat split; assumption.
Qed.

Lemma generate_html_ok env self w :
  exists html w',
    generate_html env self w = (Ok html, w') /\
    World.dirs w' = World.dirs w /\ World.files w' = World.files w.
Proof.
  destruct (Digest.news_items self) as [|item items] eqn:Hitems.
  - exists "<p>No news items found.</p>", w. unfold generate_html. rewrite Hitems.
    repeat split.
  - eexists. exists (World.tick w).
    rewrite (generate_html_run env self w item items Hitems). repeat split.
Qed.

(** With a configuration that loads and has the two addresses, and a summary
    that can be put into the mail, [send_news_digest_email] comes to the
    session with the mail server, with the mail made of the digest. *)
Lemma send_news_digest_email_run env svc digest_obj claude_summary w
    text email_config sender recipient part :
  World.files w !! "email_config.json" = Some text ->
  Services.json_loads svc text = Done email_config ->
  Json.getitem email_config "username" = Done sender ->
  Json.getitem email_config "recipient" = Done recipient ->
  summary_part svc claude_summary = Done part ->
  exists digest_html w1,
    generate_html env digest_obj (World.tick w) = (Ok digest_html, w1) /\
    World.dirs w1 = World.dirs w /\ World.files w1 = World.files w /\
    send_news_digest_email env svc digest_obj claude_summary w =
    mail_session svc email_config
      (mail_message svc
         (Services.strftime_long svc (Env.datetime_now env (World.ticks w)))
         sender recipient part digest_html) w1.
Proof.
  intros Hfile Hload Hsender Hrecipient Hpart.
  destruct (generate_html_ok env digest_obj (World.tick w))
    as (digest_html & w1 & Hhtml & Hdirs & Hfiles).
  exists digest_html, w1. split; [exact Hhtml|]. split; [exact Hdirs|].
  split; [exact Hfiles|].
  unfold send_news_digest_email.
  rewrite and_then_run, (setup_email_config_stored svc w text Hfile), Hload.
  rewrite and_then_run. unfold lift at 1, now at 1. cbn iota beta.
  rewrite and_then_run. unfold of_outcome at 1. rewrite Hsender.
  rewrite and_then_run. unfold of_outcome at 1. rewrite Hrecipient.
  rewrite and_then_run. unfold of_outcome at 1. rewrite Hpart.
  rewrite and_then_run. unfold lift at 1. rewrite Hhtml. reflexivity.
Qed.

(** X27. With a configuration file that loads and has the two addresses,
    [send_news_digest_email] never raises for a summary that can be put
    into the mail, and it changes no file: it returns [True] exactly when
    the connection, [starttls], the login, the sending of the mail made of
    the date, the summary and the digest, and [quit] all succeed, one after
    the other, and [False] as soon as one of them fails. *)
Theorem send_news_digest_email_sent (env : Env.t) (svc : Services.t)
    (digest_obj : Digest.t) (claude_summary : Json.t) (w : World.t)
    (text : string) (email_config sender recipient : Json.t) (part : string) :
  World.files w !! "email_config.json" = Some text ->
  Services.json_loads svc text = Done email_config ->
  Json.getitem email_config "username" = Done sender ->
  Json.getitem email_config "recipient" = Done recipient ->
  summary_part svc claude_summary = Done part ->
  exists sent w' digest_html w1,
    generate_html env digest_obj (World.tick w) = (Ok digest_html, w1) /\
    send_news_digest_email env svc digest_obj claude_summary w = (Done sent, w') /\
    World.dirs w' = World.dirs w /\ World.files w' = World.files w /\
    (sent = true <->
     exists host port password,
       Json.getitem email_config "smtp_server" = Done host /\
       Json.getitem email_config "smtp_port" = Done port /\
       Json.getitem email_config "password" = Done password /\
       Services.smtp_connect svc (World.ticks w1) host port = Done tt /\
       Services.smtp_starttls svc (1 + World.ticks w1) = Done tt /\
       Services.smtp_login svc (2 + World.ticks w1) sender password = Done tt /\
       Services.smtp_send_message svc (3 + World.ticks w1)
         (mail_message svc
            (Services.strftime_long svc (Env.datetime_now env (World.ticks w)))
            sender recipient part digest_html) = Done tt /\
       Services.smtp_quit svc (4 + World.ticks w1) = Done tt).
Proof.
  intros Hfile Hload Hsender Hrecipient Hpart.
  destruct (send_news_digest_email_run env svc digest_obj claude_summary w
              text email_config sender recipient part Hfile Hload Hsender Hrecipient Hpart)
    as (digest_html & w1 & Hhtml & Hdirs & Hfiles & ->).
  destruct (mail_session_result svc email_config
              (mail_message svc
                 (Services.strftime_long svc (Env.datetime_now env (World.ticks w)))
                 sender recipient part digest_html) w1)
    as (sent & w' & Hrun & Hd & Hf & _ & Hsent).
  exists sent, w', digest_html, w1. split; [exact Hhtml|]. split; [exact Hrun|].
  split; [congruence|]. split; [congruence|].
  rewrite Hsent. split.
  - intros (host & port & user & password & rcpt & H1 & H2 & H3 & H4 & _ & H6 & H7 & H8 & H9 & H10).
    assert (user = sender) as -> by congruence.
    exists host, port, password. repeat split; assumption.
  - intros (host & port & password & H1 & H2 & H4 & H6 & H7 & H8 & H9 & H10).
    exists host, port, sender, password, recipient. repeat split; assumption.
Qed.

Lemma send_news_digest_email_sent_witness :
  fst (send_news_digest_email Sample.env (Desk.svc true) (Sample.digest 10)
         (Json.Str "* More teams automate.") Desk.configured) = Done true /\
  fst (send_news_digest_email Sample.env (Desk.svc false) (Sample.digest 10)
         (Json.Str "* More teams automate.") Desk.configured) = Done false.
Proof.
  assert (Hfile : World.files Desk.configured !! "email_config.json" = Some "saved")
    by reflexivity.
  split.
  - destruct (send_news_digest_email_sent Sample.env (Desk.svc true) (Sample.digest 10)
                (Json.Str "* More teams automate.") Desk.configured "saved" Desk.config
                (Json.Str "me@example.org") (Json.Str "you@example.org")
                "<br>* More teams automate." Hfile eq_refl eq_refl eq_refl eq_refl)
      as (sent & w' & digest_html & w1 & _ & Hrun & _ & _ & Hsent).
    rewrite Hrun. simpl. f_equal. apply Hsent.
    exists (Json.Str "smtp.gmail.com"), (Json.Num 587), (Json.Str "secret").
    repeat split.
  - destruct (send_news_digest_email_sent Sample.env (Desk.svc false) (Sample.digest 10)
                (Json.Str "* More teams automate.") Desk.configured "saved" Desk.config
                (Json.Str "me@example.org") (Json.Str "you@example.org")
                "<br>* More teams automate." Hfile eq_refl eq_refl eq_refl eq_refl)
      as (sent & w' & digest_html & w1 & _ & Hrun & _ & _ & Hsent).
    rewrite Hrun. simpl. f_equal. destruct sent; [|reflexivity].
    destruct (proj1 Hsent eq_refl) as (host & port & password & _ & _ & _ & Hc & _).
    discriminate Hc.
Defined.

(** a text that does not hold [old] is left as it is *)
Lemma replace_absent old new s :
  old <> EmptyString -> Str.str_in old s = false -> replace old new s = s.
Proof.
  intros Hold. destruct old as [|a old]; [contradiction|]. unfold replace.
  induction s as [|c s IH]; [reflexivity|].
  rewrite str_in_unfold. intros H. apply orb_false_iff in H as [Hstart Hrest].
  cbn [replace_from]. rewrite Hstart, (IH Hrest). reflexivity.
Qed.

(** X28. The summary in the mail, with a configuration file that loads and
    has the two addresses. A value that is true and is not a string makes
    [send_news_digest_email] raise an [AttributeError], outside its [try],
    after one look at the clock and before any call to the mail server.
    Every false value, [None] and the empty string among them, gives the same
    mail, with the line that says there is no summary. A text that has
    neither a star nor a bullet goes into the mail as it is. *)
Theorem send_news_digest_email_summary (env : Env.t) (svc : Services.t)
    (digest_obj : Digest.t) (w : World.t)
    (text : string) (email_config sender recipient : Json.t) :
  World.files w !! "email_config.json" = Some text ->
  Services.json_loads svc text = Done email_config ->
  Json.getitem email_config "username" = Done sender ->
  Json.getitem email_config "recipient" = Done recipient ->
  (forall v, Json.truthy v = true -> (forall s, v <> Json.Str s) ->
             send_news_digest_email env svc digest_obj v w =
             (Failed (PyExn "AttributeError" "replace"), World.tick w)) /\
  exists digest_html w1,
    generate_html env digest_obj (World.tick w) = (Ok digest_html, w1) /\
    let today_date := Services.strftime_long svc (Env.datetime_now env (World.ticks w)) in
    (forall v, Json.truthy v = false ->
               send_news_digest_email env svc digest_obj v w =
               mail_session svc email_config
                 (mail_message svc today_date sender recipient mail_no_summary digest_html)
                 w1) /\
    (forall s, s <> EmptyString -> Services.bullet svc <> EmptyString ->
               Str.str_in "*" s = false -> Str.str_in (Services.bullet svc) s = false ->
               send_news_digest_email env svc digest_obj (Json.Str s) w =
               mail_session svc email_config
                 (mail_message svc today_date sender recipient s digest_html) w1).
Proof.
  intros Hfile Hload Hsender Hrecipient. split.
  - intros v Hv Hstr. unfold send_news_digest_email.
    rewrite and_then_run, (setup_email_config_stored svc w text Hfile), Hload.
    rewrite and_then_run. unfold lift at 1, now at 1. cbn iota beta.
    rewrite and_then_run. unfold of_outcome at 1. rewrite Hsender.
    rewrite and_then_run. unfold of_outcome at 1. rewrite Hrecipient.
    rewrite and_then_run. unfold of_outcome at 1, summary_part. rewrite Hv.
    destruct v as [|b|n|s|items|fields]; try reflexivity.
    exfalso. apply (Hstr s). reflexivity.
  - destruct (send_news_digest_email_run env svc digest_obj Json.Null w
                text email_config sender recipient mail_no_summary
                Hfile Hload Hsender Hrecipient eq_refl)
      as (digest_html & w1 & Hhtml & _ & _ & _).
    exists digest_html, w1. split; [exact Hhtml|]. cbn zeta. split.
    + intros v Hv.
      destruct (send_news_digest_email_run env svc digest_obj v w
                  text email_config sender recipient mail_no_summary
                  Hfile Hload Hsender Hrecipient)
        as (digest_html' & w1' & Hhtml' & _ & _ & Hrun).
      * unfold summary_part. rewrite Hv. reflexivity.
      * rewrite Hrun. congruence.
    + intros s Hs Hbullet Hstar Hno.
      destruct (send_news_digest_email_run env svc digest_obj (Json.Str s) w
                  text email_config sender recipient s
                  Hfile Hload Hsender Hrecipient)
        as (digest_html' & w1' & Hhtml' & _ & _ & Hrun).
      * unfold summary_part, summary_html. cbn [Json.truthy].
        destruct (String.eqb_spec s EmptyString) as [->|_]; [contradiction|].
        cbn [negb]. rewrite (replace_absent _ _ s Hbullet Hno).
        rewrite (replace_absent "*" "<br>*" s) by (discriminate || exact Hstar).
        reflexivity.
      * rewrite Hrun. congruence.
Qed.

Lemma send_news_digest_email_summary_witness :
  send_news_digest_email Sample.env (Desk.svc true) (Sample.digest 10) (Json.Num 3)
    Desk.configured =
  (Failed (PyExn "AttributeError" "replace"), World.tick Desk.configured) /\
  send_news_digest_email Sample.env (Desk.svc true) (Sample.digest 10)
    (Json.Str EmptyString) Desk.configured =
  send_news_digest_email Sample.env (Desk.svc true) (Sample.digest 10)
    Json.Null Desk.configured.
Proof.
  assert (Hfile : World.files Desk.configured !! "email_config.json" = Some "saved")
    by reflexivity.
  destruct (send_news_digest_email_summary Sample.env (Desk.svc true) (Sample.digest 10)
              Desk.configured "saved" Desk.config
              (Json.Str "me@example.org") (Json.Str "you@example.org")
              Hfile eq_refl eq_refl eq_refl)
    as (Hraise & digest_html & w1 & _ & Hnone & _).
  split.
  - apply Hraise; [reflexivity|discriminate].
  - rewrite (Hnone (Json.Str EmptyString) eq_refl), (Hnone Json.Null eq_refl).
    reflexivity.
Defined.

(** ** The daily run *)












(** The daily run on a desk where nothing is configured and every service
    answers: the configuration is asked for and the run ends with [True]. *)
Example send_daily_digest_on_desk :
  fst (send_daily_digest Sample.env (Desk.svc true) Sample.world) = Done true.
Proof. vm_compute. reflexivity. Qed.
